(** * Course catalog viewer (script.js): a shallow embedding

    The script keeps two module-level arrays, [allCourses] and
    [filteredCourses], fills them from a JSON file chosen by the user, and
    redraws a list and a details panel whenever a filter or sort control
    changes.

    Conventions of the embedding.
    - A JavaScript value is a [JSValue]: the values [JSON.parse] can build,
      plus [undefined], which reading a missing property yields.
    - Numbers are the integral doubles of the safe-integer range, carried by
      [Z]; arithmetic on them is exact there.  [NaN], which no JSON text
      denotes, only arises from [parseInt] and [ToNumber] and is the [None]
      of an [option Z].
    - Strings are sequences of code units, carried by [string].
    - A thrown exception is the [Throw] of a [result]; handlers that touch
      the page or the two arrays run in a state-and-exception monad [M] in
      which the state written before a throw is kept, as in JavaScript.
    - Built-ins whose behaviour belongs to the platform and not to the script
      ([JSON.parse], [String.prototype.localeCompare], the string-to-number
      conversion) are variables of the section [Script]. *)

From Stdlib Require Import ZArith List String Ascii Bool Lia.
From Stdlib Require Import Sorting.Sorted Sorting.Permutation.
From Stdlib Require Import DecimalString DecimalZ DecimalPos DecimalN DecimalFacts.
Import ListNotations.

Set Warnings "-register-all".
Local Open Scope string_scope.
Local Open Scope Z_scope.

(** ** JavaScript values *)

Inductive JSValue : Type :=
| VUndefined
| VNull
| VBool (b : bool)
| VNumber (n : Z)
| VString (s : string)
| VArray (elts : list JSValue)
| VObject (props : list (string * JSValue)).

Inductive exn : Type :=
| TypeError (msg : string)
| SyntaxError (msg : string)
| Error (msg : string).

Inductive result (A : Type) : Type :=
| Ok (a : A)
| Throw (e : exn).
Arguments Ok {A} a.
Arguments Throw {A} e.

Definition rbind {A B} (r : result A) (k : A -> result B) : result B :=
  match r with
  | Ok a => k a
  | Throw e => Throw e
  end.

Declare Scope result_scope.
Delimit Scope result_scope with result.
Notation "x <- r ;; k" := (rbind r (fun x => k))
  (at level 61, r at next level, right associativity) : result_scope.

(** [ToBoolean]: the falsy values are [undefined], [null], [false], [0]
    (and [-0], the same [Z]) and the empty string. *)
Definition truthy (v : JSValue) : bool :=
  match v with
  | VUndefined | VNull => false
  | VBool b => b
  | VNumber n => negb (n =? 0)
  | VString s => negb (s =? "")%string
  | VArray _ | VObject _ => true
  end.

(** [a || b] *)
Definition or_else (a b : JSValue) : JSValue :=
  if truthy a then a else b.

Definition is_string (v : JSValue) : bool :=
  match v with VString _ => true | _ => false end.

Definition is_nullish (v : JSValue) : bool :=
  match v with VUndefined | VNull => true | _ => false end.

(** [Array.isArray] *)
Definition Array_isArray (v : JSValue) : bool :=
  match v with VArray _ => true | _ => false end.

Fixpoint lookup (k : string) (props : list (string * JSValue)) : JSValue :=
  match props with
  | [] => VUndefined
  | (k', v) :: rest => if (k =? k')%string then v else lookup k rest
  end.

(** [raw.k] for one of the eight field names the constructor reads.  Reading
    a property of [null] or [undefined] throws; an object yields the property
    or [undefined]; arrays, strings, numbers and booleans have no own or
    inherited property of those names. *)
Definition get (raw : JSValue) (k : string) : result JSValue :=
  match raw with
  | VUndefined | VNull =>
      Throw (TypeError ("Cannot read properties of null or undefined: " ++ k))
  | VObject props => Ok (lookup k props)
  | _ => Ok VUndefined
  end.

(** [Number.prototype.toString] on a safe integer: its decimal digits, with
    a leading minus sign below zero.  (Past the safe integers the doubles
    print rounded, and from 1e21 in exponent form; [safe_integer] below
    names the range.) *)
Definition Number_toString (n : Z) : string :=
  NilZero.string_of_int (Z.to_int n).

(** [ToString] (the function [String(v)], a template literal's conversion,
    the assignment to [textContent] or to an option's [value]) on a value
    built by [JSON.parse] that can be converted: an object with a key
    [toString] of its own, and an array holding one, make the conversion
    throw a [TypeError] and are outside this function's domain, which
    [printable] below names.  Statements about a conversion carry that
    hypothesis. *)
Fixpoint ToString (v : JSValue) : string :=
  match v with
  | VUndefined => "undefined"
  | VNull => "null"
  | VBool true => "true"
  | VBool false => "false"
  | VNumber n => Number_toString n
  | VString s => s
  | VArray elts =>
      (* Array.prototype.join: null and undefined elements print as empty *)
      let fix join (l : list JSValue) : string :=
        match l with
        | [] => ""
        | [x] => if is_nullish x then "" else ToString x
        | x :: rest =>
            (if is_nullish x then "" else ToString x) ++ "," ++ join rest
        end in
      join elts
  | VObject _ => "[object Object]"
  end.

(** [v === s] against a string: no coercion. *)
Definition strict_eq_string (v : JSValue) (s : string) : bool :=
  match v with
  | VString s' => (s' =? s)%string
  | _ => false
  end.

(** [SameValueZero], the membership test of a [Set].  Primitives compare by
    value.  Every array or object met here is a distinct node of the tree
    [JSON.parse] returned, and two nodes are never the same reference. *)
Definition SameValueZero (a b : JSValue) : bool :=
  match a, b with
  | VUndefined, VUndefined => true
  | VNull, VNull => true
  | VBool x, VBool y => Bool.eqb x y
  | VNumber x, VNumber y => x =? y
  | VString x, VString y => (x =? y)%string
  | _, _ => false
  end.

(** ** Course *)

Record Course : Type := mkCourse {
  id : JSValue;
  title : JSValue;
  department : JSValue;
  level : JSValue;
  credits : JSValue;
  instructor : JSValue;
  description : JSValue;
  semester : JSValue
}.

(** [new Course(raw)] *)
Definition new_Course (raw : JSValue) : result Course :=
  (rid <- get raw "id" ;;
   rtitle <- get raw "title" ;;
   rdepartment <- get raw "department" ;;
   rlevel <- get raw "level" ;;
   rcredits <- get raw "credits" ;;
   rinstructor <- get raw "instructor" ;;
   rdescription <- get raw "description" ;;
   rsemester <- get raw "semester" ;;
   Ok {| id := or_else rid (VString "Unknown ID");
         title := or_else rtitle (VString "Untitled course");
         department := or_else rdepartment (VString "Unknown department");
         level := or_else rlevel VNull;
         credits := or_else rcredits VNull;
         instructor := or_else rinstructor VNull;
         description := or_else rdescription (VString "No description available.");
         semester := or_else rsemester (VString "Unknown semester") |})%result.

(** [course.getInstructorLabel()] *)
Definition getInstructorLabel (c : Course) : JSValue :=
  if truthy (instructor c) then instructor c else VString "TBA".

(** ** Built-ins used by the script *)

(** [Array.prototype.sort(comparefn)]: a stable sort (ECMAScript 2019).  The
    comparator may throw, which aborts the sort and leaves the array as it
    was; a [NaN] answer counts as [0].  The order in which pairs are handed
    to the comparator is the implementation's; here it is that of an
    insertion sort, [a] being the element that came first. *)
Fixpoint Array_insert {A} (comparefn : A -> A -> result (option Z))
    (x : A) (l : list A) : result (list A) :=
  match l with
  | [] => Ok [x]
  | y :: rest =>
      (v <- comparefn x y ;;
       if (match v with Some n => n | None => 0 end) >? 0
       then (r <- Array_insert comparefn x rest ;; Ok (y :: r))
       else Ok (x :: y :: rest))%result
  end.

Fixpoint Array_sort {A} (comparefn : A -> A -> result (option Z))
    (l : list A) : result (list A) :=
  match l with
  | [] => Ok []
  | x :: rest =>
      (sorted <- Array_sort comparefn rest ;; Array_insert comparefn x sorted)%result
  end.

(** The comparator [sort()] uses when given none: the elements' string
    forms, by code units. *)
Definition defaultCompare (x y : JSValue) : result (option Z) :=
  let xs := ToString x in
  let ys := ToString y in
  if String.ltb xs ys then Ok (Some (-1))
  else if String.ltb ys xs then Ok (Some 1)
  else Ok (Some 0).

(** [set.add(x)] on a [Set], kept in insertion order as [Array.from] reads
    it back. *)
Definition Set_add (x : JSValue) (s : list JSValue) : list JSValue :=
  if existsb (SameValueZero x) s then s else s ++ [x].

(** [s.split(' ')] *)
Fixpoint split_on_space (s : string) : list string :=
  match s with
  | EmptyString => [""]
  | String c rest =>
      if (c =? " ")%char then "" :: split_on_space rest
      else match split_on_space rest with
           | [] => [String c ""]
           | p :: ps => String c p :: ps
           end
  end.

(** [v.split(' ')]: only strings have the method. *)
Definition String_split (v : JSValue) : result (list string) :=
  match v with
  | VString s => Ok (split_on_space s)
  | _ => Throw (TypeError "split is not a function")
  end.

(** [parts[i]] *)
Definition index (parts : list string) (i : nat) : JSValue :=
  match nth_error parts i with
  | Some s => VString s
  | None => VUndefined
  end.

(** The white space [parseInt] skips: tab, line feed, vertical tab, form
    feed, carriage return, space and no-break space. *)
Definition is_whitespace (c : ascii) : bool :=
  match nat_of_ascii c with
  | 9 | 10 | 11 | 12 | 13 | 32 | 160 => true
  | _ => false
  end%nat.

Fixpoint trim_start (s : string) : string :=
  match s with
  | EmptyString => ""
  | String c rest => if is_whitespace c then trim_start rest else s
  end.

Definition digit_value (c : ascii) : option Z :=
  let n := Z.of_nat (nat_of_ascii c) in
  if (48 <=? n) && (n <=? 57) then Some (n - 48) else None.

Fixpoint parse_digits (acc : Z) (s : string) : Z :=
  match s with
  | EmptyString => acc
  | String c rest =>
      match digit_value c with
      | Some d => parse_digits (acc * 10 + d) rest
      | None => acc
      end
  end.

(** [parseInt(v, 10)]: leading white space and one sign are skipped, then the
    longest run of decimal digits is read; no digit gives [NaN]. *)
Definition parseInt (v : JSValue) : option Z :=
  let s := trim_start (ToString v) in
  let '(sign, body) :=
    match s with
    | String "-" rest => (-1, rest)
    | String "+" rest => (1, rest)
    | _ => (1, s)
    end in
  match body with
  | EmptyString => None
  | String c _ =>
      match digit_value c with
      | Some _ => Some (sign * parse_digits 0 body)
      | None => None
      end
  end.

(** [n || d] on a number: [NaN] and [0] are falsy. *)
Definition number_or (n : option Z) (d : Z) : Z :=
  match n with
  | Some k => if k =? 0 then d else k
  | None => d
  end.

(** ** Sorting the filtered courses *)

(** The helper [semesterToNumber] of [sortCourses].  The year and the key
    are exact here; the doubles of the script agree while the key stays
    within 2^53, for the years [exact_year] names. *)
Definition semesterToNumber (semString : JSValue) : result Z :=
  if negb (truthy semString) then Ok 0
  else
    (parts <- String_split semString ;;
     let term := index parts 0 in
     let year := number_or (parseInt (index parts 1)) 0 in
     let termOrder :=
       if strict_eq_string term "Winter" then 1
       else if strict_eq_string term "Spring" then 2
       else if strict_eq_string term "Summer" then 3
       else if strict_eq_string term "Fall" then 4
       else 0 in
     Ok (year * 10 + termOrder))%result.

Section Script.

(** [JSON.parse]: the value a text denotes, or a [SyntaxError]. *)
Variable JSON_parse : string -> result JSValue.

(** [String.prototype.localeCompare] in the page's locale. *)
Variable localeCompare : string -> string -> Z.

(** [ToNumber] on a string ([NaN] is [None]). *)
Variable StringToNumber : string -> option Z.

(** [a.localeCompare(b)] on values: only a string receiver has the method;
    the argument is converted to a string. *)
Definition String_localeCompare (a b : JSValue) : result (option Z) :=
  match a with
  | VString s => Ok (Some (localeCompare s (ToString b)))
  | _ => Throw (TypeError "localeCompare is not a function")
  end.

(** The comparator handed to [coursesArray.sort] in [sortCourses]. *)
Definition compareCourses (sortValue : string) (a b : Course)
    : result (option Z) :=
  if (sortValue =? "id-asc")%string then String_localeCompare (id a) (id b)
  else if (sortValue =? "id-desc")%string then String_localeCompare (id b) (id a)
  else if (sortValue =? "title-asc")%string
       then String_localeCompare (title a) (title b)
  else if (sortValue =? "title-desc")%string
       then String_localeCompare (title b) (title a)
  else if (sortValue =? "sem-earliest")%string
       then (ka <- semesterToNumber (semester a) ;;
             kb <- semesterToNumber (semester b) ;;
             Ok (Some (ka - kb)))%result
  else if (sortValue =? "sem-latest")%string
       then (kb <- semesterToNumber (semester b) ;;
             ka <- semesterToNumber (semester a) ;;
             Ok (Some (kb - ka)))%result
  else Ok (Some 0).

(** [sortCourses(coursesArray, sortValue)]: the array after the call, or the
    exception that left it untouched. *)
Definition sortCourses (coursesArray : list Course) (sortValue : string)
    : result (list Course) :=
  if (sortValue =? "none")%string then Ok coursesArray
  else Array_sort (compareCourses sortValue) coursesArray.

(** [ToNumber] *)
Definition ToNumber (v : JSValue) : option Z :=
  match v with
  | VUndefined => None
  | VNull => Some 0
  | VBool b => Some (if b then 1 else 0)
  | VNumber n => Some n
  | VString s => StringToNumber s
  | VArray _ | VObject _ => StringToNumber (ToString v)
  end.

(** The comparator [(a, b) => a - b]. *)
Definition numericCompare (a b : JSValue) : result (option Z) :=
  match ToNumber a, ToNumber b with
  | Some x, Some y => Ok (Some (x - y))
  | _, _ => Ok None
  end.

(** ** The page and the script's variables *)

(** An [<option>] of a [<select>]. *)
Record option_element : Type := mkOption {
  opt_value : string;
  opt_textContent : string
}.

(** A [<select>]: its options and the value of the selected one. *)
Record select_element : Type := mkSelect {
  options : list option_element;
  value : string
}.

(** A child of the course list: the "no courses" paragraph, or one button
    per course, whose click handler closes over the course. *)
Inductive list_node : Type :=
| Paragraph (textContent : string)
| CourseItem (textContent : string) (selected : bool) (course : Course).

Record state : Type := mkState {
  allCourses : list Course;
  filteredCourses : list Course;
  fileNameSpan : string;
  errorMessage : string;
  errorHidden : bool;
  departmentSelect : select_element;
  levelSelect : select_element;
  creditsSelect : select_element;
  instructorSelect : select_element;
  sortSelect : select_element;
  courseListDiv : list list_node;
  (** the course the details panel shows; [None] is the placeholder *)
  courseDetailsDiv : option Course;
  (** what [console.error] has logged *)
  console : list exn
}.

Definition set_allCourses (v : list Course) (st : state) : state :=
  mkState v (filteredCourses st) (fileNameSpan st) (errorMessage st)
    (errorHidden st) (departmentSelect st) (levelSelect st) (creditsSelect st)
    (instructorSelect st) (sortSelect st) (courseListDiv st)
    (courseDetailsDiv st) (console st).

Definition set_filteredCourses (v : list Course) (st : state) : state :=
  mkState (allCourses st) v (fileNameSpan st) (errorMessage st)
    (errorHidden st) (departmentSelect st) (levelSelect st) (creditsSelect st)
    (instructorSelect st) (sortSelect st) (courseListDiv st)
    (courseDetailsDiv st) (console st).

Definition set_fileNameSpan (v : string) (st : state) : state :=
  mkState (allCourses st) (filteredCourses st) v (errorMessage st)
    (errorHidden st) (departmentSelect st) (levelSelect st) (creditsSelect st)
    (instructorSelect st) (sortSelect st) (courseListDiv st)
    (courseDetailsDiv st) (console st).

Definition set_error (msg : string) (hidden : bool) (st : state) : state :=
  mkState (allCourses st) (filteredCourses st) (fileNameSpan st) msg
    hidden (departmentSelect st) (levelSelect st) (creditsSelect st)
    (instructorSelect st) (sortSelect st) (courseListDiv st)
    (courseDetailsDiv st) (console st).

Definition set_departmentSelect (v : select_element) (st : state) : state :=
  mkState (allCourses st) (filteredCourses st) (fileNameSpan st)
    (errorMessage st) (errorHidden st) v (levelSelect st) (creditsSelect st)
    (instructorSelect st) (sortSelect st) (courseListDiv st)
    (courseDetailsDiv st) (console st).

Definition set_levelSelect (v : select_element) (st : state) : state :=
  mkState (allCourses st) (filteredCourses st) (fileNameSpan st)
    (errorMessage st) (errorHidden st) (departmentSelect st) v
    (creditsSelect st) (instructorSelect st) (sortSelect st)
    (courseListDiv st) (courseDetailsDiv st) (console st).

Definition set_creditsSelect (v : select_element) (st : state) : state :=
  mkState (allCourses st) (filteredCourses st) (fileNameSpan st)
    (errorMessage st) (errorHidden st) (departmentSelect st) (levelSelect st)
    v (instructorSelect st) (sortSelect st) (courseListDiv st)
    (courseDetailsDiv st) (console st).

Definition set_instructorSelect (v : select_element) (st : state) : state :=
  mkState (allCourses st) (filteredCourses st) (fileNameSpan st)
    (errorMessage st) (errorHidden st) (departmentSelect st) (levelSelect st)
    (creditsSelect st) v (sortSelect st) (courseListDiv st)
    (courseDetailsDiv st) (console st).

Definition set_sortSelect (v : select_element) (st : state) : state :=
  mkState (allCourses st) (filteredCourses st) (fileNameSpan st)
    (errorMessage st) (errorHidden st) (departmentSelect st) (levelSelect st)
    (creditsSelect st) (instructorSelect st) v (courseListDiv st)
    (courseDetailsDiv st) (console st).

Definition set_courseListDiv (v : list list_node) (st : state) : state :=
  mkState (allCourses st) (filteredCourses st) (fileNameSpan st)
    (errorMessage st) (errorHidden st) (departmentSelect st) (levelSelect st)
    (creditsSelect st) (instructorSelect st) (sortSelect st) v
    (courseDetailsDiv st) (console st).

Definition set_courseDetailsDiv (v : option Course) (st : state) : state :=
  mkState (allCourses st) (filteredCourses st) (fileNameSpan st)
    (errorMessage st) (errorHidden st) (departmentSelect st) (levelSelect st)
    (creditsSelect st) (instructorSelect st) (sortSelect st)
    (courseListDiv st) v (console st).

Definition set_console (v : list exn) (st : state) : state :=
  mkState (allCourses st) (filteredCourses st) (fileNameSpan st)
    (errorMessage st) (errorHidden st) (departmentSelect st) (levelSelect st)
    (creditsSelect st) (instructorSelect st) (sortSelect st)
    (courseListDiv st) (courseDetailsDiv st) v.

(** ** Statements that read and write the state and may throw *)

Definition M (A : Type) : Type := state -> result A * state.

Definition ret {A} (a : A) : M A := fun st => (Ok a, st).

Definition bind {A B} (m : M A) (k : A -> M B) : M B :=
  fun st =>
    match m st with
    | (Ok a, st') => k a st'
    | (Throw e, st') => (Throw e, st')
    end.

Definition throw {A} (e : exn) : M A := fun st => (Throw e, st).

Definition lift {A} (r : result A) : M A := fun st => (r, st).

Definition gets {A} (f : state -> A) : M A := fun st => (Ok (f st), st).

Definition modify (f : state -> state) : M unit := fun st => (Ok tt, f st).

(** [try { body } catch (err) { handler }] *)
Definition try_catch (body : M unit) (handler : exn -> M unit) : M unit :=
  fun st =>
    match body st with
    | (Ok a, st') => (Ok a, st')
    | (Throw e, st') => handler e st'
    end.

(** [array.forEach(f)] *)
Fixpoint forEach {A} (l : list A) (f : A -> M unit) : M unit :=
  match l with
  | [] => ret tt
  | x :: rest => bind (f x) (fun _ => forEach rest f)
  end.

Declare Scope M_scope.
Delimit Scope M_scope with M.
Notation "x <- m ;; k" := (bind m (fun x => k))
  (at level 61, m at next level, right associativity) : M_scope.
Notation "m ;; k" := (bind m (fun _ => k))
  (at level 61, right associativity) : M_scope.
Local Open Scope M_scope.

(** [setError(message)] *)
Definition setError (message : string) : M unit :=
  if negb (truthy (VString message)) then modify (set_error "" true)
  else modify (set_error message false).

(** [resetSelectOptions(selectElement, allLabel)]: the element is emptied and
    given the one option "All", which the browser then shows as selected. *)
Definition resetSelectOptions (allLabel : string) : select_element :=
  {| options := [ {| opt_value := "All"; opt_textContent := allLabel |} ];
     value := "All" |}.

(** [selectElement.appendChild(opt)]: a select that has a selected option
    keeps it. *)
Definition appendChild (opt : option_element) (sel : select_element)
    : select_element :=
  {| options := options sel ++ [opt];
     value := match options sel with
              | [] => opt_value opt
              | _ :: _ => value sel
              end |}.

(** [renderCourseList()] *)
Definition renderCourseList : M unit :=
  fc <- gets filteredCourses ;;
  if (Nat.eqb (List.length fc) 0) then
    modify (set_courseListDiv
              [Paragraph "no courses match the current filters."])
  else
    modify (set_courseListDiv
              (map (fun course => CourseItem (ToString (id course)) false course)
                   fc)).

(** [markSelectedCourse(courseId)] *)
Definition markSelectedCourse (courseId : JSValue) : M unit :=
  modify (fun st =>
    set_courseListDiv
      (map (fun item =>
              match item with
              | CourseItem text _ course =>
                  CourseItem text (strict_eq_string courseId text) course
              | Paragraph text => Paragraph text
              end)
           (courseListDiv st))
      st).

(** [renderCourseDetails(course)]; [None] is [null].  The panel is
    represented by the course it shows; the template literal converts the
    eight fields of that course to strings, which returns for a course that
    is [course_printable]. *)
Definition renderCourseDetails (course : option Course) : M unit :=
  modify (set_courseDetailsDiv course).

(** ** Filter options *)

(** The four [Set]s [populateFilterDropdowns] fills in its one pass over
    [allCourses], each read on its own. *)
Definition departmentsSet (courses : list Course) : list JSValue :=
  fold_left (fun s course => Set_add (department course) s) courses [].

Definition levelsSet (courses : list Course) : list JSValue :=
  fold_left
    (fun s course =>
       if negb (is_nullish (level course)) then Set_add (level course) s else s)
    courses [].

Definition creditsSet (courses : list Course) : list JSValue :=
  fold_left
    (fun s course =>
       if negb (is_nullish (credits course)) then Set_add (credits course) s
       else s)
    courses [].

Definition instructorsSet (courses : list Course) : list JSValue :=
  fold_left (fun s course => Set_add (getInstructorLabel course) s) courses [].

Definition sortedDepartments (courses : list Course) : result (list JSValue) :=
  Array_sort defaultCompare (departmentsSet courses).

Definition sortedLevels (courses : list Course) : result (list JSValue) :=
  Array_sort numericCompare (levelsSet courses).

Definition sortedCredits (courses : list Course) : result (list JSValue) :=
  Array_sort numericCompare (creditsSet courses).

Definition sortedInstructors (courses : list Course) : result (list JSValue) :=
  Array_sort defaultCompare (instructorsSet courses).

(** The [<option>] built for one derived value: [opt.value] and
    [opt.textContent] both hold its string form. *)
Definition option_of (v : JSValue) : option_element :=
  {| opt_value := ToString v; opt_textContent := ToString v |}.

(** [populateFilterDropdowns()] *)
Definition populateFilterDropdowns : M unit :=
  courses <- gets allCourses ;;
  modify (set_departmentSelect (resetSelectOptions "All")) ;;
  modify (set_levelSelect (resetSelectOptions "All")) ;;
  modify (set_creditsSelect (resetSelectOptions "All")) ;;
  modify (set_instructorSelect (resetSelectOptions "All")) ;;
  deps <- lift (sortedDepartments courses) ;;
  levs <- lift (sortedLevels courses) ;;
  creds <- lift (sortedCredits courses) ;;
  insts <- lift (sortedInstructors courses) ;;
  forEach deps (fun dep =>
    modify (fun st =>
      set_departmentSelect (appendChild (option_of dep) (departmentSelect st)) st)) ;;
  forEach levs (fun lev =>
    modify (fun st =>
      set_levelSelect (appendChild (option_of lev) (levelSelect st)) st)) ;;
  forEach creds (fun cr =>
    modify (fun st =>
      set_creditsSelect (appendChild (option_of cr) (creditsSelect st)) st)) ;;
  forEach insts (fun inst =>
    modify (fun st =>
      set_instructorSelect (appendChild (option_of inst) (instructorSelect st)) st)).

(** ** Filtering and sorting *)

(** The predicate handed to [allCourses.filter] in [applyFiltersAndSort]. *)
Definition passesFilters (deptValue levelValue creditsValue instructorValue : string)
    (course : Course) : bool :=
  let matchesDept :=
    (deptValue =? "All")%string || strict_eq_string (department course) deptValue in
  let matchesLevel :=
    (levelValue =? "All")%string
    || (ToString (level course) =? levelValue)%string in
  let matchesCredits :=
    (creditsValue =? "All")%string
    || (ToString (credits course) =? creditsValue)%string in
  let matchesInstructor :=
    (instructorValue =? "All")%string
    || strict_eq_string (getInstructorLabel course) instructorValue in
  matchesDept && matchesLevel && matchesCredits && matchesInstructor.

(** [applyFiltersAndSort()] *)
Definition applyFiltersAndSort : M unit :=
  courses <- gets allCourses ;;
  if Nat.eqb (List.length courses) 0 then
    renderCourseList ;;
    renderCourseDetails None
  else
    deptValue <- gets (fun st => value (departmentSelect st)) ;;
    levelValue <- gets (fun st => value (levelSelect st)) ;;
    creditsValue <- gets (fun st => value (creditsSelect st)) ;;
    instructorValue <- gets (fun st => value (instructorSelect st)) ;;
    sortValue <- gets (fun st => value (sortSelect st)) ;;
    modify (set_filteredCourses
              (filter (passesFilters deptValue levelValue creditsValue
                         instructorValue) courses)) ;;
    fc <- gets filteredCourses ;;
    sorted <- lift (sortCourses fc sortValue) ;;
    modify (set_filteredCourses sorted) ;;
    renderCourseList ;;
    fc' <- gets filteredCourses ;;
    match fc' with
    | first :: _ =>
        renderCourseDetails (Some first) ;;
        markSelectedCourse (id first)
    | [] => renderCourseDetails None
    end.

(** ** Loading a file *)

(** [reader.onload], given [reader.result]. *)
Definition reader_onload (text : string) : M unit :=
  try_catch
    (jsonData <- lift (JSON_parse text) ;;
     match jsonData with
     | VArray elts =>
         modify (set_allCourses []) ;;
         modify (set_filteredCourses []) ;;
         forEach elts (fun courseObj =>
           course <- lift (new_Course courseObj) ;;
           modify (fun st => set_allCourses (allCourses st ++ [course]) st)) ;;
         populateFilterDropdowns ;;
         applyFiltersAndSort ;;
         setError ""
     | _ => throw (Error "JSON root is not an array")
     end)
    (fun err =>
       setError "Invalid JSON file format." ;;
       modify (set_allCourses []) ;;
       modify (set_filteredCourses []) ;;
       renderCourseList ;;
       renderCourseDetails None ;;
       modify (fun st => set_console (console st ++ [err]) st)).

(** [reader.onerror] *)
Definition reader_onerror : M unit :=
  setError "Could not read file. please try again.".

(** What [reader.readAsText(file)] ends in. *)
Inductive read_outcome : Type :=
| ReadOk (text : string)
| ReadFailed.

Record File : Type := mkFile {
  name : string;
  outcome : read_outcome
}.

(** The [change] listener of the file input, the read run to its end;
    [None] is a cancelled dialog. *)
Definition fileInput_change (file : option File) : M unit :=
  match file with
  | None => ret tt
  | Some f =>
      modify (set_fileNameSpan (name f)) ;;
      match outcome f with
      | ReadOk text => reader_onload text
      | ReadFailed => reader_onerror
      end
  end.

(** ** Events *)

Inductive control : Type :=
| Department | Level | Credits | Instructor | SortBy.

(** The user picks [v] in a control; its [change] listener then runs. *)
Definition select_change (which : control) (v : string) : M unit :=
  modify (fun st =>
    match which with
    | Department =>
        set_departmentSelect (mkSelect (options (departmentSelect st)) v) st
    | Level => set_levelSelect (mkSelect (options (levelSelect st)) v) st
    | Credits => set_creditsSelect (mkSelect (options (creditsSelect st)) v) st
    | Instructor =>
        set_instructorSelect (mkSelect (options (instructorSelect st)) v) st
    | SortBy => set_sortSelect (mkSelect (options (sortSelect st)) v) st
    end) ;;
  applyFiltersAndSort.

(** The [click] listener of the [i]-th child of the course list. *)
Definition item_click (i : nat) : M unit :=
  items <- gets courseListDiv ;;
  match nth_error items i with
  | Some (CourseItem _ _ course) =>
      renderCourseDetails (Some course) ;;
      markSelectedCourse (id course)
  | _ => ret tt
  end.

Inductive event : Type :=
| FileChange (file : option File)
| SelectChange (which : control) (v : string)
| ItemClick (i : nat).

Definition handle (ev : event) : M unit :=
  match ev with
  | FileChange file => fileInput_change file
  | SelectChange which v => select_change which v
  | ItemClick i => item_click i
  end.

(** The states the script can be in: it starts with both arrays empty, and
    each event's listener runs to its end (or to an uncaught exception). *)
Inductive reachable : state -> Prop :=
| reachable_start st :
    allCourses st = [] -> filteredCourses st = [] -> reachable st
| reachable_step st ev :
    reachable st -> reachable (snd (handle ev st)).

(** The identifier the details panel shows. *)
Definition selectedId (st : state) : option JSValue :=
  option_map id (courseDetailsDiv st).

(** ** Vocabulary of the statements *)

(** A comparator agrees with an order [le] on the elements of [l] when it
    never throws on them and sends [a] after [b] only if [le b a], and
    leaves [a] before [b] only if [le a b]. *)
Definition agrees {A} (comparefn : A -> A -> result (option Z))
    (le : A -> A -> Prop) (l : list A) : Prop :=
  forall x y, In x l -> In y l ->
    exists v, comparefn x y = Ok v /\
      if (match v with Some n => n | None => 0 end) >? 0 then le y x else le x y.

(** The values [SameValueZero] compares by content. *)
Definition primitive (v : JSValue) : bool :=
  match v with
  | VArray _ | VObject _ => false
  | _ => true
  end.

Definition is_number (v : JSValue) : bool :=
  match v with VNumber _ => true | _ => false end.

(** The order of strings by code units. *)
Definition string_le (a b : string) : Prop := String.leb a b = true.

(** The orders in which the derived options are listed. *)
Definition by_string (a b : JSValue) : Prop :=
  string_le (ToString a) (ToString b).

Definition by_number (a b : JSValue) : Prop :=
  match a, b with
  | VNumber x, VNumber y => x <= y
  | _, _ => False
  end.

Fixpoint has_space (s : string) : bool :=
  match s with
  | EmptyString => false
  | String c rest => (c =? " ")%char || has_space rest
  end.

(** The rank of a term token, as the specification lists it: Winter 1,
    Spring 2, Summer 3, Fall 4, anything else 0. *)
Definition termRank (term : string) : Z :=
  if (term =? "Winter")%string then 1
  else if (term =? "Spring")%string then 2
  else if (term =? "Summer")%string then 3
  else if (term =? "Fall")%string then 4
  else 0.

(** The semester sort key of a course. *)
Definition semester_key (c : Course) : Z :=
  match semesterToNumber (semester c) with
  | Ok k => k
  | Throw _ => 0
  end.

Definition by_semester (a b : Course) : Prop :=
  semester_key a <= semester_key b.

(** How a defaulted field [v] relates to its source [src]: a truthy source
    is kept as it is, any other gives the default string [d]. *)
Definition defaulted (src : JSValue) (d : string) (v : JSValue) : Prop :=
  truthy v = true
  /\ (truthy src = true -> v = src)
  /\ (truthy src = false -> v = VString d)
  /\ (is_string src = true -> is_string v = true).

(** How a nullable field [v] relates to its source: a truthy source is kept
    as it is, any other gives [null]. *)
Definition nulled (src : JSValue) (v : JSValue) : Prop :=
  (truthy src = true -> v = src) /\ (truthy src = false -> v = VNull).

(** The two courses of the specification's scenario, as normalization
    leaves them. *)
Definition CS101 : Course :=
  {| id := VString "CS101";
     title := VString "Untitled course";
     department := VString "Unknown department";
     level := VNull;
     credits := VNull;
     instructor := VNull;
     description := VString "No description available.";
     semester := VString "Unknown semester" |}.

Definition CS202 : Course :=
  {| id := VString "CS202";
     title := VString "Untitled course";
     department := VString "Unknown department";
     level := VNumber 3;
     credits := VNumber 4;
     instructor := VString "A. Lee";
     description := VString "No description available.";
     semester := VString "Fall 2024" |}.

Definition scenario_records : list JSValue :=
  [ VObject [("id", VString "CS101")];
    VObject [("id", VString "CS202"); ("level", VNumber 3);
             ("credits", VNumber 4); ("instructor", VString "A. Lee");
             ("semester", VString "Fall 2024")] ].

(** The two arrays are consistent when an empty catalog shows nothing. *)
Definition store_consistent (st : state) : Prop :=
  allCourses st = [] -> filteredCourses st = [].

(** A course whose filterable fields are typed as the data model has them:
    a string department, a number or [null] for level and credits, a string
    or [null] instructor. *)
Definition well_typed (c : Course) : Prop :=
  is_string (department c) = true
  /\ (level c = VNull \/ is_number (level c) = true)
  /\ (credits c = VNull \/ is_number (credits c) = true)
  /\ (instructor c = VNull \/ is_string (instructor c) = true).

(** The field the comparator of [sortCourses] calls a method on, for each
    sort option; [None] for "none" and unknown options, which call none. *)
Definition sort_key (sortValue : string) (c : Course) : option JSValue :=
  if (sortValue =? "id-asc")%string then Some (id c)
  else if (sortValue =? "id-desc")%string then Some (id c)
  else if (sortValue =? "title-asc")%string then Some (title c)
  else if (sortValue =? "title-desc")%string then Some (title c)
  else if (sortValue =? "sem-earliest")%string then Some (semester c)
  else if (sortValue =? "sem-latest")%string then Some (semester c)
  else None.

(** A course the chosen sort can compare: its sort key is a string, as the
    data model types it. *)
Definition sortable (sortValue : string) (c : Course) : Prop :=
  match sort_key sortValue c with
  | Some v => is_string v = true
  | None => True
  end.

(** No button of the course list is marked as selected. *)
Definition none_selected (items : list list_node) : Prop :=
  Forall (fun item =>
            match item with
            | CourseItem _ selected _ => selected = false
            | Paragraph _ => True
            end) items.

(** What holds of the outcome of a statement that returns normally. *)
Definition post {A} (m : M A) (st : state) (Q : A -> state -> Prop) : Prop :=
  match m st with
  | (Ok a, st') => Q a st'
  | (Throw _, _) => True
  end.

(** A select that shows "All" and has an option. *)
Definition shows_All (sel : select_element) : Prop :=
  value sel = "All" /\ options sel <> [].

(** A course whose identifier, title and semester are strings, as the data
    model types them. *)
Definition keys_typed (c : Course) : Prop :=
  is_string (id c) = true
  /\ is_string (title c) = true
  /\ is_string (semester c) = true.

(** The selection follows the first visible course: the details panel shows
    it and its button is the marked one; with nothing visible the panel
    shows the placeholder and no button is marked. *)
Definition follows_first (st : state) : Prop :=
  match filteredCourses st with
  | [] =>
      courseDetailsDiv st = None
      /\ selectedId st = None
      /\ none_selected (courseListDiv st)
  | first :: _ =>
      courseDetailsDiv st = Some first
      /\ selectedId st = Some (id first)
      /\ (is_string (id first) = true ->
          hd_error (courseListDiv st)
          = Some (CourseItem (ToString (id first)) true first))
  end.

(** ** A concrete platform and page, for the examples *)

Definition quoted (s : string) : string :=
  let q := String (ascii_of_nat 34) EmptyString in q ++ s ++ q.

(** The text of the object of the not-an-array scenario, an [id] of CS101
    between braces. *)
Definition object_text : string :=
  "{" ++ quoted "id" ++ ":" ++ quoted "CS101" ++ "}".

(** The text of the two-course scenario. *)
Definition scenario_text : string :=
  "[" ++ object_text ++ ",{"
  ++ quoted "id" ++ ":" ++ quoted "CS202" ++ ","
  ++ quoted "level" ++ ":3,"
  ++ quoted "credits" ++ ":4,"
  ++ quoted "instructor" ++ ":" ++ quoted "A. Lee" ++ ","
  ++ quoted "semester" ++ ":" ++ quoted "Fall 2024" ++ "}]".

(** A parser that knows the texts of the examples and rejects every other
    text. *)
Definition example_JSON_parse (text : string) : result JSValue :=
  if (text =? scenario_text)%string then Ok (VArray scenario_records)
  else if (text =? object_text)%string then Ok (VObject [("id", VString "CS101")])
  else if (text =? "[]")%string then Ok (VArray [])
  else Throw (SyntaxError "Unexpected token").

(** Comparison by code units, one possible locale. *)
Definition example_localeCompare (a b : string) : Z :=
  match String.compare a b with
  | Lt => -1
  | Eq => 0
  | Gt => 1
  end.

(** The number a decimal numeral denotes; [NaN] for any other string. *)
Definition example_StringToNumber (s : string) : option Z :=
  match parseInt (VString s) with
  | Some n => if (Number_toString n =? s)%string then Some n else None
  | None => None
  end.

(** The page before any file is chosen. *)
Definition example_start : state :=
  {| allCourses := [];
     filteredCourses := [];
     fileNameSpan := "";
     errorMessage := "";
     errorHidden := true;
     departmentSelect := resetSelectOptions "All";
     levelSelect := resetSelectOptions "All";
     creditsSelect := resetSelectOptions "All";
     instructorSelect := resetSelectOptions "All";
     sortSelect := {| options := [ {| opt_value := "none";
                                      opt_textContent := "None" |} ];
                      value := "none" |};
     courseListDiv := [];
     courseDetailsDiv := None;
     console := [] |}.

(** The page with the scenario catalog loaded, CS202 clicked, every filter
    on "All" and no sort. *)
Definition example_loaded : state :=
  {| allCourses := [CS101; CS202];
     filteredCourses := [CS101; CS202];
     fileNameSpan := "courses.json";
     errorMessage := "";
     errorHidden := true;
     departmentSelect := resetSelectOptions "All";
     levelSelect := resetSelectOptions "All";
     creditsSelect := resetSelectOptions "All";
     instructorSelect := resetSelectOptions "All";
     sortSelect := {| options := [ {| opt_value := "none";
                                      opt_textContent := "None" |} ];
                      value := "none" |};
     courseListDiv := [CourseItem "CS101" false CS101;
                       CourseItem "CS202" true CS202];
     courseDetailsDiv := Some CS202;
     console := [] |}.

(** ** Vocabulary of the further properties *)

(** A statement keeps a part of the state when that part is the same after
    it as before, whether it returns or throws. *)
Definition keeps {A B} (proj : state -> B) (m : M A) : Prop :=
  forall st, proj (snd (m st)) = proj st.

(** The course every field of which is its default. *)
Definition default_Course : Course :=
  {| id := VString "Unknown ID";
     title := VString "Untitled course";
     department := VString "Unknown department";
     level := VNull;
     credits := VNull;
     instructor := VNull;
     description := VString "No description available.";
     semester := VString "Unknown semester" |}.

(** Descending order of semester keys. *)
Definition by_semester_desc (a b : Course) : Prop :=
  semester_key b <= semester_key a.

(** The collation is a total preorder: of two strings one is not after the
    other, and "not after" is transitive. *)
Definition collation_consistent : Prop :=
  (forall a b, 0 < localeCompare a b -> localeCompare b a <= 0)
  /\ (forall a b c, localeCompare a b <= 0 -> localeCompare b c <= 0 ->
                    localeCompare a c <= 0).

(** [a] is not after [b] in the collation of the field [f]. *)
Definition by_collation (f : Course -> JSValue) (a b : Course) : Prop :=
  localeCompare (ToString (f a)) (ToString (f b)) <= 0.

(** The sort options [sortCourses] knows. *)
Definition known_sort (sortValue : string) : bool :=
  (sortValue =? "none")%string || (sortValue =? "id-asc")%string
  || (sortValue =? "id-desc")%string || (sortValue =? "title-asc")%string
  || (sortValue =? "title-desc")%string || (sortValue =? "sem-earliest")%string
  || (sortValue =? "sem-latest")%string.

(** The courses of [l] with semester key [k], in the order of [l]. *)
Definition with_key (k : Z) (l : list Course) : list Course :=
  filter (fun c => semester_key c =? k) l.

(** On the elements of [l] the comparator is [sign] times the difference of
    two keys: ascending for a positive sign, descending for a negative
    one. *)
Definition keyed {A} (key : A -> Z) (comparefn : A -> A -> result (option Z))
    (sign : Z) (l : list A) : Prop :=
  forall x y, In x l -> In y l ->
    comparefn x y = Ok (Some (sign * (key x - key y))).

(** The text of a semester: a term token, a space, the year in decimal. *)
Definition semester_text (term : string) (year : Z) : string :=
  term ++ " " ++ Number_toString year.

(** A dropdown as [populateFilterDropdowns] leaves it: "All", selected, then
    one option per derived value. *)
Definition dropdown_of (values : list JSValue) : select_element :=
  {| options := {| opt_value := "All"; opt_textContent := "All" |}
                :: map option_of values;
     value := "All" |}.

(** The courses a selection of the four filters lets through. *)
Definition visible (deptValue levelValue creditsValue instructorValue : string)
    (courses : list Course) : list Course :=
  filter (passesFilters deptValue levelValue creditsValue instructorValue) courses.

(** A course as the constructor builds them: the five defaulted fields are
    truthy, and the three nullable ones are [null] or truthy. *)
Definition normalized (c : Course) : Prop :=
  truthy (id c) = true
  /\ truthy (title c) = true
  /\ truthy (department c) = true
  /\ truthy (description c) = true
  /\ truthy (semester c) = true
  /\ (level c = VNull \/ truthy (level c) = true)
  /\ (credits c = VNull \/ truthy (credits c) = true)
  /\ (instructor c = VNull \/ truthy (instructor c) = true).

(** The buttons of [items] as [markSelectedCourse(courseId)] marks them. *)
Definition mark (courseId : JSValue) (items : list list_node) : list list_node :=
  map (fun item =>
         match item with
         | CourseItem text _ course =>
             CourseItem text (strict_eq_string courseId text) course
         | Paragraph text => Paragraph text
         end) items.

(** The course list as a run of the filter leaves it for the visible
    courses: the one paragraph when there are none, else one button per
    course, marked when its text is the first course's identifier. *)
Definition rendered (courses : list Course) : list list_node :=
  match courses with
  | [] => [Paragraph "no courses match the current filters."]
  | first :: _ =>
      map (fun c => CourseItem (ToString (id c))
                      (strict_eq_string (id first) (ToString (id c))) c)
          courses
  end.

(** The invariant of the catalog store: every visible course is in the
    catalog, and every course of the catalog is normalized. *)
Definition store_invariant (st : state) : Prop :=
  incl (filteredCourses st) (allCourses st)
  /\ Forall normalized (allCourses st).

(** The course [new Course] builds from an object with the properties
    [props]. *)
Definition normalize (props : list (string * JSValue)) : Course :=
  {| id := or_else (lookup "id" props) (VString "Unknown ID");
     title := or_else (lookup "title" props) (VString "Untitled course");
     department :=
       or_else (lookup "department" props) (VString "Unknown department");
     level := or_else (lookup "level" props) VNull;
     credits := or_else (lookup "credits" props) VNull;
     instructor := or_else (lookup "instructor" props) VNull;
     description :=
       or_else (lookup "description" props)
               (VString "No description available.");
     semester :=
       or_else (lookup "semester" props) (VString "Unknown semester") |}.

(** A property that is absent, [null], or a string. *)
Definition string_or_absent (v : JSValue) : bool :=
  match v with
  | VUndefined | VNull | VString _ => true
  | _ => false
  end.

(** A property that is absent, [null], or a number. *)
Definition number_or_absent (v : JSValue) : bool :=
  match v with
  | VUndefined | VNull | VNumber _ => true
  | _ => false
  end.

(** A record typed as the input format asks: string-typed fields hold
    strings and level and credits hold numbers, wherever they are present. *)
Definition typed_record (props : list (string * JSValue)) : bool :=
  string_or_absent (lookup "id" props)
  && string_or_absent (lookup "title" props)
  && string_or_absent (lookup "department" props)
  && number_or_absent (lookup "level" props)
  && number_or_absent (lookup "credits" props)
  && string_or_absent (lookup "instructor" props)
  && string_or_absent (lookup "description" props)
  && string_or_absent (lookup "semester" props).

(** The children [renderCourseList] gives the course list for the visible
    courses, before any is marked. *)
Definition buttons (courses : list Course) : list list_node :=
  match courses with
  | [] => [Paragraph "no courses match the current filters."]
  | _ :: _ => map (fun c => CourseItem (ToString (id c)) false c) courses
  end.

(** The list with every mark removed. *)
Definition unmarked (items : list list_node) : list list_node :=
  map (fun item =>
         match item with
         | CourseItem text _ course => CourseItem text false course
         | Paragraph text => Paragraph text
         end) items.

(** ** More examples *)

(** Two courses whose identifiers are numbers. *)
Definition course_5 : Course := normalize [("id", VNumber 5)].
Definition course_6 : Course := normalize [("id", VNumber 6)].

(** A course whose department is a number. *)
Definition course_dept_5 : Course := normalize [("department", VNumber 5)].

(** A page whose catalog is the two numbered courses, loaded under "none"
    and then switched to the sort by identifier. *)
Definition example_numeric : state :=
  {| allCourses := [course_5; course_6];
     filteredCourses := [course_5; course_6];
     fileNameSpan := "numbers.json";
     errorMessage := "";
     errorHidden := true;
     departmentSelect := resetSelectOptions "All";
     levelSelect := resetSelectOptions "All";
     creditsSelect := resetSelectOptions "All";
     instructorSelect := resetSelectOptions "All";
     sortSelect := {| options := [ {| opt_value := "none";
                                      opt_textContent := "None" |};
                                   {| opt_value := "id-asc";
                                      opt_textContent := "ID" |} ];
                      value := "id-asc" |};
     courseListDiv := [CourseItem "5" false course_5;
                       CourseItem "6" false course_6];
     courseDetailsDiv := Some course_5;
     console := [] |}.

(** The records of the scenario, as lists of properties. *)
Definition scenario_props : list (list (string * JSValue)) :=
  [ [("id", VString "CS101")];
    [("id", VString "CS202"); ("level", VNumber 3); ("credits", VNumber 4);
     ("instructor", VString "A. Lee"); ("semester", VString "Fall 2024")] ].

(** A parser that also knows the text of an array holding one [null]. *)
Definition example_JSON_parse_null (text : string) : result JSValue :=
  if (text =? "[null]")%string then Ok (VArray [VNull])
  else example_JSON_parse text.
(** ** Where the embedding is exact *)

(** The safe integers, [Number.MIN_SAFE_INTEGER] to
    [Number.MAX_SAFE_INTEGER]: the numbers [Z] carries as the doubles do,
    and that print as their decimal digits. *)
Definition safe_integer (n : Z) : bool :=
  (-9007199254740991 <=? n) && (n <=? 9007199254740991).

(** The values the script can convert to a string.  The conversion of an
    object calls its [toString]; an object that [JSON.parse] built with a
    key of that name of its own has a value there that is no function, and
    the conversion throws a [TypeError].  [ToString] above is the conversion
    of the other values: a plain object prints as "[object Object]", an
    array as its elements joined, a safe integer as its digits. *)
Fixpoint printable (v : JSValue) : bool :=
  match v with
  | VNumber n => safe_integer n
  | VArray elts => forallb printable elts
  | VObject props => negb (existsb (fun p => (fst p =? "toString")%string) props)
  | _ => true
  end.

(** A course every field of which is printable: the details panel and the
    course list can show it, and the filter can compare it. *)
Definition course_printable (c : Course) : bool :=
  printable (id c) && printable (title c) && printable (department c)
  && printable (level c) && printable (credits c) && printable (instructor c)
  && printable (description c) && printable (semester c).

(** The years whose semester key the doubles of [semesterToNumber] compute
    exactly: [year * 10 + 4] does not pass 2^53. *)
Definition exact_year (year : Z) : Prop :=
  -900719925474098 <= year <= 900719925474098.

(** ** Examples outside the data model *)

(** A course whose level is the text "null". *)
Definition course_level_text : Course := normalize [("level", VString "null")].

(** A course whose department is an object, as the text [{}] denotes. *)
Definition course_dept_object : Course := normalize [("department", VObject [])].

(** Three courses whose identifiers are numbers, one of level 1 and two of
    level 2. *)
Definition course_5_level_1 : Course :=
  normalize [("id", VNumber 5); ("level", VNumber 1)].
Definition course_6_level_2 : Course :=
  normalize [("id", VNumber 6); ("level", VNumber 2)].
Definition course_7_level_2 : Course :=
  normalize [("id", VNumber 7); ("level", VNumber 2)].

(** A page whose catalog is those three courses, loaded under "none" with
    the first course shown, and then switched to the sort by identifier. *)
Definition example_numeric_levels : state :=
  {| allCourses := [course_5_level_1; course_6_level_2; course_7_level_2];
     filteredCourses := [course_5_level_1; course_6_level_2; course_7_level_2];
     fileNameSpan := "numbers.json";
     errorMessage := "";
     errorHidden := true;
     departmentSelect :=
       appendChild (option_of (VString "Unknown department"))
         (resetSelectOptions "All");
     levelSelect :=
       appendChild (option_of (VNumber 2))
         (appendChild (option_of (VNumber 1)) (resetSelectOptions "All"));
     creditsSelect := resetSelectOptions "All";
     instructorSelect :=
       appendChild (option_of (VString "TBA")) (resetSelectOptions "All");
     sortSelect := {| options := [ {| opt_value := "none";
                                      opt_textContent := "None" |};
                                   {| opt_value := "id-asc";
                                      opt_textContent := "ID" |} ];
                      value := "id-asc" |};
     courseListDiv := [CourseItem "5" false course_5_level_1;
                       CourseItem "6" false course_6_level_2;
                       CourseItem "7" false course_7_level_2];
     courseDetailsDiv := Some course_5_level_1;
     console := [] |}.

(** * Properties *)

(** ** [Array.prototype.sort] *)

Lemma agrees_incl {A} (comparefn : A -> A -> result (option Z)) le (l l' : list A) :
  incl l' l -> agrees comparefn le l -> agrees comparefn le l'.
Proof.
  intros Hincl Hag x y Hx Hy. apply Hag; apply Hincl; assumption.
Qed.

Section SortFacts.

Context {A : Type}.
Variable comparefn : A -> A -> result (option Z).
Variable le : A -> A -> Prop.
Hypothesis le_trans : forall x y z, le x y -> le y z -> le x z.

Lemma Array_insert_agrees (x : A) (l : list A) :
  agrees comparefn le (x :: l) ->
  exists r, Array_insert comparefn x l = Ok r
            /\ Permutation (x :: l) r
            /\ (StronglySorted le l -> StronglySorted le r).
Proof.
  induction l as [|y rest IH]; intros Hag.
  - exists [x]. repeat split; auto. intros _. repeat constructor.
  - simpl.
    destruct (Hag x y) as [v [Hv Hord]]; [left; reflexivity | right; left; reflexivity |].
    rewrite Hv. simpl.
    destruct ((match v with Some n => n | None => 0 end) >? 0) eqn:Hgt.
    + destruct IH as [r [Hr [Hperm Hsorted]]].
      { eapply agrees_incl; [|exact Hag].
        intros z [Hz|Hz]; [left; exact Hz | right; right; exact Hz]. }
      rewrite Hr. simpl. exists (y :: r). split; [reflexivity|]. split.
      * rewrite perm_swap. constructor. exact Hperm.
      * intros Hs. inversion Hs as [|? ? Hs' Hall]; subst.
        constructor; [apply Hsorted; exact Hs'|].
        rewrite Forall_forall in *. intros z Hz.
        apply (Permutation_in _ (Permutation_sym Hperm)) in Hz.
        destruct Hz as [Hz|Hz]; [subst z; exact Hord | apply Hall; exact Hz].
    + exists (x :: y :: rest). split; [reflexivity|]. split; [reflexivity|].
      intros Hs. constructor; [exact Hs|].
      inversion Hs as [|? ? Hs' Hall]; subst.
      constructor; [exact Hord|].
      rewrite Forall_forall in *. intros z Hz.
      eapply le_trans; [exact Hord | apply Hall; exact Hz].
Qed.

Lemma Array_sort_agrees (l : list A) :
  agrees comparefn le l ->
  exists r, Array_sort comparefn l = Ok r
            /\ Permutation l r
            /\ StronglySorted le r.
Proof.
  induction l as [|x rest IH]; intros Hag.
  - exists []. repeat split; constructor.
  - simpl.
    destruct IH as [s [Hs [Hperm Hsorted]]].
    { eapply agrees_incl; [|exact Hag]. intros z Hz; right; exact Hz. }
    rewrite Hs. simpl.
    destruct (Array_insert_agrees x s) as [r [Hr [Hperm' Hsorted']]].
    { eapply agrees_incl; [|exact Hag].
      intros z [Hz|Hz]; [left; exact Hz|right].
      apply (Permutation_in _ (Permutation_sym Hperm)); exact Hz. }
    exists r. split; [exact Hr|]. split.
    + etransitivity; [|exact Hperm']. constructor. exact Hperm.
    + apply Hsorted'. exact Hsorted.
Qed.

End SortFacts.

(** A one-element array is returned as it is, whatever the comparator. *)
Lemma Array_sort_singleton {A} (comparefn : A -> A -> result (option Z)) (x : A) :
  Array_sort comparefn [x] = Ok [x].
Proof. reflexivity. Qed.

(** ** The order of strings *)

Lemma ascii_compare_N (a b : ascii) :
  Ascii.compare a b = N.compare (N_of_ascii a) (N_of_ascii b).
Proof. reflexivity. Qed.

Lemma string_compare_not_Gt_trans (a b c : string) :
  String.compare a b <> Gt -> String.compare b c <> Gt ->
  String.compare a c <> Gt.
Proof.
  revert b c. induction a as [|x a IH]; intros [|y b] [|z c]; simpl;
    try congruence.
  rewrite !ascii_compare_N.
  destruct (N.compare_spec (N_of_ascii x) (N_of_ascii y)) as [Hxy|Hxy|Hxy];
    destruct (N.compare_spec (N_of_ascii y) (N_of_ascii z)) as [Hyz|Hyz|Hyz];
    destruct (N.compare_spec (N_of_ascii x) (N_of_ascii z)) as [Hxz|Hxz|Hxz];
    try congruence; try lia.
  intros H1 H2. exact (IH b c H1 H2).
Qed.

Lemma string_le_trans (a b c : string) :
  string_le a b -> string_le b c -> string_le a c.
Proof.
  unfold string_le, String.leb. intros Hab Hbc.
  pose proof (string_compare_not_Gt_trans a b c) as H.
  destruct (String.compare a b); try discriminate;
    destruct (String.compare b c); try discriminate;
    destruct (String.compare a c); try reflexivity;
    exfalso; apply H; congruence.
Qed.

Lemma by_string_trans (a b c : JSValue) :
  by_string a b -> by_string b c -> by_string a c.
Proof. unfold by_string. apply string_le_trans. Qed.

Lemma by_number_trans (a b c : JSValue) :
  by_number a b -> by_number b c -> by_number a c.
Proof.
  destruct a, b, c; simpl; intros H1 H2; try contradiction.
  exact (Z.le_trans _ _ _ H1 H2).
Qed.

Lemma defaultCompare_agrees (l : list JSValue) :
  agrees defaultCompare by_string l.
Proof.
  intros x y _ _. unfold defaultCompare, by_string, string_le, String.ltb, String.leb.
  rewrite (String.compare_antisym (ToString y) (ToString x)).
  destruct (String.compare (ToString x) (ToString y)); simpl;
    eexists; (split; [reflexivity|]); reflexivity.
Qed.

Lemma numericCompare_agrees (l : list JSValue) :
  Forall (fun v => is_number v = true) l ->
  agrees numericCompare by_number l.
Proof.
  rewrite Forall_forall. intros Hnum x y Hx Hy.
  apply Hnum in Hx. apply Hnum in Hy.
  destruct x; try discriminate. destruct y; try discriminate.
  unfold numericCompare. simpl. eexists. split; [reflexivity|].
  destruct (n - n0 >? 0) eqn:E; simpl; lia.
Qed.

(** ** [Set] *)

Lemma SameValueZero_eq (a b : JSValue) : SameValueZero a b = true -> a = b.
Proof.
  destruct a, b; simpl; try discriminate; intros H; try reflexivity.
  - apply Bool.eqb_prop in H. congruence.
  - apply Z.eqb_eq in H. congruence.
  - apply String.eqb_eq in H. congruence.
Qed.

Lemma SameValueZero_refl (a : JSValue) :
  primitive a = true -> SameValueZero a a = true.
Proof.
  destruct a; simpl; try discriminate; intros _; try reflexivity.
  - apply Bool.eqb_reflx.
  - apply Z.eqb_refl.
  - apply String.eqb_refl.
Qed.

Lemma Set_add_In (x y : JSValue) (s : list JSValue) :
  In y (Set_add x s) <-> y = x \/ In y s.
Proof.
  unfold Set_add. destruct (existsb (SameValueZero x) s) eqn:E.
  - split; [auto|]. intros [->|H]; [|exact H].
    apply existsb_exists in E. destruct E as [z [Hz Hsv]].
    apply SameValueZero_eq in Hsv. subst z. exact Hz.
  - rewrite in_app_iff. simpl. intuition.
Qed.

Lemma Set_add_NoDup (x : JSValue) (s : list JSValue) :
  primitive x = true -> NoDup s -> NoDup (Set_add x s).
Proof.
  intros Hp Hnd. unfold Set_add.
  destruct (existsb (SameValueZero x) s) eqn:E; [exact Hnd|].
  assert (Hnotin : ~ In x s).
  { intros Hin. assert (existsb (SameValueZero x) s = true) as E'.
    { apply existsb_exists. exists x. split; [exact Hin|].
      apply SameValueZero_refl; exact Hp. }
    congruence. }
  clear E. induction s as [|z s IH]; simpl.
  - constructor; [intros []|constructor].
  - inversion Hnd; subst. constructor.
    + rewrite in_app_iff. simpl. intros [H|[H|[]]]; [contradiction|].
      subst. apply Hnotin. left; reflexivity.
    + apply IH; [assumption|]. intros H; apply Hnotin; right; exact H.
Qed.

Section SetFold.

Variable keep : Course -> bool.
Variable field : Course -> JSValue.

Let step (s : list JSValue) (course : Course) : list JSValue :=
  if keep course then Set_add (field course) s else s.

Lemma fold_Set_add_In (courses : list Course) (s0 : list JSValue) (y : JSValue) :
  In y (fold_left step courses s0) <->
  In y s0 \/ exists c, In c courses /\ keep c = true /\ field c = y.
Proof.
  revert s0. induction courses as [|c rest IH]; intros s0; simpl.
  - split; [auto|]. intros [H|[c [[] _]]]; exact H.
  - rewrite IH. unfold step. destruct (keep c) eqn:Hk.
    + rewrite Set_add_In. split.
      * intros [[->|H]|[c' [Hin [Hk' Hf]]]]; eauto 6.
      * intros [H|[c' [[->|Hin] [Hk' Hf]]]]; eauto 6.
    + split.
      * intros [H|[c' [Hin [Hk' Hf]]]]; eauto 6.
      * intros [H|[c' [[->|Hin] [Hk' Hf]]]]; eauto 6. congruence.
Qed.

Lemma fold_Set_add_NoDup (courses : list Course) (s0 : list JSValue) :
  (forall c, In c courses -> keep c = true -> primitive (field c) = true) ->
  NoDup s0 -> NoDup (fold_left step courses s0).
Proof.
  revert s0. induction courses as [|c rest IH]; intros s0 Hp Hnd; simpl.
  - exact Hnd.
  - apply IH; [intros c' Hin; apply Hp; right; exact Hin|].
    unfold step. destruct (keep c) eqn:Hk; [|exact Hnd].
    apply Set_add_NoDup; [|exact Hnd]. apply Hp; [left; reflexivity|exact Hk].
Qed.

End SetFold.

(** ** Decimal numerals: [parseInt] reads back what [String] prints *)

Ltac eval_digit :=
  match goal with
  | |- context [digit_value ?c] =>
      let v := eval vm_compute in (digit_value c) in
      change (digit_value c) with v
  end; cbv iota.

Lemma parse_digits_of_uint_acc (d : Decimal.uint) (p : positive) :
  parse_digits (Z.pos p) (NilEmpty.string_of_uint d) = Z.pos (Pos.of_uint_acc d p).
Proof.
  revert p. induction d; intros p;
    cbn [NilEmpty.string_of_uint Pos.of_uint_acc parse_digits];
    try reflexivity; eval_digit; rewrite <- IHd; f_equal; lia.
Qed.

Lemma parse_digits_of_uint (d : Decimal.uint) :
  parse_digits 0 (NilEmpty.string_of_uint d) = Z.of_uint d.
Proof.
  unfold Z.of_uint. induction d;
    cbn [NilEmpty.string_of_uint Pos.of_uint parse_digits Z.of_N];
    try reflexivity; eval_digit; try exact IHd;
    apply parse_digits_of_uint_acc.
Qed.

Lemma parse_digits_NilZero (d : Decimal.uint) :
  parse_digits 0 (NilZero.string_of_uint d) = Z.of_uint d.
Proof.
  destruct d; try apply parse_digits_of_uint. reflexivity.
Qed.

Lemma NilZero_head (d : Decimal.uint) :
  exists c rest, NilZero.string_of_uint d = String c rest
                 /\ digit_value c <> None.
Proof.
  destruct d; simpl; eexists; eexists; (split; [reflexivity|]);
    vm_compute; discriminate.
Qed.

Lemma parseInt_unsigned (c : ascii) (rest : string) :
  digit_value c <> None ->
  parseInt (VString (String c rest)) = Some (parse_digits 0 (String c rest)).
Proof.
  intros Hd.
  destruct c as [[] [] [] [] [] [] [] []];
    try (exfalso; apply Hd; reflexivity);
    unfold parseInt; simpl ToString; simpl trim_start; cbv iota beta;
    eval_digit; f_equal; apply Z.mul_1_l.
Qed.

Lemma parseInt_negative (c : ascii) (rest : string) :
  digit_value c <> None ->
  parseInt (VString (String "-" (String c rest)))
  = Some (- parse_digits 0 (String c rest)).
Proof.
  intros Hd. unfold parseInt. simpl ToString. simpl trim_start. cbv iota beta.
  destruct (digit_value c) eqn:E; [|congruence].
  f_equal; lia.
Qed.

Lemma parseInt_Number_toString (n : Z) :
  parseInt (VString (Number_toString n)) = Some n.
Proof.
  unfold Number_toString.
  pose proof (DecimalZ.of_to n) as Hn.
  destruct (Z.to_int n) as [d|d]; simpl in Hn; simpl NilZero.string_of_int;
    destruct (NilZero_head d) as [c [rest [Hs Hc]]];
    pose proof (parse_digits_NilZero d) as Hp; rewrite Hs in *.
  - rewrite parseInt_unsigned by exact Hc. congruence.
  - rewrite parseInt_negative by exact Hc. congruence.
Qed.

Lemma Number_toString_head (n : Z) :
  exists c rest, Number_toString n = String c rest
                 /\ (c = "-"%char \/ digit_value c <> None).
Proof.
  unfold Number_toString. destruct (Z.to_int n) as [d|d]; simpl.
  - destruct (NilZero_head d) as [c [rest [Hs Hc]]]. eauto.
  - eauto.
Qed.

(** No number prints as ["null"] or as ["All"]. *)
Lemma Number_toString_not_null (n : Z) : Number_toString n <> "null".
Proof.
  destruct (Number_toString_head n) as [c [rest [Hs [Hc|Hc]]]]; rewrite Hs;
    intros H; inversion H; subst c; [discriminate|apply Hc; reflexivity].
Qed.

Lemma Number_toString_not_All (n : Z) : Number_toString n <> "All".
Proof.
  destruct (Number_toString_head n) as [c [rest [Hs [Hc|Hc]]]]; rewrite Hs;
    intros H; inversion H; subst c; [discriminate|apply Hc; reflexivity].
Qed.

Lemma has_space_uint (d : Decimal.uint) :
  has_space (NilEmpty.string_of_uint d) = false.
Proof. induction d; simpl; auto. Qed.

Lemma has_space_Number_toString (n : Z) :
  has_space (Number_toString n) = false.
Proof.
  unfold Number_toString.
  destruct (Z.to_int n) as [d|d]; simpl; destruct d; simpl;
    try reflexivity; apply has_space_uint.
Qed.

(** ** [split(' ')] *)

Lemma split_on_space_nonempty (s : string) : split_on_space s <> [].
Proof.
  induction s as [|c rest IH]; simpl; [discriminate|].
  destruct (c =? " ")%char; [discriminate|].
  destruct (split_on_space rest); [contradiction|discriminate].
Qed.

Lemma split_on_space_whole (s : string) :
  has_space s = false -> split_on_space s = [s].
Proof.
  induction s as [|c rest IH]; simpl; [reflexivity|].
  destruct (c =? " ")%char; simpl; [discriminate|].
  intros H. rewrite (IH H). reflexivity.
Qed.

Lemma split_on_space_app (a b : string) :
  has_space a = false ->
  split_on_space (a ++ String " " b) = a :: split_on_space b.
Proof.
  induction a as [|c rest IH]; simpl; [reflexivity|].
  destruct (c =? " ")%char; simpl; [discriminate|].
  intros H. rewrite (IH H). reflexivity.
Qed.

(** ** The semester key *)

Lemma semesterToNumber_format (term : string) (n : Z) :
  has_space term = false ->
  semesterToNumber (VString (term ++ " " ++ Number_toString n))
  = Ok (n * 10 + termRank term).
Proof.
  intros Hterm. unfold semesterToNumber.
  assert (Hne : truthy (VString (term ++ " " ++ Number_toString n)) = true).
  { destruct term; reflexivity. }
  rewrite Hne. simpl negb. cbv iota.
  unfold String_split. simpl rbind.
  change (" " ++ Number_toString n) with (String " " (Number_toString n)).
  rewrite split_on_space_app by exact Hterm.
  rewrite split_on_space_whole by apply has_space_Number_toString.
  unfold index. simpl nth_error. cbv iota.
  rewrite parseInt_Number_toString.
  unfold number_or, termRank, strict_eq_string.
  f_equal. f_equal.
  destruct (n =? 0) eqn:E; [apply Z.eqb_eq in E; lia|reflexivity].
Qed.

Lemma semesterToNumber_falsy (v : JSValue) :
  truthy v = false -> semesterToNumber v = Ok 0.
Proof. intros H. unfold semesterToNumber. rewrite H. reflexivity. Qed.

Lemma semesterToNumber_string (s : string) :
  exists k, semesterToNumber (VString s) = Ok k.
Proof.
  unfold semesterToNumber.
  destruct (negb (truthy (VString s))); simpl; eauto.
Qed.

Lemma semester_key_string (c : Course) :
  is_string (semester c) = true ->
  semesterToNumber (semester c) = Ok (semester_key c).
Proof.
  unfold semester_key. destruct (semester c); try discriminate. intros _.
  destruct (semesterToNumber_string s) as [k Hk]. rewrite Hk. reflexivity.
Qed.

(** ** Normalization *)

Lemma new_Course_object (props : list (string * JSValue)) :
  new_Course (VObject props)
  = Ok {| id := or_else (lookup "id" props) (VString "Unknown ID");
          title := or_else (lookup "title" props) (VString "Untitled course");
          department :=
            or_else (lookup "department" props) (VString "Unknown department");
          level := or_else (lookup "level" props) VNull;
          credits := or_else (lookup "credits" props) VNull;
          instructor := or_else (lookup "instructor" props) VNull;
          description :=
            or_else (lookup "description" props)
                    (VString "No description available.");
          semester :=
            or_else (lookup "semester" props) (VString "Unknown semester") |}.
Proof. reflexivity. Qed.

(** An array element that is [null] makes the constructor throw. *)
Lemma new_Course_null : exists e, new_Course VNull = Throw e.
Proof. eexists. reflexivity. Qed.

Lemma scenario_normalized :
  map new_Course scenario_records = [Ok CS101; Ok CS202].
Proof. reflexivity. Qed.

Lemma or_else_defaulted (src : JSValue) (d : string) :
  d <> "" -> defaulted src d (or_else src (VString d)).
Proof.
  intros Hd. unfold defaulted, or_else.
  destruct (truthy src) eqn:E; repeat split; try congruence; auto.
  simpl. destruct (String.eqb_spec d ""); [contradiction|reflexivity].
Qed.

Lemma or_else_nulled (src : JSValue) : nulled src (or_else src VNull).
Proof.
  unfold nulled, or_else. destruct (truthy src); split; congruence.
Qed.

(** C4, as the code has it: normalization of a JSON object never throws, and
    id, title, department, description and semester are always defined,
    non-null and truthy: the source value itself when that is truthy (so a
    string when the source is a string), the default string otherwise. *)
Theorem normalize_total_defaulted (props : list (string * JSValue)) :
  exists c,
    new_Course (VObject props) = Ok c
    /\ defaulted (lookup "id" props) "Unknown ID" (id c)
    /\ defaulted (lookup "title" props) "Untitled course" (title c)
    /\ defaulted (lookup "department" props) "Unknown department" (department c)
    /\ defaulted (lookup "description" props) "No description available."
                 (description c)
    /\ defaulted (lookup "semester" props) "Unknown semester" (semester c).
Proof.
  eexists. split; [apply new_Course_object|].
  cbn [id title department description semester].
  repeat split; try (apply or_else_defaulted; discriminate).
Qed.

(** C4 as stated fails: a truthy identifier that is not a string is kept,
    so the normalized [id] of [{"id": 5}] is the number 5. *)
Lemma normalize_keeps_numeric_id :
  exists c,
    new_Course (VObject [("id", VNumber 5)]) = Ok c
    /\ id c = VNumber 5
    /\ is_string (id c) = false.
Proof. eexists. repeat split. Qed.

(** C2, as the code has it: level, credits and instructor are the source
    value when it is truthy and [null] for every other source, absent,
    [null], [0], [""] or [false]; so a level or credits of 0 becomes
    [null]. *)
Theorem normalize_nullable_fields (props : list (string * JSValue)) :
  exists c,
    new_Course (VObject props) = Ok c
    /\ nulled (lookup "level" props) (level c)
    /\ nulled (lookup "credits" props) (credits c)
    /\ nulled (lookup "instructor" props) (instructor c)
    /\ (lookup "level" props = VNumber 0 -> level c = VNull)
    /\ (lookup "credits" props = VNumber 0 -> credits c = VNull).
Proof.
  eexists. split; [apply new_Course_object|].
  cbn [level credits instructor].
  repeat split; try apply or_else_nulled; intros H; rewrite H; reflexivity.
Qed.

(** C2 as stated fails: a record with level 0 and credits 0 normalizes to
    [null] in both fields, not to 0. *)
Lemma normalize_zero_level_is_null :
  exists c,
    new_Course (VObject [("level", VNumber 0); ("credits", VNumber 0)]) = Ok c
    /\ level c = VNull /\ level c <> VNumber 0
    /\ credits c = VNull /\ credits c <> VNumber 0.
Proof. eexists. repeat split; discriminate. Qed.

(** ** The filter predicate *)

Lemma passesFilters_All (course : Course) :
  passesFilters "All" "All" "All" "All" course = true.
Proof. reflexivity. Qed.

Lemma filter_All (courses : list Course) :
  filter (passesFilters "All" "All" "All" "All") courses = courses.
Proof.
  induction courses as [|c rest IH]; simpl; [reflexivity|].
  rewrite IH. reflexivity.
Qed.

Lemma passesFilters_null_level (deptValue levelValue creditsValue instructorValue : string)
    (course : Course) :
  level course = VNull ->
  levelValue <> "All" -> levelValue <> "null" ->
  passesFilters deptValue levelValue creditsValue instructorValue course = false.
Proof.
  intros Hlevel HAll Hnull. unfold passesFilters. rewrite Hlevel. simpl ToString.
  apply String.eqb_neq in HAll. rewrite HAll.
  assert (("null" =? levelValue)%string = false) as ->.
  { apply String.eqb_neq. congruence. }
  simpl. rewrite andb_false_r. reflexivity.
Qed.

Lemma getInstructorLabel_falsy (course : Course) :
  truthy (instructor course) = false ->
  getInstructorLabel course = VString "TBA".
Proof. intros H. unfold getInstructorLabel. rewrite H. reflexivity. Qed.

Lemma passesFilters_TBA (deptValue levelValue creditsValue : string)
    (course : Course) :
  truthy (instructor course) = false ->
  passesFilters deptValue levelValue creditsValue "TBA" course
  = passesFilters deptValue levelValue creditsValue "All" course.
Proof.
  intros H. unfold passesFilters. rewrite (getInstructorLabel_falsy _ H).
  reflexivity.
Qed.

(** ** Running the filter and sort *)

(** The list as [renderCourseList] and [markSelectedCourse] leave it. *)
Lemma applyFiltersAndSort_empty (st : state) :
  allCourses st = [] ->
  exists st',
    applyFiltersAndSort st = (Ok tt, st')
    /\ allCourses st' = []
    /\ filteredCourses st' = filteredCourses st
    /\ courseDetailsDiv st' = None
    /\ (filteredCourses st = [] ->
        courseListDiv st' = [Paragraph "no courses match the current filters."]).
Proof.
  intros Hall. unfold applyFiltersAndSort, bind, gets. rewrite Hall.
  cbn. destruct (filteredCourses st) eqn:Hfc; cbn; eexists;
    repeat split; cbn; auto; discriminate.
Qed.

Lemma applyFiltersAndSort_sorted (st : state) (sorted : list Course) :
  allCourses st <> [] ->
  sortCourses
    (filter (passesFilters (value (departmentSelect st)) (value (levelSelect st))
               (value (creditsSelect st)) (value (instructorSelect st)))
            (allCourses st))
    (value (sortSelect st)) = Ok sorted ->
  exists st',
    applyFiltersAndSort st = (Ok tt, st')
    /\ allCourses st' = allCourses st
    /\ filteredCourses st' = sorted
    /\ courseDetailsDiv st' = hd_error sorted
    /\ courseListDiv st'
       = match sorted with
         | [] => [Paragraph "no courses match the current filters."]
         | first :: _ =>
             map (fun c => CourseItem (ToString (id c))
                             (strict_eq_string (id first) (ToString (id c))) c)
                 sorted
         end.
Proof.
  intros Hall Hsort. unfold applyFiltersAndSort, bind, gets.
  destruct (allCourses st) as [|c0 rest] eqn:Hc; [congruence|].
  cbn -[filter sortCourses]. unfold lift. rewrite Hsort.
  destruct sorted as [|first more]; cbn; eexists; repeat split; cbn; auto.
  rewrite map_map. reflexivity.
Qed.

(** A comparator that throws leaves the filtered, unsorted courses in place
    and nothing redrawn. *)
Lemma applyFiltersAndSort_throws (st : state) (e : exn) :
  allCourses st <> [] ->
  sortCourses
    (filter (passesFilters (value (departmentSelect st)) (value (levelSelect st))
               (value (creditsSelect st)) (value (instructorSelect st)))
            (allCourses st))
    (value (sortSelect st)) = Throw e ->
  exists st',
    applyFiltersAndSort st = (Throw e, st')
    /\ allCourses st' = allCourses st
    /\ courseDetailsDiv st' = courseDetailsDiv st
    /\ courseListDiv st' = courseListDiv st.
Proof.
  intros Hall Hsort. unfold applyFiltersAndSort, bind, gets.
  destruct (allCourses st) as [|c0 rest] eqn:Hc; [congruence|].
  cbn -[filter sortCourses]. unfold lift. rewrite Hsort.
  eexists; repeat split. cbn. auto.
Qed.

(** C5: with the four selections on "All" and the sort on "none", a run of
    the filter leaves in [filteredCourses] exactly [allCourses], the same
    courses in the same order, and the catalog as it was.  This is the state
    the run ends in, also when the redrawing that follows the filter
    fails. *)
Theorem filter_All_roundtrip (st : state) :
  store_consistent st ->
  value (departmentSelect st) = "All" ->
  value (levelSelect st) = "All" ->
  value (creditsSelect st) = "All" ->
  value (instructorSelect st) = "All" ->
  value (sortSelect st) = "none" ->
  allCourses (snd (applyFiltersAndSort st)) = allCourses st
  /\ filteredCourses (snd (applyFiltersAndSort st)) = allCourses st.
Proof.
  intros Hcons Hd Hl Hc Hi Hs.
  destruct (allCourses st) as [|c0 rest] eqn:Hall.
  - destruct (applyFiltersAndSort_empty st Hall) as [st' [Hrun [Ha [Hf _]]]].
    rewrite Hrun. cbn [snd]. rewrite Hf, (Hcons Hall). auto.
  - destruct (applyFiltersAndSort_sorted st (allCourses st)) as [st' [Hrun [Ha [Hf _]]]].
    + congruence.
    + rewrite Hd, Hl, Hc, Hi, Hs, filter_All. reflexivity.
    + rewrite Hrun. cbn [snd]. rewrite <- Hall. auto.
Qed.

Lemma passesFilters_null_credits (deptValue levelValue creditsValue instructorValue : string)
    (course : Course) :
  credits course = VNull ->
  creditsValue <> "All" -> creditsValue <> "null" ->
  passesFilters deptValue levelValue creditsValue instructorValue course = false.
Proof.
  intros Hcredits HAll Hnull. unfold passesFilters. rewrite Hcredits. simpl ToString.
  apply String.eqb_neq in HAll. rewrite HAll.
  assert (("null" =? creditsValue)%string = false) as ->.
  { apply String.eqb_neq. congruence. }
  simpl. rewrite andb_false_r. reflexivity.
Qed.

(** A course passes the level selection alone exactly when the selection is
    "All" or the text of its level. *)
Lemma passesFilters_level_alone (levelValue : string) (course : Course) :
  passesFilters "All" levelValue "All" "All" course = true
  <-> (levelValue = "All" \/ ToString (level course) = levelValue).
Proof.
  unfold passesFilters. cbn [String.eqb Ascii.eqb Bool.eqb orb andb].
  rewrite andb_true_r, andb_true_r. rewrite orb_true_iff.
  rewrite !String.eqb_eq. reflexivity.
Qed.

Lemma passesFilters_credits_alone (creditsValue : string) (course : Course) :
  passesFilters "All" "All" creditsValue "All" course = true
  <-> (creditsValue = "All" \/ ToString (credits course) = creditsValue).
Proof.
  unfold passesFilters. cbn [String.eqb Ascii.eqb Bool.eqb orb andb].
  rewrite andb_true_r. rewrite orb_true_iff.
  rewrite !String.eqb_eq. reflexivity.
Qed.

(** C7: the level and the credits are compared as strings.  Of a course
    whose level and credits can be converted, passing the level (credits)
    selection on its own is the selection being "All" or the text of its
    level (credits); so a course whose level (credits) is [null] prints as
    "null" and fails the predicate under every selection that is neither
    "All" nor the text "null", in particular under the string form of every
    number, and no such course is in the filtered result; and on the
    two-course scenario the selection "3" leaves exactly CS202. *)
Theorem null_level_excluded :
  (forall levelValue creditsValue course,
      printable (level course) = true -> printable (credits course) = true ->
      (passesFilters "All" levelValue "All" "All" course = true
       <-> (levelValue = "All" \/ ToString (level course) = levelValue))
      /\ (passesFilters "All" "All" creditsValue "All" course = true
          <-> (creditsValue = "All" \/ ToString (credits course) = creditsValue)))
  /\ (forall deptValue levelValue creditsValue instructorValue course,
         level course = VNull ->
         creditsValue = "All" \/ printable (credits course) = true ->
         levelValue <> "All" -> levelValue <> "null" ->
         passesFilters deptValue levelValue creditsValue instructorValue course
         = false)
  /\ (forall deptValue levelValue creditsValue instructorValue course,
         credits course = VNull ->
         levelValue = "All" \/ printable (level course) = true ->
         creditsValue <> "All" -> creditsValue <> "null" ->
         passesFilters deptValue levelValue creditsValue instructorValue course
         = false)
  /\ (forall deptValue n creditsValue instructorValue courses,
         Forall (fun course => printable (level course) = true
                               /\ printable (credits course) = true) courses ->
         Forall (fun course => level course <> VNull)
           (visible deptValue (ToString (VNumber n)) creditsValue
                    instructorValue courses)
         /\ Forall (fun course => credits course <> VNull)
              (visible deptValue creditsValue (ToString (VNumber n))
                       instructorValue courses))
  /\ (forall st,
         allCourses st = [CS101; CS202] ->
         value (departmentSelect st) = "All" ->
         value (levelSelect st) = "3" ->
         value (creditsSelect st) = "All" ->
         value (instructorSelect st) = "All" ->
         exists st',
           applyFiltersAndSort st = (Ok tt, st')
           /\ filteredCourses st' = [CS202]).
Proof.
  split; [|split; [|split; [|split]]].
  - intros l cr c _ _. split.
    + apply passesFilters_level_alone.
    + apply passesFilters_credits_alone.
  - intros. apply passesFilters_null_level; assumption.
  - intros. apply passesFilters_null_credits; assumption.
  - intros d n cr i courses _. split; apply Forall_forall; intros c Hin;
      apply filter_In in Hin; destruct Hin as [_ Hpass]; intros Hnull.
    + rewrite passesFilters_null_level in Hpass; try discriminate; auto.
      * apply Number_toString_not_All.
      * apply Number_toString_not_null.
    + rewrite passesFilters_null_credits in Hpass; try discriminate; auto.
      * apply Number_toString_not_All.
      * apply Number_toString_not_null.
  - intros st Hall Hd Hl Hc Hi.
    destruct (applyFiltersAndSort_sorted st [CS202]) as [st' [Hrun [_ [Hf _]]]].
    + rewrite Hall. discriminate.
    + rewrite Hall, Hd, Hl, Hc, Hi. cbn [filter].
      change (passesFilters "All" "3" "All" "All" CS101) with false.
      change (passesFilters "All" "3" "All" "All" CS202) with true.
      cbv iota. unfold sortCourses.
      destruct (value (sortSelect st) =? "none")%string; reflexivity.
    + exists st'. auto.
Qed.

(** ** The derived filter options *)

Lemma departmentsSet_In (courses : list Course) (y : JSValue) :
  In y (departmentsSet courses) <-> exists c, In c courses /\ department c = y.
Proof.
  pose proof (fold_Set_add_In (fun _ => true) department courses [] y) as H.
  cbv beta iota in H. unfold departmentsSet. rewrite H. simpl.
  split.
  - intros [[]|[c [Hin [_ Hf]]]]. eauto.
  - intros [c [Hin Hf]]. right. eauto.
Qed.

Lemma instructorsSet_In (courses : list Course) (y : JSValue) :
  In y (instructorsSet courses)
  <-> exists c, In c courses /\ getInstructorLabel c = y.
Proof.
  pose proof (fold_Set_add_In (fun _ => true) getInstructorLabel courses [] y) as H.
  cbv beta iota in H. unfold instructorsSet. rewrite H. simpl.
  split.
  - intros [[]|[c [Hin [_ Hf]]]]. eauto.
  - intros [c [Hin Hf]]. right. eauto.
Qed.

Lemma levelsSet_In (courses : list Course) (y : JSValue) :
  In y (levelsSet courses)
  <-> exists c, In c courses /\ is_nullish (level c) = false /\ level c = y.
Proof.
  pose proof (fold_Set_add_In (fun c => negb (is_nullish (level c))) level
                courses [] y) as H.
  cbv beta in H. unfold levelsSet. rewrite H. simpl.
  split.
  - intros [[]|[c [Hin [Hk Hf]]]]. exists c. rewrite negb_true_iff in Hk. auto.
  - intros [c [Hin [Hk Hf]]]. right. exists c. rewrite negb_true_iff. auto.
Qed.

Lemma creditsSet_In (courses : list Course) (y : JSValue) :
  In y (creditsSet courses)
  <-> exists c, In c courses /\ is_nullish (credits c) = false /\ credits c = y.
Proof.
  pose proof (fold_Set_add_In (fun c => negb (is_nullish (credits c))) credits
                courses [] y) as H.
  cbv beta in H. unfold creditsSet. rewrite H. simpl.
  split.
  - intros [[]|[c [Hin [Hk Hf]]]]. exists c. rewrite negb_true_iff in Hk. auto.
  - intros [c [Hin [Hk Hf]]]. right. exists c. rewrite negb_true_iff. auto.
Qed.

Lemma is_string_primitive (v : JSValue) : is_string v = true -> primitive v = true.
Proof. destruct v; simpl; congruence. Qed.

Lemma is_number_primitive (v : JSValue) : is_number v = true -> primitive v = true.
Proof. destruct v; simpl; congruence. Qed.

Lemma getInstructorLabel_string (c : Course) :
  instructor c = VNull \/ is_string (instructor c) = true ->
  is_string (getInstructorLabel c) = true.
Proof.
  unfold getInstructorLabel. intros [H|H].
  - rewrite H. reflexivity.
  - destruct (truthy (instructor c)); [exact H|reflexivity].
Qed.

Section TypedCatalog.

Variable courses : list Course.
Hypothesis typed : Forall well_typed courses.

Lemma typed_In (c : Course) : In c courses -> well_typed c.
Proof. rewrite Forall_forall in typed. apply typed. Qed.

Lemma departmentsSet_NoDup : NoDup (departmentsSet courses).
Proof.
  apply (fold_Set_add_NoDup (fun _ => true) department); [|constructor].
  intros c Hin _. apply is_string_primitive. apply (typed_In c Hin).
Qed.

Lemma instructorsSet_NoDup : NoDup (instructorsSet courses).
Proof.
  apply (fold_Set_add_NoDup (fun _ => true) getInstructorLabel); [|constructor].
  intros c Hin _. apply is_string_primitive, getInstructorLabel_string.
  apply (typed_In c Hin).
Qed.

Lemma levelsSet_NoDup : NoDup (levelsSet courses).
Proof.
  apply (fold_Set_add_NoDup (fun c => negb (is_nullish (level c))) level);
    [|constructor].
  intros c Hin Hk. destruct (typed_In c Hin) as [_ [[H|H] _]].
  - rewrite H in Hk. discriminate.
  - apply is_number_primitive; exact H.
Qed.

Lemma creditsSet_NoDup : NoDup (creditsSet courses).
Proof.
  apply (fold_Set_add_NoDup (fun c => negb (is_nullish (credits c))) credits);
    [|constructor].
  intros c Hin Hk. destruct (typed_In c Hin) as [_ [_ [[H|H] _]]].
  - rewrite H in Hk. discriminate.
  - apply is_number_primitive; exact H.
Qed.

Lemma levelsSet_numbers : Forall (fun v => is_number v = true) (levelsSet courses).
Proof.
  apply Forall_forall. intros v Hv. apply levelsSet_In in Hv.
  destruct Hv as [c [Hin [Hk Hf]]]. subst v.
  destruct (typed_In c Hin) as [_ [[H|H] _]]; [|exact H].
  rewrite H in Hk. discriminate.
Qed.

Lemma creditsSet_numbers : Forall (fun v => is_number v = true) (creditsSet courses).
Proof.
  apply Forall_forall. intros v Hv. apply creditsSet_In in Hv.
  destruct Hv as [c [Hin [Hk Hf]]]. subst v.
  destruct (typed_In c Hin) as [_ [_ [[H|H] _]]]; [|exact H].
  rewrite H in Hk. discriminate.
Qed.

Lemma typed_level_nullish (c : Course) :
  In c courses -> (is_nullish (level c) = false <-> level c <> VNull).
Proof.
  intros Hin. destruct (typed_In c Hin) as [_ [[H|H] _]].
  - rewrite H. simpl. split; congruence.
  - destruct (level c); simpl in *; split; congruence.
Qed.

Lemma typed_credits_nullish (c : Course) :
  In c courses -> (is_nullish (credits c) = false <-> credits c <> VNull).
Proof.
  intros Hin. destruct (typed_In c Hin) as [_ [_ [[H|H] _]]].
  - rewrite H. simpl. split; congruence.
  - destruct (credits c); simpl in *; split; congruence.
Qed.

End TypedCatalog.

(** What sorting a duplicate-free set gives: the same entries, still
    duplicate-free, in order. *)
Lemma sorted_set (comparefn : JSValue -> JSValue -> result (option Z))
    (le : JSValue -> JSValue -> Prop) (s : list JSValue) :
  (forall x y z, le x y -> le y z -> le x z) ->
  agrees comparefn le s -> NoDup s ->
  exists r, Array_sort comparefn s = Ok r
            /\ NoDup r /\ StronglySorted le r
            /\ (forall v, In v r <-> In v s).
Proof.
  intros Htrans Hag Hnd.
  destruct (Array_sort_agrees comparefn le Htrans s Hag) as [r [Hr [Hperm Hs]]].
  exists r. repeat split; auto.
  - eapply Permutation_NoDup; eassumption.
  - apply Permutation_in, Permutation_sym, Hperm.
  - apply Permutation_in, Hperm.
Qed.

(** Courses without an instructor all give the one label "TBA". *)
Lemma instructorsSet_all_TBA (c : Course) (others : list Course) :
  Forall (fun c' => truthy (instructor c') = false) (c :: others) ->
  instructorsSet (c :: others) = [VString "TBA"].
Proof.
  intros Hall. inversion Hall as [|? ? Hc Hothers]; subst. clear Hall.
  unfold instructorsSet. cbn [fold_left].
  rewrite (getInstructorLabel_falsy c Hc).
  change (Set_add (VString "TBA") []) with [VString "TBA"].
  induction Hothers as [|c' rest Hc' _ IH]; [reflexivity|].
  cbn [fold_left]. rewrite (getInstructorLabel_falsy c' Hc').
  change (Set_add (VString "TBA") [VString "TBA"]) with [VString "TBA"].
  exact IH.
Qed.

(** C8: over well-typed courses each derived option list is duplicate-free
    and sorted, departments and instructor labels as strings, levels and
    credits as numbers; it lists exactly the values the courses carry, a
    [null] level or credits giving no entry and every missing instructor the
    one entry "TBA"; on the scenario the levels are [[3]] and the
    instructors [["A. Lee"; "TBA"]]. *)
Theorem derived_options (courses : list Course) :
  Forall well_typed courses ->
  exists deps levs creds insts,
    sortedDepartments courses = Ok deps
    /\ sortedLevels courses = Ok levs
    /\ sortedCredits courses = Ok creds
    /\ sortedInstructors courses = Ok insts
    /\ (NoDup deps /\ StronglySorted by_string deps
        /\ forall v, In v deps <-> exists c, In c courses /\ department c = v)
    /\ (NoDup levs /\ StronglySorted by_number levs
        /\ forall v, In v levs
                     <-> exists c, In c courses /\ level c <> VNull /\ level c = v)
    /\ (NoDup creds /\ StronglySorted by_number creds
        /\ forall v, In v creds
                     <-> exists c, In c courses /\ credits c <> VNull /\ credits c = v)
    /\ (NoDup insts /\ StronglySorted by_string insts
        /\ forall v, In v insts
                     <-> exists c, In c courses /\ getInstructorLabel c = v)
    /\ (forall c, In c courses -> instructor c = VNull -> In (VString "TBA") insts)
    /\ sortedLevels [CS101; CS202] = Ok [VNumber 3]
    /\ sortedInstructors [CS101; CS202] = Ok [VString "A. Lee"; VString "TBA"].
Proof.
  intros Htyped.
  destruct (sorted_set defaultCompare by_string (departmentsSet courses)
              by_string_trans (defaultCompare_agrees _)
              (departmentsSet_NoDup courses Htyped))
    as [deps [Hdeps [Hd1 [Hd2 Hd3]]]].
  destruct (sorted_set numericCompare by_number (levelsSet courses)
              by_number_trans
              (numericCompare_agrees _ (levelsSet_numbers courses Htyped))
              (levelsSet_NoDup courses Htyped))
    as [levs [Hlevs [Hl1 [Hl2 Hl3]]]].
  destruct (sorted_set numericCompare by_number (creditsSet courses)
              by_number_trans
              (numericCompare_agrees _ (creditsSet_numbers courses Htyped))
              (creditsSet_NoDup courses Htyped))
    as [creds [Hcreds [Hc1 [Hc2 Hc3]]]].
  destruct (sorted_set defaultCompare by_string (instructorsSet courses)
              by_string_trans (defaultCompare_agrees _)
              (instructorsSet_NoDup courses Htyped))
    as [insts [Hinsts [Hi1 [Hi2 Hi3]]]].
  exists deps, levs, creds, insts.
  assert (Hinst_In : forall v, In v insts
                     <-> exists c, In c courses /\ getInstructorLabel c = v).
  { intros v. rewrite Hi3. apply instructorsSet_In. }
  repeat match goal with |- _ /\ _ => split end; auto.
  - intros v. rewrite Hd3. apply departmentsSet_In.
  - intros v. rewrite Hl3, levelsSet_In. split.
    + intros [c [Hin [Hk Hf]]]. exists c.
      rewrite <- (typed_level_nullish courses Htyped c Hin). auto.
    + intros [c [Hin [Hk Hf]]]. exists c.
      rewrite (typed_level_nullish courses Htyped c Hin). auto.
  - intros v. rewrite Hc3, creditsSet_In. split.
    + intros [c [Hin [Hk Hf]]]. exists c.
      rewrite <- (typed_credits_nullish courses Htyped c Hin). auto.
    + intros [c [Hin [Hk Hf]]]. exists c.
      rewrite (typed_credits_nullish courses Htyped c Hin). auto.
  - intros c Hin Hnull. apply Hinst_In. exists c. split; [exact Hin|].
    apply getInstructorLabel_falsy. rewrite Hnull. reflexivity.
Qed.

(** C10: a record whose instructor is falsy, the empty string included, is
    stored with a [null] instructor; its label is "TBA", the instructor
    selection "TBA" lets it through exactly as "All" does, and a catalog of
    such records derives the single instructor option "TBA". *)
Theorem falsy_instructor_is_TBA (props : list (string * JSValue)) :
  truthy (lookup "instructor" props) = false ->
  exists c,
    new_Course (VObject props) = Ok c
    /\ instructor c = VNull
    /\ getInstructorLabel c = VString "TBA"
    /\ passesFilters "All" "All" "All" "TBA" c = true
    /\ (forall deptValue levelValue creditsValue,
           passesFilters deptValue levelValue creditsValue "TBA" c
           = passesFilters deptValue levelValue creditsValue "All" c)
    /\ (forall others,
           Forall (fun c' => instructor c' = VNull) others ->
           sortedInstructors (c :: others) = Ok [VString "TBA"]).
Proof.
  intros Hfalsy. eexists. split; [apply new_Course_object|].
  assert (Hnull : or_else (lookup "instructor" props) VNull = VNull).
  { unfold or_else. rewrite Hfalsy. reflexivity. }
  cbn [instructor]. split; [exact Hnull|].
  split; [|split; [|split]].
  - apply getInstructorLabel_falsy. cbn [instructor]. rewrite Hnull. reflexivity.
  - rewrite passesFilters_TBA; [reflexivity|].
    cbn [instructor]. rewrite Hnull. reflexivity.
  - intros. apply passesFilters_TBA. cbn [instructor]. rewrite Hnull. reflexivity.
  - intros others Hothers. unfold sortedInstructors.
    rewrite instructorsSet_all_TBA; [reflexivity|].
    constructor.
    + cbn [instructor]. rewrite Hnull. reflexivity.
    + eapply Forall_impl; [|exact Hothers]. intros c' Hc'. cbn beta in Hc'.
      rewrite Hc'. reflexivity.
Qed.

(** ** Sorting courses *)

Lemma Array_sort_total {A} (comparefn : A -> A -> result (option Z)) (l : list A) :
  (forall x y, In x l -> In y l -> exists v, comparefn x y = Ok v) ->
  exists r, Array_sort comparefn l = Ok r /\ Permutation l r.
Proof.
  intros Htotal.
  destruct (Array_sort_agrees comparefn (fun _ _ => True)) with (l := l)
    as [r [Hr [Hperm _]]]; eauto.
  intros x y Hx Hy. destruct (Htotal x y Hx Hy) as [v Hv].
  exists v. split; [exact Hv|]. destruct (_ >? 0); exact I.
Qed.

Lemma String_localeCompare_string (a b : JSValue) :
  is_string a = true -> exists v, String_localeCompare a b = Ok v.
Proof. destruct a; try discriminate. intros _. eexists. reflexivity. Qed.

Lemma semesterToNumber_is_string (v : JSValue) :
  is_string v = true -> exists k, semesterToNumber v = Ok k.
Proof. destruct v; try discriminate. intros _. apply semesterToNumber_string. Qed.

Lemma compareCourses_total (sortValue : string) (a b : Course) :
  sortable sortValue a -> sortable sortValue b ->
  exists v, compareCourses sortValue a b = Ok v.
Proof.
  unfold sortable, sort_key, compareCourses.
  destruct (sortValue =? "id-asc")%string;
    [intros Ha Hb; apply String_localeCompare_string; assumption|].
  destruct (sortValue =? "id-desc")%string;
    [intros Ha Hb; apply String_localeCompare_string; assumption|].
  destruct (sortValue =? "title-asc")%string;
    [intros Ha Hb; apply String_localeCompare_string; assumption|].
  destruct (sortValue =? "title-desc")%string;
    [intros Ha Hb; apply String_localeCompare_string; assumption|].
  destruct (sortValue =? "sem-earliest")%string.
  { intros Ha Hb.
    destruct (semesterToNumber_is_string _ Ha) as [ka Hka].
    destruct (semesterToNumber_is_string _ Hb) as [kb Hkb].
    rewrite Hka, Hkb. eexists. reflexivity. }
  destruct (sortValue =? "sem-latest")%string.
  { intros Ha Hb.
    destruct (semesterToNumber_is_string _ Ha) as [ka Hka].
    destruct (semesterToNumber_is_string _ Hb) as [kb Hkb].
    rewrite Hka, Hkb. eexists. reflexivity. }
  intros _ _. eexists. reflexivity.
Qed.

(** On sortable courses [sortCourses] returns, with the same courses. *)
Lemma sortCourses_total (sortValue : string) (courses : list Course) :
  Forall (sortable sortValue) courses ->
  exists sorted,
    sortCourses courses sortValue = Ok sorted /\ Permutation courses sorted.
Proof.
  intros Hs. unfold sortCourses.
  destruct (sortValue =? "none")%string; [exists courses; split; reflexivity|].
  apply Array_sort_total. rewrite Forall_forall in Hs.
  intros x y Hx Hy. apply compareCourses_total; auto.
Qed.

Lemma sortable_semester (c : Course) :
  is_string (semester c) = true -> sortable "sem-earliest" c.
Proof. intros H. exact H. Qed.

Lemma compareCourses_sem_earliest_agrees (courses : list Course) :
  Forall (fun c => is_string (semester c) = true) courses ->
  agrees (compareCourses "sem-earliest") by_semester courses.
Proof.
  rewrite Forall_forall. intros Hs x y Hx Hy.
  change (compareCourses "sem-earliest" x y)
    with (ka <- semesterToNumber (semester x) ;;
          kb <- semesterToNumber (semester y) ;;
          Ok (Some (ka - kb)))%result.
  rewrite (semester_key_string x (Hs x Hx)), (semester_key_string y (Hs y Hy)).
  cbn [rbind]. eexists. split; [reflexivity|].
  unfold by_semester.
  destruct (semester_key x - semester_key y >? 0) eqn:E; lia.
Qed.

(** C6: the key of a semester "<Term> <Year>", the year one whose key the
    doubles compute exactly, is year * 10 + rank, with
    Winter 1, Spring 2, Summer 3, Fall 4 and any other token 0; a missing
    semester, and the default "Unknown semester", have key 0; sorting by
    "sem-earliest" returns the same courses in ascending key order, and puts
    Fall 2020, Spring 2021, Winter 2021 in the order Fall 2020, Winter 2021,
    Spring 2021. *)
Theorem semester_key_order :
  (forall term n,
      has_space term = false ->
      exact_year n ->
      semesterToNumber (VString (term ++ " " ++ Number_toString n))
      = Ok (n * 10 + termRank term))
  /\ (termRank "Winter" = 1 /\ termRank "Spring" = 2
      /\ termRank "Summer" = 3 /\ termRank "Fall" = 4)
  /\ (forall term,
         term <> "Winter" -> term <> "Spring" -> term <> "Summer" ->
         term <> "Fall" -> termRank term = 0)
  /\ (forall v, truthy v = false -> semesterToNumber v = Ok 0)
  /\ semesterToNumber (VString "Unknown semester") = Ok 0
  /\ (forall courses,
         Forall (fun c => is_string (semester c) = true) courses ->
         exists sorted,
           sortCourses courses "sem-earliest" = Ok sorted
           /\ Permutation courses sorted
           /\ StronglySorted by_semester sorted)
  /\ (forall a b c,
         semester a = VString "Fall 2020" ->
         semester b = VString "Spring 2021" ->
         semester c = VString "Winter 2021" ->
         semesterToNumber (semester a) = Ok 20204
         /\ semesterToNumber (semester b) = Ok 20212
         /\ semesterToNumber (semester c) = Ok 20211
         /\ sortCourses [a; b; c] "sem-earliest" = Ok [a; c; b]).
Proof.
  split; [intros term n Hterm _; exact (semesterToNumber_format term n Hterm)|].
  split; [repeat split|].
  split.
  { intros term H1 H2 H3 H4. unfold termRank.
    apply String.eqb_neq in H1, H2, H3, H4. rewrite H1, H2, H3, H4. reflexivity. }
  split; [exact semesterToNumber_falsy|].
  split; [reflexivity|].
  split.
  - intros courses Hs. unfold sortCourses. cbn [String.eqb Ascii.eqb Bool.eqb].
    apply Array_sort_agrees.
    + unfold by_semester. intros; lia.
    + apply compareCourses_sem_earliest_agrees. exact Hs.
  - intros a b c Ha Hb Hc. destruct a, b, c. cbn [semester] in *. subst.
    repeat split.
Qed.

(** ** Statements that return *)

Lemma post_bind {A B} (m : M A) (k : A -> M B) (st : state)
    (Q : B -> state -> Prop) :
  post m st (fun a s => post (k a) s Q) -> post (bind m k) st Q.
Proof. unfold post, bind. destruct (m st) as [[a|e] s]; auto. Qed.

Lemma post_weaken {A} (m : M A) (st : state) (Q1 Q2 : A -> state -> Prop) :
  post m st Q1 -> (forall a s, Q1 a s -> Q2 a s) -> post m st Q2.
Proof. unfold post. destruct (m st) as [[a|e] s]; auto. Qed.

Lemma post_modify {B} (f : state -> state) (k : unit -> M B) (st : state)
    (Q : B -> state -> Prop) :
  post (k tt) (f st) Q -> post (bind (modify f) k) st Q.
Proof. intros H. exact H. Qed.

Lemma post_run {A B} (m : M A) (k : A -> M B) (st st' : state) (a : A)
    (Q : B -> state -> Prop) :
  m st = (Ok a, st') -> post (k a) st' Q -> post (bind m k) st Q.
Proof. intros Hrun H. unfold post, bind. rewrite Hrun. exact H. Qed.

Lemma post_forEach {A} (f : A -> M unit) (I : state -> Prop) (l : list A)
    (st : state) :
  (forall x s, I s -> post (f x) s (fun _ s' => I s')) ->
  I st -> post (forEach l f) st (fun _ s => I s).
Proof.
  intros Hstep. revert st. induction l as [|x rest IH]; intros st HI.
  - exact HI.
  - cbn [forEach]. apply post_bind. eapply post_weaken; [apply Hstep; exact HI|].
    intros a s Hs. apply IH. exact Hs.
Qed.

Lemma forEach_modify {A} (f : A -> state -> state) (l : list A) (st : state) :
  forEach l (fun x => modify (f x)) st
  = (Ok tt, fold_left (fun s x => f x s) l st).
Proof.
  revert st. induction l as [|x rest IH]; intros st; [reflexivity|].
  cbn [forEach fold_left]. unfold bind, modify at 1. apply IH.
Qed.

Lemma fold_invariant {A} (P : state -> Prop) (f : A -> state -> state)
    (l : list A) (st : state) :
  P st -> (forall x s, P s -> P (f x s)) ->
  P (fold_left (fun s x => f x s) l st).
Proof.
  intros HP Hstep. revert st HP.
  induction l as [|x rest IH]; intros st HP; [exact HP|].
  cbn [fold_left]. apply IH, Hstep, HP.
Qed.

(** ** Filling the dropdowns *)

Lemma defaultCompare_sort_total (l : list JSValue) :
  exists r, Array_sort defaultCompare l = Ok r /\ Permutation l r.
Proof.
  apply Array_sort_total. intros x y _ _.
  destruct (defaultCompare_agrees [x; y] x y) as [v [Hv _]]; simpl; eauto.
Qed.

Lemma numericCompare_sort_total (l : list JSValue) :
  exists r, Array_sort numericCompare l = Ok r /\ Permutation l r.
Proof.
  apply Array_sort_total. intros x y _ _. unfold numericCompare.
  destruct (ToNumber x), (ToNumber y); eauto.
Qed.

Lemma appendChild_shows_All (opt : option_element) (sel : select_element) :
  shows_All sel -> shows_All (appendChild opt sel).
Proof.
  intros [Hv Ho]. unfold shows_All, appendChild. cbn [value options]. split.
  - destruct (options sel); [contradiction|exact Hv].
  - destruct (options sel); discriminate.
Qed.

Lemma resetSelectOptions_shows_All (allLabel : string) :
  shows_All (resetSelectOptions allLabel).
Proof. split; [reflexivity|discriminate]. Qed.

(** [populateFilterDropdowns] always returns; it leaves the two arrays and
    the sort control alone and every filter on "All". *)
Lemma populateFilterDropdowns_run (st : state) :
  exists st',
    populateFilterDropdowns st = (Ok tt, st')
    /\ allCourses st' = allCourses st
    /\ filteredCourses st' = filteredCourses st
    /\ sortSelect st' = sortSelect st
    /\ shows_All (departmentSelect st')
    /\ shows_All (levelSelect st')
    /\ shows_All (creditsSelect st')
    /\ shows_All (instructorSelect st').
Proof.
  unfold populateFilterDropdowns, sortedDepartments, sortedLevels,
    sortedCredits, sortedInstructors.
  unfold bind at 1. unfold gets at 1. cbv beta iota.
  destruct (defaultCompare_sort_total (departmentsSet (allCourses st)))
    as [deps [Hdeps _]].
  destruct (numericCompare_sort_total (levelsSet (allCourses st)))
    as [levs [Hlevs _]].
  destruct (numericCompare_sort_total (creditsSet (allCourses st)))
    as [creds [Hcreds _]].
  destruct (defaultCompare_sort_total (instructorsSet (allCourses st)))
    as [insts [Hinsts _]].
  rewrite Hdeps, Hlevs, Hcreds, Hinsts.
  unfold bind, modify at 1 2 3 4, lift. cbv beta iota.
  rewrite !forEach_modify.
  eexists. split; [reflexivity|].
  repeat match goal with |- _ /\ _ => split end;
    repeat (apply fold_invariant;
            [|intros ? ? ?; cbn;
              try assumption; try (apply appendChild_shows_All; assumption)]);
    cbn; try reflexivity; try apply resetSelectOptions_shows_All.
Qed.

(** ** Runs of the filter keep the store consistent *)

Lemma applyFiltersAndSort_consistent (st : state) :
  store_consistent st -> store_consistent (snd (applyFiltersAndSort st)).
Proof.
  intros Hcons. destruct (allCourses st) as [|c0 rest] eqn:Hall.
  - destruct (applyFiltersAndSort_empty st Hall) as [st' [Hrun [_ [Hf _]]]].
    rewrite Hrun. cbn [snd]. intros _. rewrite Hf. apply Hcons, Hall.
  - assert (Hne : allCourses st <> []) by congruence.
    destruct (sortCourses
                (filter (passesFilters (value (departmentSelect st))
                           (value (levelSelect st)) (value (creditsSelect st))
                           (value (instructorSelect st))) (allCourses st))
                (value (sortSelect st))) as [sorted|e] eqn:Hsort.
    + destruct (applyFiltersAndSort_sorted st sorted Hne Hsort)
        as [st' [Hrun [Ha _]]].
      rewrite Hrun. cbn [snd]. intros Hempty. congruence.
    + destruct (applyFiltersAndSort_throws st e Hne Hsort)
        as [st' [Hrun [Ha _]]].
      rewrite Hrun. cbn [snd]. intros Hempty. congruence.
Qed.

Lemma item_click_arrays (i : nat) (st : state) :
  exists st',
    item_click i st = (Ok tt, st')
    /\ allCourses st' = allCourses st
    /\ filteredCourses st' = filteredCourses st
    /\ departmentSelect st' = departmentSelect st
    /\ levelSelect st' = levelSelect st
    /\ creditsSelect st' = creditsSelect st
    /\ instructorSelect st' = instructorSelect st
    /\ sortSelect st' = sortSelect st.
Proof.
  unfold item_click, bind, gets.
  destruct (nth_error (courseListDiv st) i) as [[text|text sel course]|];
    cbn; eexists; repeat split.
Qed.

(** ** Loading *)

Lemma reader_onload_not_array (text : string) (v : JSValue) (st : state) :
  JSON_parse text = Ok v ->
  Array_isArray v = false ->
  exists st',
    reader_onload text st = (Ok tt, st')
    /\ allCourses st' = []
    /\ filteredCourses st' = []
    /\ errorMessage st' = "Invalid JSON file format."
    /\ errorHidden st' = false
    /\ console st' = (console st ++ [Error "JSON root is not an array"])%list
    /\ courseDetailsDiv st' = None
    /\ courseListDiv st' = [Paragraph "no courses match the current filters."].
Proof.
  intros Hparse Harr. unfold reader_onload, try_catch, bind, lift.
  rewrite Hparse. destruct v; try discriminate; cbn; eexists; repeat split.
Qed.

(** Text that is not JSON takes the same path, logging the parser's error. *)
Lemma load_parse_error (text : string) (e : exn) (st : state) :
  JSON_parse text = Throw e ->
  exists st',
    reader_onload text st = (Ok tt, st')
    /\ allCourses st' = []
    /\ filteredCourses st' = []
    /\ errorMessage st' = "Invalid JSON file format."
    /\ errorHidden st' = false
    /\ console st' = (console st ++ [e])%list.
Proof.
  intros Hparse. unfold reader_onload, try_catch, bind, lift.
  rewrite Hparse. cbn. eexists; repeat split.
Qed.

(** The load handler catches whatever its body throws. *)
Lemma reader_onload_returns (text : string) (st : state) :
  exists st', reader_onload text st = (Ok tt, st').
Proof.
  unfold reader_onload, try_catch.
  match goal with
  | |- context [match ?body st with _ => _ end] =>
      destruct (body st) as [[[]|e] s]
  end; cbn; eexists; reflexivity.
Qed.

Lemma setError_arrays (message : string) (st : state) :
  exists st',
    setError message st = (Ok tt, st')
    /\ allCourses st' = allCourses st
    /\ filteredCourses st' = filteredCourses st.
Proof.
  unfold setError. destruct (negb (truthy (VString message)));
    eexists; repeat split.
Qed.

Lemma reader_onload_consistent (text : string) (st : state) :
  store_consistent (snd (reader_onload text st)).
Proof.
  unfold reader_onload, try_catch.
  match goal with
  | |- context [match ?body st with _ => _ end] =>
      assert (Hpost : post body st (fun _ s => store_consistent s));
      [|unfold post in Hpost; destruct (body st) as [[[]|e] s];
        [exact Hpost|cbn; intros _; reflexivity]]
  end.
  apply post_bind. unfold post at 1, lift.
  destruct (JSON_parse text) as [v|e]; [|exact I].
  destruct v; try exact I.
  do 2 apply post_modify. apply post_bind.
  eapply post_weaken.
  { apply post_forEach with (I := fun s => filteredCourses s = []).
    - intros x s Hs. apply post_bind. unfold post at 1, lift.
      destruct (new_Course x) as [course|e]; [|exact I].
      exact Hs.
    - reflexivity. }
  intros a s Hs. cbv beta in Hs.
  destruct (populateFilterDropdowns_run s) as [s1 [Hrun [Ha [Hf _]]]].
  eapply post_run; [exact Hrun|].
  apply post_bind.
  assert (Hcons : store_consistent (snd (applyFiltersAndSort s1))).
  { apply applyFiltersAndSort_consistent. intros _. congruence. }
  unfold post at 1. destruct (applyFiltersAndSort s1) as [[[]|e] s2]; [|exact I].
  cbn [snd] in Hcons.
  destruct (setError_arrays "" s2) as [s3 [Hrun3 [Ha3 Hf3]]].
  unfold post. rewrite Hrun3. intros Hempty. rewrite Hf3. apply Hcons. congruence.
Qed.

Lemma read_failure_run (fileName : string) (st : state) :
  exists st',
    fileInput_change (Some (mkFile fileName ReadFailed)) st = (Ok tt, st')
    /\ allCourses st' = allCourses st
    /\ filteredCourses st' = filteredCourses st
    /\ errorMessage st' = "Could not read file. please try again."
    /\ errorHidden st' = false.
Proof. eexists. repeat split. Qed.

(** Every state the script reaches is consistent. *)
Lemma reachable_consistent (st : state) : reachable st -> store_consistent st.
Proof.
  induction 1 as [st Ha Hf|st ev Hreach IH].
  - intros _. exact Hf.
  - destruct ev as [[[fileName [text|]]|]|which v|i]; cbn [handle].
    + unfold fileInput_change, bind, modify. cbn [outcome name].
      apply reader_onload_consistent.
    + destruct (read_failure_run fileName st) as [st' [Hrun [Ha [Hf _]]]].
      rewrite Hrun. cbn [snd]. intros Hempty. rewrite Hf. apply IH. congruence.
    + exact IH.
    + unfold select_change, bind, modify.
      apply applyFiltersAndSort_consistent.
      destruct which; exact IH.
    + destruct (item_click_arrays i st) as [st' [Hrun [Ha [Hf _]]]].
      rewrite Hrun. cbn [snd]. intros Hempty. rewrite Hf. apply IH. congruence.
Qed.

(** ** A successful load *)

Lemma bind_run {A B} (m : M A) (k : A -> M B) (st st' : state) (a : A) :
  m st = (Ok a, st') -> bind m k st = k a st'.
Proof. intros H. unfold bind. rewrite H. reflexivity. Qed.

Lemma forEach_push (elts : list JSValue) (courses : list Course) (st : state) :
  map new_Course elts = map Ok courses ->
  exists st',
    forEach elts (fun courseObj =>
      course <- lift (new_Course courseObj) ;;
      modify (fun s => set_allCourses (allCourses s ++ [course]) s)) st
    = (Ok tt, st')
    /\ allCourses st' = (allCourses st ++ courses)%list
    /\ filteredCourses st' = filteredCourses st
    /\ sortSelect st' = sortSelect st.
Proof.
  revert courses st. induction elts as [|x rest IH]; intros courses st Hmap.
  - destruct courses; [|discriminate]. exists st. rewrite List.app_nil_r.
    repeat split.
  - destruct courses as [|c more]; [discriminate|].
    cbn [map] in Hmap. injection Hmap as Hx Hrest.
    cbn [forEach]. unfold bind at 1 2, lift at 1. rewrite Hx.
    unfold modify at 1. cbv beta iota.
    destruct (IH more (set_allCourses (allCourses st ++ [c]) st) Hrest)
      as [st' [Hrun [Ha [Hf Hs]]]].
    exists st'. split; [exact Hrun|]. cbn in Ha, Hf, Hs.
    rewrite Ha, <- List.app_assoc. auto.
Qed.

Lemma keys_typed_sortable (sortValue : string) (c : Course) :
  keys_typed c -> sortable sortValue c.
Proof.
  intros [Hid [Htitle Hsem]]. unfold sortable, sort_key.
  repeat match goal with
         | |- context [if ?b then _ else _] => destruct b
         end; auto.
Qed.

Lemma sortable_filter (sortValue : string) (f : Course -> bool)
    (courses : list Course) :
  Forall (sortable sortValue) courses ->
  Forall (sortable sortValue) (filter f courses).
Proof.
  rewrite !Forall_forall. intros H c Hin. apply filter_In in Hin.
  apply H, Hin.
Qed.

(** An array of records none of which is [null], with sortable keys, loads:
    the catalog is their normalization in order, all of it is visible, and
    the error message is hidden. *)
Lemma reader_onload_success (text : string) (elts : list JSValue)
    (courses : list Course) (st : state) :
  JSON_parse text = Ok (VArray elts) ->
  map new_Course elts = map Ok courses ->
  Forall (sortable (value (sortSelect st))) courses ->
  exists st',
    reader_onload text st = (Ok tt, st')
    /\ allCourses st' = courses
    /\ Permutation courses (filteredCourses st')
    /\ errorMessage st' = ""
    /\ errorHidden st' = true.
Proof.
  intros Hparse Hmap Hsortable.
  unfold reader_onload, try_catch.
  unfold bind at 1. unfold lift at 1. rewrite Hparse. cbv beta iota.
  unfold bind at 1. unfold modify at 1. cbv beta iota.
  unfold bind at 1. unfold modify at 1. cbv beta iota.
  destruct (forEach_push elts courses
              (set_filteredCourses [] (set_allCourses [] st)) Hmap)
    as [s0 [Hrun0 [Ha0 [Hf0 Hs0]]]].
  rewrite (bind_run _ _ _ _ _ Hrun0).
  destruct (populateFilterDropdowns_run s0)
    as [s1 [Hrun1 [Ha1 [Hf1 [Hs1 [[Hd _] [[Hl _] [[Hc _] [Hi _]]]]]]]]].
  rewrite (bind_run _ _ _ _ _ Hrun1).
  cbn in Ha0, Hf0, Hs0.
  assert (Hrun2 : exists s2,
             applyFiltersAndSort s1 = (Ok tt, s2)
             /\ allCourses s2 = courses
             /\ Permutation courses (filteredCourses s2)).
  { destruct courses as [|c0 more] eqn:Hcourses.
    - destruct (applyFiltersAndSort_empty s1) as [s2 [Hrun2 [Ha2 [Hf2 _]]]];
        [congruence|].
      exists s2. rewrite Hf2, Hf1, Hf0. auto.
    - assert (Hsorted : exists sorted,
                 sortCourses (allCourses s1) (value (sortSelect s1)) = Ok sorted
                 /\ Permutation (allCourses s1) sorted).
      { apply sortCourses_total. rewrite Hs1, Hs0, Ha1, Ha0. exact Hsortable. }
      destruct Hsorted as [sorted [Hsort Hperm]].
      destruct (applyFiltersAndSort_sorted s1 sorted) as [s2 [Hrun2 [Ha2 [Hf2 _]]]].
      + rewrite Ha1, Ha0. discriminate.
      + rewrite Hd, Hl, Hc, Hi, filter_All. exact Hsort.
      + exists s2. rewrite Ha2, Hf2, Ha1, Ha0.
        rewrite Ha1, Ha0 in Hperm. auto. }
  destruct Hrun2 as [s2 [Hrun2 [Ha2 Hf2]]].
  rewrite (bind_run _ _ _ _ _ Hrun2).
  eexists. split; [reflexivity|]. cbn. auto.
Qed.

Lemma scenario_keys_typed : Forall keys_typed [CS101; CS202].
Proof. repeat constructor. Qed.

(** C3: when the text parses to a value that is not an array, the load
    handler returns normally, having thrown and caught the error "JSON root
    is not an array": both arrays are empty, the format message is shown and
    the error is logged. *)
Theorem load_not_an_array (text : string) (v : JSValue) (st : state) :
  JSON_parse text = Ok v ->
  Array_isArray v = false ->
  exists st',
    reader_onload text st = (Ok tt, st')
    /\ allCourses st' = []
    /\ filteredCourses st' = []
    /\ errorMessage st' = "Invalid JSON file format."
    /\ errorHidden st' = false
    /\ console st' = (console st ++ [Error "JSON root is not an array"])%list
    /\ courseDetailsDiv st' = None
    /\ courseListDiv st' = [Paragraph "no courses match the current filters."].
Proof. apply reader_onload_not_array. Qed.

(** C1, as the code has it: a root that is not an array and a text that is
    not JSON both leave the two arrays empty, but a read error only shows
    its message: the arrays are what they were, so after the scenario
    catalog has loaded a failed read leaves its two courses in place. *)
Theorem load_failure_outcomes :
  (forall text v st,
      JSON_parse text = Ok v -> Array_isArray v = false ->
      allCourses (snd (reader_onload text st)) = []
      /\ filteredCourses (snd (reader_onload text st)) = [])
  /\ (forall text e st,
         JSON_parse text = Throw e ->
         allCourses (snd (reader_onload text st)) = []
         /\ filteredCourses (snd (reader_onload text st)) = [])
  /\ (forall fileName st,
         exists st',
           fileInput_change (Some (mkFile fileName ReadFailed)) st = (Ok tt, st')
           /\ allCourses st' = allCourses st
           /\ filteredCourses st' = filteredCourses st
           /\ errorMessage st' = "Could not read file. please try again."
           /\ errorHidden st' = false)
  /\ (forall text fileName st,
         JSON_parse text = Ok (VArray scenario_records) ->
         let loaded := snd (reader_onload text st) in
         let failed :=
           snd (fileInput_change (Some (mkFile fileName ReadFailed)) loaded) in
         allCourses loaded = [CS101; CS202]
         /\ allCourses failed = [CS101; CS202]
         /\ filteredCourses failed <> []
         /\ errorMessage failed = "Could not read file. please try again.").
Proof.
  split; [|split; [|split]].
  - intros text v st Hparse Harr.
    destruct (reader_onload_not_array text v st Hparse Harr)
      as [st' [Hrun [Ha [Hf _]]]].
    rewrite Hrun. auto.
  - intros text e st Hparse.
    destruct (load_parse_error text e st Hparse) as [st' [Hrun [Ha [Hf _]]]].
    rewrite Hrun. auto.
  - intros. apply read_failure_run.
  - intros text fileName st Hparse loaded failed.
    destruct (reader_onload_success text scenario_records [CS101; CS202] st Hparse)
      as [s1 [Hrun1 [Ha1 [Hperm _]]]].
    + reflexivity.
    + eapply Forall_impl; [|exact scenario_keys_typed].
      intros c. apply keys_typed_sortable.
    + destruct (read_failure_run fileName s1) as [s2 [Hrun2 [Ha2 [Hf2 [He2 _]]]]].
      subst loaded failed. rewrite Hrun1. cbn [snd]. rewrite Hrun2. cbn [snd].
      rewrite Ha2, Hf2, He2. repeat split; auto.
      intros Hempty. rewrite Hempty in Hperm.
      apply Permutation_sym, Permutation_nil in Hperm. discriminate.
Qed.

(** ** The selection *)

Lemma applyFiltersAndSort_follows (st : state) :
  store_consistent st ->
  Forall (sortable (value (sortSelect st))) (allCourses st) ->
  exists st', applyFiltersAndSort st = (Ok tt, st') /\ follows_first st'.
Proof.
  intros Hcons Hsortable. destruct (allCourses st) as [|c0 rest] eqn:Hall.
  - destruct (applyFiltersAndSort_empty st Hall)
      as [st' [Hrun [_ [Hf [Hd Hl]]]]].
    exists st'. split; [exact Hrun|]. unfold follows_first, selectedId.
    rewrite Hf, (Hcons Hall), Hd, (Hl (Hcons Hall)).
    repeat split. repeat constructor.
  - rewrite <- Hall in Hsortable.
    destruct (sortCourses_total (value (sortSelect st))
                (filter (passesFilters (value (departmentSelect st))
                           (value (levelSelect st)) (value (creditsSelect st))
                           (value (instructorSelect st))) (allCourses st)))
      as [sorted [Hsort _]].
    { apply sortable_filter. exact Hsortable. }
    destruct (applyFiltersAndSort_sorted st sorted) as [st' [Hrun [_ [Hf [Hd Hl]]]]];
      [congruence|exact Hsort|].
    exists st'. split; [exact Hrun|]. unfold follows_first, selectedId.
    rewrite Hf, Hd, Hl. destruct sorted as [|first more]; cbn.
    + repeat split. repeat constructor.
    + repeat split. intros Hstr. destruct (id first); try discriminate.
      cbn. rewrite String.eqb_refl. reflexivity.
Qed.

(** A run that returns has put the selection on the first visible
    course. *)
Lemma applyFiltersAndSort_returned_follows (st st' : state) :
  store_consistent st ->
  applyFiltersAndSort st = (Ok tt, st') ->
  follows_first st'.
Proof.
  intros Hcons Hrun. destruct (allCourses st) as [|c0 rest] eqn:Hall.
  - destruct (applyFiltersAndSort_empty st Hall)
      as [s [Hrun' [_ [Hf [Hd Hl]]]]].
    rewrite Hrun in Hrun'. injection Hrun' as <-.
    unfold follows_first, selectedId.
    rewrite Hf, (Hcons Hall), Hd, (Hl (Hcons Hall)).
    repeat split. repeat constructor.
  - destruct (sortCourses
                (filter (passesFilters (value (departmentSelect st))
                           (value (levelSelect st)) (value (creditsSelect st))
                           (value (instructorSelect st))) (allCourses st))
                (value (sortSelect st))) as [sorted|e] eqn:Hsort.
    + destruct (applyFiltersAndSort_sorted st sorted)
        as [s [Hrun' [_ [Hf [Hd Hl]]]]]; [congruence|exact Hsort|].
      rewrite Hrun in Hrun'. injection Hrun' as <-.
      unfold follows_first, selectedId.
      rewrite Hf, Hd, Hl. destruct sorted as [|first more]; cbn.
      * repeat split. repeat constructor.
      * repeat split. intros Hstr. destruct (id first); try discriminate.
        cbn. rewrite String.eqb_refl. reflexivity.
    + destruct (applyFiltersAndSort_throws st e) as [s [Hrun' _]];
        [congruence|exact Hsort|].
      rewrite Hrun in Hrun'. discriminate Hrun'.
Qed.

(** C9: every run of the filter and sort over a consistent store that
    returns ends with the selection on the first visible course, or on none
    when nothing is visible, whatever was selected before, by a click or
    otherwise; and the run does return when the chosen sort can compare the
    courses and every field of theirs can be converted to a string, also
    for a change of any control to any value when the identifier, title and
    semester of every course are strings. *)
Theorem selection_resets_to_first :
  (forall st st',
      store_consistent st ->
      applyFiltersAndSort st = (Ok tt, st') ->
      follows_first st')
  /\ (forall st,
         store_consistent st ->
         Forall (sortable (value (sortSelect st))) (allCourses st) ->
         Forall (fun c => course_printable c = true) (allCourses st) ->
         exists st', applyFiltersAndSort st = (Ok tt, st') /\ follows_first st')
  /\ (forall st which v,
         store_consistent st ->
         Forall keys_typed (allCourses st) ->
         Forall (fun c => course_printable c = true) (allCourses st) ->
         exists st',
           select_change which v st = (Ok tt, st')
           /\ follows_first st').
Proof.
  split; [exact applyFiltersAndSort_returned_follows|].
  split; [intros st Hcons Hsortable _;
          exact (applyFiltersAndSort_follows st Hcons Hsortable)|].
  intros st which v Hcons Htyped _.
  unfold select_change. unfold bind at 1. unfold modify at 1. cbv beta iota.
  apply applyFiltersAndSort_follows.
  - intros Hempty. destruct which; cbn in *; apply Hcons; congruence.
  - eapply Forall_impl; [intros c; apply keys_typed_sortable|].
    destruct which; cbn; exact Htyped.
Qed.

(** * Further properties of the script *)

(** ** What each statement leaves alone *)

Lemma keeps_ret {A B} (proj : state -> B) (a : A) : keeps proj (ret a).
Proof. intros st. reflexivity. Qed.

Lemma keeps_throw {A B} (proj : state -> B) (e : exn) :
  keeps proj (@throw A e).
Proof. intros st. reflexivity. Qed.

Lemma keeps_lift {A B} (proj : state -> B) (r : result A) : keeps proj (lift r).
Proof. intros st. reflexivity. Qed.

Lemma keeps_gets {A B} (proj : state -> B) (f : state -> A) :
  keeps proj (gets f).
Proof. intros st. reflexivity. Qed.

Lemma keeps_modify {B} (proj : state -> B) (f : state -> state) :
  (forall st, proj (f st) = proj st) -> keeps proj (modify f).
Proof. intros H st. apply H. Qed.

Lemma keeps_bind {A B C} (proj : state -> C) (m : M A) (k : A -> M B) :
  keeps proj m -> (forall a, keeps proj (k a)) -> keeps proj (bind m k).
Proof.
  intros Hm Hk st. unfold bind. specialize (Hm st).
  destruct (m st) as [[a|e] s]; cbn [snd] in *.
  - rewrite (Hk a s). exact Hm.
  - exact Hm.
Qed.

Lemma keeps_try_catch {C} (proj : state -> C) (body : M unit)
    (handler : exn -> M unit) :
  keeps proj body -> (forall e, keeps proj (handler e)) ->
  keeps proj (try_catch body handler).
Proof.
  intros Hb Hh st. unfold try_catch. specialize (Hb st).
  destruct (body st) as [[a|e] s]; cbn [snd] in *.
  - exact Hb.
  - rewrite (Hh e s). exact Hb.
Qed.

Lemma keeps_forEach {A C} (proj : state -> C) (l : list A) (f : A -> M unit) :
  (forall x, keeps proj (f x)) -> keeps proj (forEach l f).
Proof.
  intros Hf. induction l as [|x rest IH]; cbn [forEach].
  - apply keeps_ret.
  - apply keeps_bind; [apply Hf|intros _; exact IH].
Qed.

Ltac keeps_step :=
  match goal with
  | |- keeps _ (bind _ _) => apply keeps_bind; [|intros ?]
  | |- keeps _ (ret _) => apply keeps_ret
  | |- keeps _ (gets _) => apply keeps_gets
  | |- keeps _ (lift _) => apply keeps_lift
  | |- keeps _ (throw _) => apply keeps_throw
  | |- keeps _ (forEach _ _) => apply keeps_forEach; intros ?
  | |- keeps _ (try_catch _ _) => apply keeps_try_catch; [|intros ?]
  | |- keeps _ (modify _) => apply keeps_modify; intros ?; reflexivity
  | |- keeps _ (if ?b then _ else _) => destruct b
  | |- keeps _ (match ?x with _ => _ end) => destruct x
  end.

Ltac keeps_tac :=
  unfold reader_onload, fileInput_change, select_change, item_click,
    reader_onerror, populateFilterDropdowns, applyFiltersAndSort, setError,
    renderCourseList, markSelectedCourse, renderCourseDetails;
  repeat keeps_step.


(** X1: a run of the filter and sort, whether it returns or throws, changes
    neither the catalog, nor any of the five controls, nor the file name,
    the error message or the log; it only writes [filteredCourses], the
    course list and the details panel. *)
Theorem filter_run_frame (st : state) :
  let st' := snd (applyFiltersAndSort st) in
  allCourses st' = allCourses st
  /\ departmentSelect st' = departmentSelect st
  /\ levelSelect st' = levelSelect st
  /\ creditsSelect st' = creditsSelect st
  /\ instructorSelect st' = instructorSelect st
  /\ sortSelect st' = sortSelect st
  /\ fileNameSpan st' = fileNameSpan st
  /\ errorMessage st' = errorMessage st
  /\ errorHidden st' = errorHidden st
  /\ console st' = console st.
Proof.
  cbv zeta.
  repeat match goal with |- _ /\ _ => split end;
    match goal with
    | |- ?proj (snd (applyFiltersAndSort st)) = _ =>
        assert (H : keeps proj applyFiltersAndSort) by keeps_tac; apply H
    end.
Qed.

Lemma fileInput_change_returns (file : option File) (st : state) :
  exists st', fileInput_change file st = (Ok tt, st').
Proof.
  destruct file as [[fileName [text|]]|]; unfold fileInput_change;
    cbn [outcome name].
  - unfold bind at 1, modify at 1. apply reader_onload_returns.
  - eexists. reflexivity.
  - eexists. reflexivity.
Qed.

Lemma reader_onload_keeps_fileNameSpan (text : string) :
  keeps fileNameSpan (reader_onload text).
Proof. keeps_tac. Qed.

Lemma reader_onload_keeps_sortSelect (text : string) :
  keeps sortSelect (reader_onload text).
Proof. keeps_tac. Qed.

(** X2: a cancelled file dialog changes nothing; choosing a file always
    returns normally, shows that file's name whether or not it then loads,
    and never touches the sort control. *)
Theorem file_choice_frame :
  (forall st, fileInput_change None st = (Ok tt, st))
  /\ (forall f st,
         exists st',
           fileInput_change (Some f) st = (Ok tt, st')
           /\ fileNameSpan st' = name f
           /\ sortSelect st' = sortSelect st).
Proof.
  split; [reflexivity|]. intros f st.
  destruct (fileInput_change_returns (Some f) st) as [st' Hrun].
  exists st'. split; [exact Hrun|].
  assert (Hst' : st' = snd (fileInput_change (Some f) st)) by (rewrite Hrun; reflexivity).
  subst st'. clear Hrun. destruct f as [fileName [text|]];
    unfold fileInput_change; cbn [outcome name].
  - split; unfold bind at 1; unfold modify at 1; cbv beta iota.
    + rewrite reader_onload_keeps_fileNameSpan. reflexivity.
    + rewrite reader_onload_keeps_sortSelect. reflexivity.
  - split; reflexivity.
Qed.

(** ** Statements whose last step decides *)

Lemma post_seq {A B} (m : M A) (k : M B) (st : state) (Q : B -> state -> Prop) :
  (forall s, post k s Q) -> post (bind m (fun _ => k)) st Q.
Proof.
  intros Hk. unfold post, bind. destruct (m st) as [[a|e] s]; [apply Hk|exact I].
Qed.

Lemma setError_empty_post (st : state) :
  post (setError "") st (fun _ s => errorHidden s = true /\ errorMessage s = "").
Proof. split; reflexivity. Qed.

(** X3: the load handler never lets an exception out and is all or nothing:
    for every text it returns normally, either with the error hidden and
    nothing logged, or with both arrays empty, the list and the details
    panel blank, the message "Invalid JSON file format." shown and exactly
    one error logged. *)
Theorem load_all_or_nothing (text : string) (st : state) :
  exists st',
    reader_onload text st = (Ok tt, st')
    /\ ((errorHidden st' = true /\ errorMessage st' = ""
         /\ console st' = console st)
        \/ (allCourses st' = [] /\ filteredCourses st' = []
            /\ courseDetailsDiv st' = None
            /\ courseListDiv st'
               = [Paragraph "no courses match the current filters."]
            /\ errorHidden st' = false
            /\ errorMessage st' = "Invalid JSON file format."
            /\ exists e, console st' = (console st ++ [e])%list)).
Proof.
  unfold reader_onload, try_catch.
  match goal with
  | |- context [match ?body st with _ => _ end] =>
      assert (Hpost : post body st
                (fun _ s => errorHidden s = true /\ errorMessage s = ""));
      [|assert (Hlog : keeps console body) by keeps_tac;
        specialize (Hlog st); unfold post in Hpost;
        destruct (body st) as [[[]|e] s]; cbn [snd] in Hlog]
  end.
  - apply post_bind. unfold post at 1, lift.
    destruct (JSON_parse text) as [v|e]; [|exact I].
    destruct v; try exact I.
    do 5 (apply post_seq; intros ?). apply setError_empty_post.
  - exists s. split; [reflexivity|]. left. tauto.
  - eexists. split; [reflexivity|]. right. cbn.
    repeat split. exists e. rewrite Hlog. reflexivity.
Qed.

(** ** Records that are not objects *)

Lemma new_Course_throws_TypeError (raw : JSValue) (e : exn) :
  new_Course raw = Throw e -> exists msg, e = TypeError msg.
Proof.
  destruct raw; cbn; intros H; try discriminate; injection H as <-; eauto.
Qed.

(** X4: the constructor throws exactly on [null] and [undefined], a
    TypeError; every other value gives a course, and a value that is not an
    object (a number, string, boolean or array), like the empty object,
    gives the course of all defaults. *)
Theorem normalize_throws_iff_nullish (raw : JSValue) :
  (is_nullish raw = true -> exists msg, new_Course raw = Throw (TypeError msg))
  /\ (is_nullish raw = false -> exists c, new_Course raw = Ok c)
  /\ (is_nullish raw = false -> (forall props, raw <> VObject props) ->
      new_Course raw = Ok default_Course)
  /\ new_Course (VObject []) = Ok default_Course.
Proof.
  repeat split.
  - destruct raw; try discriminate; intros _; eexists; reflexivity.
  - destruct raw; try discriminate; intros _; eexists; reflexivity.
  - destruct raw; try discriminate; intros _ Hobj; try reflexivity.
    exfalso. exact (Hobj props eq_refl).
Qed.

Lemma forEach_push_throws (elts : list JSValue) (st : state) :
  In VNull elts ->
  exists msg s,
    forEach elts (fun courseObj =>
      course <- lift (new_Course courseObj) ;;
      modify (fun s => set_allCourses (allCourses s ++ [course]) s)) st
    = (Throw (TypeError msg), s)
    /\ departmentSelect s = departmentSelect st
    /\ levelSelect s = levelSelect st
    /\ creditsSelect s = creditsSelect st
    /\ instructorSelect s = instructorSelect st
    /\ console s = console st.
Proof.
  revert st. induction elts as [|x rest IH]; intros st Hin; [destruct Hin|].
  cbn [forEach]. unfold bind at 1 2, lift at 1.
  destruct (new_Course x) as [c|e] eqn:Hx.
  - unfold modify at 1. cbv beta iota.
    destruct Hin as [->|Hin]; [discriminate|].
    destruct (IH (set_allCourses (allCourses st ++ [c]) st) Hin)
      as [msg [s [Hrun H]]].
    exists msg, s. split; [exact Hrun|exact H].
  - destruct (new_Course_throws_TypeError x e Hx) as [msg ->].
    exists msg, st. repeat split.
Qed.

(** X5: an array with a [null] element anywhere fails to load: the TypeError
    of the constructor is caught and logged, both arrays end empty and the
    format message is shown, while the four filter dropdowns keep the
    options and selection they had. *)
Theorem load_null_element (text : string) (elts : list JSValue) (st : state) :
  JSON_parse text = Ok (VArray elts) ->
  In VNull elts ->
  exists st' msg,
    reader_onload text st = (Ok tt, st')
    /\ allCourses st' = []
    /\ filteredCourses st' = []
    /\ errorMessage st' = "Invalid JSON file format."
    /\ errorHidden st' = false
    /\ console st' = (console st ++ [TypeError msg])%list
    /\ departmentSelect st' = departmentSelect st
    /\ levelSelect st' = levelSelect st
    /\ creditsSelect st' = creditsSelect st
    /\ instructorSelect st' = instructorSelect st.
Proof.
  intros Hparse Hin. unfold reader_onload, try_catch.
  unfold bind at 1. unfold lift at 1. rewrite Hparse. cbv beta iota.
  unfold bind at 1. unfold modify at 1. cbv beta iota.
  unfold bind at 1. unfold modify at 1. cbv beta iota.
  destruct (forEach_push_throws elts
              (set_filteredCourses [] (set_allCourses [] st)) Hin)
    as [msg [s [Hrun [Hd [Hl [Hc [Hi Hlog]]]]]]].
  unfold bind at 1. rewrite Hrun. cbn in Hd, Hl, Hc, Hi, Hlog.
  eexists. exists msg. split; [reflexivity|]. cbn.
  rewrite Hd, Hl, Hc, Hi, Hlog. repeat split.
Qed.

(** ** More on [Array.prototype.sort] *)

Lemma Array_insert_Ok_perm {A} (comparefn : A -> A -> result (option Z))
    (x : A) (l r : list A) :
  Array_insert comparefn x l = Ok r -> Permutation (x :: l) r.
Proof.
  revert r. induction l as [|y rest IH]; intros r; cbn [Array_insert].
  - intros H. injection H as <-. reflexivity.
  - destruct (comparefn x y) as [v|e]; cbn [rbind]; [|discriminate].
    destruct (_ >? 0).
    + destruct (Array_insert comparefn x rest) as [r'|e]; cbn [rbind];
        [|discriminate].
      intros H. injection H as <-. rewrite perm_swap. constructor.
      apply IH. reflexivity.
    + intros H. injection H as <-. reflexivity.
Qed.

(** Whenever the sort returns, it returns the same elements. *)
Lemma Array_sort_Ok_perm {A} (comparefn : A -> A -> result (option Z))
    (l r : list A) :
  Array_sort comparefn l = Ok r -> Permutation l r.
Proof.
  revert r. induction l as [|x rest IH]; intros r; cbn [Array_sort].
  - intros H. injection H as <-. constructor.
  - destruct (Array_sort comparefn rest) as [s|e]; cbn [rbind]; [|discriminate].
    intros H. apply Array_insert_Ok_perm in H.
    etransitivity; [|exact H]. constructor. apply IH. reflexivity.
Qed.

(** An array in which no element has to move is returned as it is. *)
Lemma Array_sort_in_order {A} (comparefn : A -> A -> result (option Z))
    (l : list A) :
  ForallOrdPairs
    (fun x y => exists v, comparefn x y = Ok v
                          /\ (match v with Some n => n | None => 0 end) <= 0) l ->
  Array_sort comparefn l = Ok l.
Proof.
  induction 1 as [|x rest Hx Hrest IH]; [reflexivity|].
  cbn [Array_sort]. rewrite IH. cbn [rbind].
  destruct rest as [|y more]; [reflexivity|].
  cbn [Array_insert]. inversion Hx as [|? ? [v [Hv Hle]] _]; subst.
  rewrite Hv. cbn [rbind].
  destruct (_ >? 0) eqn:E; [lia|reflexivity].
Qed.

(** A comparator that throws on every pair makes the sort of two or more
    elements throw. *)
Lemma Array_sort_throws {A} (comparefn : A -> A -> result (option Z))
    (e : exn) (l : list A) :
  (forall x y, In x l -> In y l -> comparefn x y = Throw e) ->
  (2 <= List.length l)%nat ->
  Array_sort comparefn l = Throw e.
Proof.
  intros Hthrow Hlen. destruct l as [|x [|y rest]]; cbn [List.length] in Hlen;
    try lia. clear Hlen. revert x y Hthrow.
  induction rest as [|z rest IH]; intros x y Hthrow.
  - cbn. rewrite (Hthrow x y); cbn; auto.
  - change (Array_sort comparefn (x :: y :: z :: rest))
      with (rbind (Array_sort comparefn (y :: z :: rest))
                  (fun sorted => Array_insert comparefn x sorted)).
    rewrite (IH y z); [reflexivity|].
    intros a b Ha Hb. apply Hthrow; right; assumption.
Qed.

(** A comparator that is the difference of two keys keeps the elements of
    each key in the order they had. *)
Section KeyedSort.

Context {A : Type}.
Variable key : A -> Z.
Variable comparefn : A -> A -> result (option Z).
Variable sign : Z.

Let keyed := keyed key comparefn sign.

Lemma Array_insert_keyed (k : Z) (x : A) (l r : list A) :
  keyed (x :: l) ->
  Array_insert comparefn x l = Ok r ->
  filter (fun c => key c =? k) r = filter (fun c => key c =? k) (x :: l).
Proof.
  revert r. induction l as [|y rest IH]; intros r Hk; cbn [Array_insert].
  - intros H. injection H as <-. reflexivity.
  - rewrite (Hk x y); [|left; reflexivity|right; left; reflexivity].
    cbn [rbind]. destruct (_ >? 0) eqn:E.
    + destruct (Array_insert comparefn x rest) as [r'|e] eqn:Hr'; cbn [rbind];
        [|discriminate].
      intros H. injection H as <-.
      assert (Hrest : keyed (x :: rest)).
      { intros a b Ha Hb. apply Hk.
        - destruct Ha as [Ha|Ha]; [left; exact Ha|right; right; exact Ha].
        - destruct Hb as [Hb|Hb]; [left; exact Hb|right; right; exact Hb]. }
      specialize (IH r' Hrest eq_refl). cbn [filter] in *. rewrite IH.
      destruct (key x =? k) eqn:Ex, (key y =? k) eqn:Ey; try reflexivity.
      apply Z.eqb_eq in Ex, Ey. rewrite Ex, Ey, Z.sub_diag, Z.mul_0_r in E.
      discriminate.
    + intros H. injection H as <-. reflexivity.
Qed.

Lemma Array_sort_keyed (k : Z) (l r : list A) :
  keyed l ->
  Array_sort comparefn l = Ok r ->
  filter (fun c => key c =? k) r = filter (fun c => key c =? k) l.
Proof.
  revert r. induction l as [|x rest IH]; intros r Hk; cbn [Array_sort].
  - intros H. injection H as <-. reflexivity.
  - destruct (Array_sort comparefn rest) as [s|e] eqn:Hs; cbn [rbind];
      [|discriminate].
    intros H.
    assert (Hrest : keyed rest).
    { intros a b Ha Hb. apply Hk; right; assumption. }
    pose proof (Array_sort_Ok_perm _ _ _ Hs) as Hperm.
    rewrite (Array_insert_keyed k x s r); [| |exact H].
    + cbn [filter]. rewrite (IH s Hrest eq_refl). reflexivity.
    + intros a b Ha Hb. apply Hk.
      * destruct Ha as [Ha|Ha]; [left; exact Ha|right].
        apply (Permutation_in _ (Permutation_sym Hperm)); exact Ha.
      * destruct Hb as [Hb|Hb]; [left; exact Hb|right].
        apply (Permutation_in _ (Permutation_sym Hperm)); exact Hb.
Qed.

End KeyedSort.

Lemma StronglySorted_ordered_pairs {A} (R : A -> A -> Prop) (l : list A) :
  StronglySorted R l -> ForallOrdPairs R l.
Proof. induction 1; constructor; assumption. Qed.

Lemma ForallOrdPairs_all {A} (R : A -> A -> Prop) (l : list A) :
  (forall x y, R x y) -> ForallOrdPairs R l.
Proof.
  intros H. induction l as [|x rest IH]; constructor; [|exact IH].
  apply Forall_forall. intros y _. apply H.
Qed.

Lemma ForallOrdPairs_weaken {A} (R R' : A -> A -> Prop) (l : list A) :
  (forall x y, R x y -> R' x y) -> ForallOrdPairs R l -> ForallOrdPairs R' l.
Proof.
  intros H. induction 1 as [|x rest Hx Hrest IH]; constructor; [|exact IH].
  eapply Forall_impl; [|exact Hx]. intros y. apply H.
Qed.

Lemma ForallOrdPairs_In {A} (R : A -> A -> Prop) (l : list A) :
  ForallOrdPairs R l ->
  ForallOrdPairs (fun x y => In x l /\ In y l /\ R x y) l.
Proof.
  induction 1 as [|x rest Hx Hrest IH]; constructor.
  - rewrite Forall_forall in *. intros y Hy.
    split; [left; reflexivity|]. split; [right; exact Hy|]. apply Hx, Hy.
  - eapply ForallOrdPairs_weaken; [|exact IH].
    intros a b [Ha [Hb Hab]]. split; [right; exact Ha|].
    split; [right; exact Hb|exact Hab].
Qed.

(** ** The semester sorts *)

Lemma compareCourses_sem_earliest_keyed (courses : list Course) :
  Forall (fun c => is_string (semester c) = true) courses ->
  keyed semester_key (compareCourses "sem-earliest") 1 courses.
Proof.
  rewrite Forall_forall. intros Hs x y Hx Hy.
  change (compareCourses "sem-earliest" x y)
    with (ka <- semesterToNumber (semester x) ;;
          kb <- semesterToNumber (semester y) ;;
          Ok (Some (ka - kb)))%result.
  rewrite (semester_key_string x (Hs x Hx)), (semester_key_string y (Hs y Hy)).
  cbn [rbind]. do 2 f_equal. lia.
Qed.

Lemma compareCourses_sem_latest_keyed (courses : list Course) :
  Forall (fun c => is_string (semester c) = true) courses ->
  keyed semester_key (compareCourses "sem-latest") (-1) courses.
Proof.
  rewrite Forall_forall. intros Hs x y Hx Hy.
  change (compareCourses "sem-latest" x y)
    with (kb <- semesterToNumber (semester y) ;;
          ka <- semesterToNumber (semester x) ;;
          Ok (Some (kb - ka)))%result.
  rewrite (semester_key_string x (Hs x Hx)), (semester_key_string y (Hs y Hy)).
  cbn [rbind]. do 2 f_equal. lia.
Qed.

Lemma keyed_agrees_asc (comparefn : Course -> Course -> result (option Z))
    (courses : list Course) :
  keyed semester_key comparefn 1 courses -> agrees comparefn by_semester courses.
Proof.
  intros Hk x y Hx Hy. rewrite (Hk x y Hx Hy). eexists. split; [reflexivity|].
  unfold by_semester.
  destruct (1 * (semester_key x - semester_key y) >? 0) eqn:E; lia.
Qed.

Lemma keyed_agrees_desc (comparefn : Course -> Course -> result (option Z))
    (courses : list Course) :
  keyed semester_key comparefn (-1) courses ->
  agrees comparefn by_semester_desc courses.
Proof.
  intros Hk x y Hx Hy. rewrite (Hk x y Hx Hy). eexists. split; [reflexivity|].
  unfold by_semester_desc.
  destruct (-1 * (semester_key x - semester_key y) >? 0) eqn:E; lia.
Qed.

(** X6: sorting by "sem-latest" over courses whose semester is a string
    returns the same courses in descending key order; Fall 2020, Spring
    2021, Winter 2021 come out as Spring 2021, Winter 2021, Fall 2020. *)
Theorem sem_latest_order :
  (forall courses,
      Forall (fun c => is_string (semester c) = true) courses ->
      exists sorted,
        sortCourses courses "sem-latest" = Ok sorted
        /\ Permutation courses sorted
        /\ StronglySorted by_semester_desc sorted)
  /\ (forall a b c,
         semester a = VString "Fall 2020" ->
         semester b = VString "Spring 2021" ->
         semester c = VString "Winter 2021" ->
         sortCourses [a; b; c] "sem-latest" = Ok [b; c; a]).
Proof.
  split.
  - intros courses Hs. unfold sortCourses. cbn [String.eqb Ascii.eqb Bool.eqb].
    apply Array_sort_agrees.
    + unfold by_semester_desc. intros; lia.
    + apply keyed_agrees_desc, compareCourses_sem_latest_keyed, Hs.
  - intros a b c Ha Hb Hc. destruct a, b, c. cbn [semester] in *. subst.
    reflexivity.
Qed.

Lemma sorted_stays (comparefn : Course -> Course -> result (option Z))
    (sign : Z) (le : Course -> Course -> Prop) (l : list Course) :
  keyed semester_key comparefn sign l ->
  (forall x y, le x y -> sign * (semester_key x - semester_key y) <= 0) ->
  StronglySorted le l ->
  Array_sort comparefn l = Ok l.
Proof.
  intros Hk Hle Hs. apply Array_sort_in_order.
  apply StronglySorted_ordered_pairs, ForallOrdPairs_In in Hs.
  eapply ForallOrdPairs_weaken; [|exact Hs].
  intros x y [Hx [Hy Hxy]]. rewrite (Hk x y Hx Hy).
  eexists. split; [reflexivity|]. apply Hle, Hxy.
Qed.

Lemma semester_strings_perm (l r : list Course) :
  Permutation l r ->
  Forall (fun c => is_string (semester c) = true) l ->
  Forall (fun c => is_string (semester c) = true) r.
Proof. intros Hperm. apply Permutation_Forall, Hperm. Qed.

(** X7: both semester sorts are stable and idempotent over courses whose
    semester is a string: the courses of any one key come out in the order
    they went in, and sorting the result again leaves it as it is. *)
Theorem semester_sorts_stable (courses : list Course) :
  Forall (fun c => is_string (semester c) = true) courses ->
  (exists sorted,
      sortCourses courses "sem-earliest" = Ok sorted
      /\ (forall k, with_key k sorted = with_key k courses)
      /\ sortCourses sorted "sem-earliest" = Ok sorted)
  /\ (exists sorted,
         sortCourses courses "sem-latest" = Ok sorted
         /\ (forall k, with_key k sorted = with_key k courses)
         /\ sortCourses sorted "sem-latest" = Ok sorted).
Proof.
  intros Hs. unfold sortCourses. cbn [String.eqb Ascii.eqb Bool.eqb]. split.
  - destruct (Array_sort_agrees (compareCourses "sem-earliest") by_semester)
      with (l := courses) as [sorted [Hrun [Hperm Hsorted]]].
    + unfold by_semester. intros; lia.
    + apply keyed_agrees_asc, compareCourses_sem_earliest_keyed, Hs.
    + exists sorted. split; [exact Hrun|]. split.
      * intros k. unfold with_key.
        apply (Array_sort_keyed semester_key (compareCourses "sem-earliest") 1);
          [apply compareCourses_sem_earliest_keyed, Hs|exact Hrun].
      * apply (sorted_stays _ 1 by_semester);
          [|unfold by_semester; intros; lia|exact Hsorted].
        apply compareCourses_sem_earliest_keyed.
        apply (semester_strings_perm courses); assumption.
  - destruct (Array_sort_agrees (compareCourses "sem-latest") by_semester_desc)
      with (l := courses) as [sorted [Hrun [Hperm Hsorted]]].
    + unfold by_semester_desc. intros; lia.
    + apply keyed_agrees_desc, compareCourses_sem_latest_keyed, Hs.
    + exists sorted. split; [exact Hrun|]. split.
      * intros k. unfold with_key.
        apply (Array_sort_keyed semester_key (compareCourses "sem-latest") (-1));
          [apply compareCourses_sem_latest_keyed, Hs|exact Hrun].
      * apply (sorted_stays _ (-1) by_semester_desc);
          [|unfold by_semester_desc; intros; lia|exact Hsorted].
        apply compareCourses_sem_latest_keyed.
        apply (semester_strings_perm courses); assumption.
Qed.

Lemma sortCourses_unknown (courses : list Course) (sortValue : string) :
  known_sort sortValue = false ->
  sortCourses courses sortValue = Ok courses.
Proof.
  unfold known_sort. rewrite !orb_false_iff.
  intros [[[[[[H1 H2] H3] H4] H5] H6] H7].
  unfold sortCourses. rewrite H1. apply Array_sort_in_order.
  apply ForallOrdPairs_all. intros x y. unfold compareCourses.
  rewrite H2, H3, H4, H5, H6, H7. eexists. split; [reflexivity|]. cbn. lia.
Qed.

(** X8: a sort option the comparator does not know ("unknown option -> no
    change") leaves the array exactly as it is, for any courses at all. *)
Theorem unknown_sort_keeps_order (courses : list Course) (sortValue : string) :
  known_sort sortValue = false ->
  sortCourses courses sortValue = Ok courses.
Proof. apply sortCourses_unknown. Qed.

(** ** The sorts by identifier and title *)

Lemma String_localeCompare_agrees (f : Course -> JSValue) (courses : list Course) :
  collation_consistent ->
  Forall (fun c => is_string (f c) = true) courses ->
  agrees (fun a b => String_localeCompare (f a) (f b)) (by_collation f) courses.
Proof.
  intros [Hanti _]. rewrite Forall_forall. intros Hs x y Hx Hy.
  specialize (Hs x Hx). unfold by_collation, String_localeCompare.
  destruct (f x) as [| | | |s| |]; try discriminate.
  eexists. split; [reflexivity|]. cbn [ToString].
  destruct (localeCompare s (ToString (f y)) >? 0) eqn:E.
  - apply Hanti. lia.
  - lia.
Qed.

Lemma String_localeCompare_agrees_desc (f : Course -> JSValue)
    (courses : list Course) :
  collation_consistent ->
  Forall (fun c => is_string (f c) = true) courses ->
  agrees (fun a b => String_localeCompare (f b) (f a))
         (fun a b => by_collation f b a) courses.
Proof.
  intros [Hanti _]. rewrite Forall_forall. intros Hs x y Hx Hy.
  specialize (Hs y Hy). unfold by_collation, String_localeCompare.
  destruct (f y) as [| | | |s| |]; try discriminate.
  eexists. split; [reflexivity|]. cbn [ToString].
  destruct (localeCompare s (ToString (f x)) >? 0) eqn:E.
  - apply Hanti. lia.
  - lia.
Qed.

(** X9: when the collation is a total preorder, sorting by "id-asc" or
    "title-asc" over courses whose identifier (title) is a string returns
    the same courses in non-decreasing collation order of that field, and
    "id-desc" or "title-desc" in non-increasing order. *)
Theorem locale_sorts_order (courses : list Course) :
  collation_consistent ->
  (Forall (fun c => is_string (id c) = true) courses ->
   (exists sorted,
       sortCourses courses "id-asc" = Ok sorted
       /\ Permutation courses sorted
       /\ StronglySorted (by_collation id) sorted)
   /\ (exists sorted,
          sortCourses courses "id-desc" = Ok sorted
          /\ Permutation courses sorted
          /\ StronglySorted (fun a b => by_collation id b a) sorted))
  /\ (Forall (fun c => is_string (title c) = true) courses ->
      (exists sorted,
          sortCourses courses "title-asc" = Ok sorted
          /\ Permutation courses sorted
          /\ StronglySorted (by_collation title) sorted)
      /\ (exists sorted,
             sortCourses courses "title-desc" = Ok sorted
             /\ Permutation courses sorted
             /\ StronglySorted (fun a b => by_collation title b a) sorted)).
Proof.
  intros Hcons. pose proof Hcons as [_ Htrans].
  split; intros Hs; split; unfold sortCourses;
    cbn [String.eqb Ascii.eqb Bool.eqb]; apply Array_sort_agrees;
    try (unfold by_collation; intros x y z Hxy Hyz;
         solve [eapply Htrans; eassumption]).
  - apply (String_localeCompare_agrees id), Hs. exact Hcons.
  - apply (String_localeCompare_agrees_desc id), Hs. exact Hcons.
  - apply (String_localeCompare_agrees title), Hs. exact Hcons.
  - apply (String_localeCompare_agrees_desc title), Hs. exact Hcons.
Qed.

(** ** Sorts that throw *)

Lemma String_localeCompare_not_string (a b : JSValue) :
  is_string a = false ->
  String_localeCompare a b
  = Throw (TypeError "localeCompare is not a function").
Proof. destruct a; try discriminate; reflexivity. Qed.

Lemma semesterToNumber_not_string (v : JSValue) :
  truthy v = true -> is_string v = false ->
  semesterToNumber v = Throw (TypeError "split is not a function").
Proof.
  intros Ht Hs. unfold semesterToNumber. rewrite Ht.
  destruct v; try discriminate; reflexivity.
Qed.

(** X10: no sort option can throw on fewer than two courses; on two or
    more, sorting by identifier throws a TypeError when no identifier is a
    string (a number, say), and sorting by semester throws one when every
    semester is a truthy value that is not a string. *)
Theorem sort_throws_on_untyped_keys :
  (forall sortValue, sortCourses [] sortValue = Ok [])
  /\ (forall sortValue c, sortCourses [c] sortValue = Ok [c])
  /\ (forall courses,
         (2 <= List.length courses)%nat ->
         Forall (fun c => is_string (id c) = false) courses ->
         sortCourses courses "id-asc"
         = Throw (TypeError "localeCompare is not a function")
         /\ sortCourses courses "id-desc"
            = Throw (TypeError "localeCompare is not a function"))
  /\ (forall courses,
         (2 <= List.length courses)%nat ->
         Forall (fun c => truthy (semester c) = true
                          /\ is_string (semester c) = false) courses ->
         sortCourses courses "sem-earliest"
         = Throw (TypeError "split is not a function")
         /\ sortCourses courses "sem-latest"
            = Throw (TypeError "split is not a function")).
Proof.
  split; [|split; [|split]].
  - intros sv. unfold sortCourses. destruct (sv =? "none")%string; reflexivity.
  - intros sv c. unfold sortCourses. destruct (sv =? "none")%string; reflexivity.
  - intros courses Hlen Hs. rewrite Forall_forall in Hs.
    split; unfold sortCourses; cbn [String.eqb Ascii.eqb Bool.eqb];
      apply Array_sort_throws; try exact Hlen; intros x y Hx Hy.
    + apply (String_localeCompare_not_string (id x) (id y)), Hs, Hx.
    + apply (String_localeCompare_not_string (id y) (id x)), Hs, Hy.
  - intros courses Hlen Hs. rewrite Forall_forall in Hs.
    split; unfold sortCourses; cbn [String.eqb Ascii.eqb Bool.eqb];
      apply Array_sort_throws; try exact Hlen; intros x y Hx Hy.
    + change (compareCourses "sem-earliest" x y)
        with (ka <- semesterToNumber (semester x) ;;
              kb <- semesterToNumber (semester y) ;;
              Ok (Some (ka - kb)))%result.
      destruct (Hs x Hx) as [Ht Hn].
      rewrite (semesterToNumber_not_string _ Ht Hn). reflexivity.
    + change (compareCourses "sem-latest" x y)
        with (kb <- semesterToNumber (semester y) ;;
              ka <- semesterToNumber (semester x) ;;
              Ok (Some (kb - ka)))%result.
      destruct (Hs y Hy) as [Ht Hn].
      rewrite (semesterToNumber_not_string _ Ht Hn). reflexivity.
Qed.

(** ** More on the semester key *)

Lemma termRank_bounds (term : string) : 0 <= termRank term <= 4.
Proof.
  unfold termRank.
  repeat match goal with
         | |- context [if ?b then _ else _] => destruct b
         end; lia.
Qed.

Lemma semesterToNumber_text (term : string) (year : Z) :
  has_space term = false ->
  semesterToNumber (VString (semester_text term year))
  = Ok (year * 10 + termRank term).
Proof. apply semesterToNumber_format. Qed.

(** X11: the key orders semesters as the calendar does, for years whose
    key the doubles compute exactly: a semester of an earlier year has a
    smaller key than any semester of a later year, whatever the two term
    tokens are, and within one year an unrecognized token comes first, then
    Winter, Spring, Summer, Fall. *)
Theorem semester_key_chronological :
  (forall term1 term2 year1 year2,
      has_space term1 = false -> has_space term2 = false ->
      exact_year year1 -> exact_year year2 ->
      year1 < year2 ->
      exists k1 k2,
        semesterToNumber (VString (semester_text term1 year1)) = Ok k1
        /\ semesterToNumber (VString (semester_text term2 year2)) = Ok k2
        /\ k1 < k2)
  /\ (forall term year,
         has_space term = false -> termRank term = 0 ->
         exact_year year ->
         exists k0 k1 k2 k3 k4,
           semesterToNumber (VString (semester_text term year)) = Ok k0
           /\ semesterToNumber (VString (semester_text "Winter" year)) = Ok k1
           /\ semesterToNumber (VString (semester_text "Spring" year)) = Ok k2
           /\ semesterToNumber (VString (semester_text "Summer" year)) = Ok k3
           /\ semesterToNumber (VString (semester_text "Fall" year)) = Ok k4
           /\ k0 < k1 < k2 /\ k2 < k3 < k4).
Proof.
  split.
  - intros t1 t2 y1 y2 H1 H2 _ _ Hlt.
    exists (y1 * 10 + termRank t1), (y2 * 10 + termRank t2).
    rewrite !semesterToNumber_text by assumption.
    pose proof (termRank_bounds t1). pose proof (termRank_bounds t2).
    repeat split. lia.
  - intros term year Hterm Hrank _.
    exists (year * 10 + 0), (year * 10 + 1), (year * 10 + 2),
      (year * 10 + 3), (year * 10 + 4).
    rewrite !semesterToNumber_text by (assumption || reflexivity).
    rewrite Hrank. repeat split; lia.
Qed.

Lemma parseInt_undefined : parseInt VUndefined = None.
Proof. reflexivity. Qed.

(** X12: edge cases of the semester text: a lone term token without a year
    has the term's rank as key; two spaces after the term lose the year, the
    key again being the rank alone; and whatever follows a second space is
    ignored, the key being that of the term and the year, a year whose key
    the doubles compute exactly. *)
Theorem semester_key_edge_cases :
  (forall term,
      has_space term = false -> term <> "" ->
      semesterToNumber (VString term) = Ok (termRank term))
  /\ (forall term rest,
         has_space term = false ->
         semesterToNumber (VString (term ++ "  " ++ rest)) = Ok (termRank term))
  /\ (forall term year rest,
         has_space term = false ->
         exact_year year ->
         semesterToNumber (VString (semester_text term year ++ " " ++ rest))
         = Ok (year * 10 + termRank term)).
Proof.
  split; [|split].
  - intros term Hterm Hne. unfold semesterToNumber.
    assert (Htruthy : truthy (VString term) = true).
    { destruct term; [contradiction|reflexivity]. }
    rewrite Htruthy. cbn [negb String_split rbind].
    rewrite split_on_space_whole by exact Hterm.
    unfold termRank. reflexivity.
  - intros term rest Hterm. unfold semesterToNumber.
    assert (Htruthy : truthy (VString (term ++ "  " ++ rest)) = true).
    { destruct term; reflexivity. }
    rewrite Htruthy. cbn [negb String_split rbind].
    change ("  " ++ rest) with (String " " (String " " rest)).
    rewrite split_on_space_app by exact Hterm.
    unfold termRank. reflexivity.
  - intros term year rest Hterm _. unfold semesterToNumber, semester_text.
    assert (Htruthy : truthy (VString ((term ++ " " ++ Number_toString year)
                                        ++ " " ++ rest)) = true).
    { destruct term; reflexivity. }
    rewrite Htruthy. cbn [negb String_split rbind].
    assert (Hshape : (term ++ " " ++ Number_toString year) ++ " " ++ rest
                     = term ++ String " " (Number_toString year ++ String " " rest)).
    { clear. induction term as [|c t IH]; cbn.
      - reflexivity.
      - f_equal. exact IH. }
    rewrite Hshape, split_on_space_app by exact Hterm.
    rewrite split_on_space_app by apply has_space_Number_toString.
    unfold index. cbn [nth_error]. rewrite parseInt_Number_toString.
    unfold number_or, termRank, strict_eq_string. do 2 f_equal.
    destruct (year =? 0) eqn:E; [apply Z.eqb_eq in E; lia|reflexivity].
Qed.

(** ** The dropdowns after a load *)

Lemma fold_appendChild (values : list JSValue) (sel : select_element) :
  options sel <> [] ->
  fold_left (fun s x => appendChild (option_of x) s) values sel
  = {| options := options sel ++ map option_of values; value := value sel |}.
Proof.
  revert sel. induction values as [|x rest IH]; intros sel Hne; cbn [fold_left map].
  - rewrite List.app_nil_r. destruct sel; reflexivity.
  - rewrite IH.
    + unfold appendChild. cbn [options value]. rewrite <- List.app_assoc.
      destruct (options sel); [contradiction|reflexivity].
    + unfold appendChild. cbn [options]. destruct (options sel); discriminate.
Qed.

Section SelectFold.

Variable get : state -> select_element.
Variable set : select_element -> state -> state.
Hypothesis get_set : forall v s, get (set v s) = v.

Lemma fold_select (values : list JSValue) (st : state) :
  get (fold_left (fun s x => set (appendChild (option_of x) (get s)) s) values st)
  = fold_left (fun sel x => appendChild (option_of x) sel) values (get st).
Proof.
  revert st. induction values as [|x rest IH]; intros st; cbn [fold_left].
  - reflexivity.
  - rewrite IH, get_set. reflexivity.
Qed.

End SelectFold.

Lemma populateFilterDropdowns_contents (st : state) :
  exists st' deps levs creds insts,
    populateFilterDropdowns st = (Ok tt, st')
    /\ sortedDepartments (allCourses st) = Ok deps
    /\ sortedLevels (allCourses st) = Ok levs
    /\ sortedCredits (allCourses st) = Ok creds
    /\ sortedInstructors (allCourses st) = Ok insts
    /\ departmentSelect st' = dropdown_of deps
    /\ levelSelect st' = dropdown_of levs
    /\ creditsSelect st' = dropdown_of creds
    /\ instructorSelect st' = dropdown_of insts
    /\ sortSelect st' = sortSelect st
    /\ allCourses st' = allCourses st
    /\ filteredCourses st' = filteredCourses st.
Proof.
  unfold populateFilterDropdowns, sortedDepartments, sortedLevels,
    sortedCredits, sortedInstructors.
  unfold bind at 1. unfold gets at 1. cbv beta iota.
  destruct (defaultCompare_sort_total (departmentsSet (allCourses st)))
    as [deps [Hdeps _]].
  destruct (numericCompare_sort_total (levelsSet (allCourses st)))
    as [levs [Hlevs _]].
  destruct (numericCompare_sort_total (creditsSet (allCourses st)))
    as [creds [Hcreds _]].
  destruct (defaultCompare_sort_total (instructorsSet (allCourses st)))
    as [insts [Hinsts _]].
  rewrite Hdeps, Hlevs, Hcreds, Hinsts.
  unfold bind, modify at 1 2 3 4, lift. cbv beta iota.
  rewrite !forEach_modify.
  eexists. exists deps, levs, creds, insts. split; [reflexivity|].
  do 4 (split; [reflexivity|]).
  repeat match goal with |- _ /\ _ => split end.
  - do 3 (apply fold_invariant; [|intros ? ? ?; cbn; assumption]).
    rewrite (fold_select departmentSelect set_departmentSelect)
      by reflexivity.
    rewrite fold_appendChild by discriminate. reflexivity.
  - do 2 (apply fold_invariant; [|intros ? ? ?; cbn; assumption]).
    rewrite (fold_select levelSelect set_levelSelect) by reflexivity.
    rewrite fold_appendChild.
    + f_equal; apply fold_invariant; try reflexivity;
        intros ? ? ?; cbn; assumption.
    + apply fold_invariant; [discriminate|intros ? ? ?; cbn; assumption].
  - apply fold_invariant; [|intros ? ? ?; cbn; assumption].
    rewrite (fold_select creditsSelect set_creditsSelect) by reflexivity.
    rewrite fold_appendChild.
    + f_equal; do 2 (apply fold_invariant; [|intros ? ? ?; cbn; assumption]);
        reflexivity.
    + do 2 (apply fold_invariant; [|intros ? ? ?; cbn; assumption]).
      discriminate.
  - rewrite (fold_select instructorSelect set_instructorSelect) by reflexivity.
    rewrite fold_appendChild.
    + f_equal; do 3 (apply fold_invariant; [|intros ? ? ?; cbn; assumption]);
        reflexivity.
    + do 3 (apply fold_invariant; [|intros ? ? ?; cbn; assumption]).
      discriminate.
  - do 4 (apply fold_invariant; [|intros ? ? ?; cbn; assumption]). reflexivity.
  - do 4 (apply fold_invariant; [|intros ? ? ?; cbn; assumption]). reflexivity.
  - do 4 (apply fold_invariant; [|intros ? ? ?; cbn; assumption]). reflexivity.
Qed.

(** X13: over a catalog typed as the data model has it, whose numbers are
    safe integers, [populateFilterDropdowns] returns; it leaves each of the
    four filter dropdowns holding "All", selected, followed by one option
    per value of the matching sorted array, in that order, and changes
    neither the two arrays nor the sort control. *)
Theorem dropdown_contents (st : state) :
  Forall well_typed (allCourses st) ->
  Forall (fun c => course_printable c = true) (allCourses st) ->
  exists st' deps levs creds insts,
    populateFilterDropdowns st = (Ok tt, st')
    /\ sortedDepartments (allCourses st) = Ok deps
    /\ sortedLevels (allCourses st) = Ok levs
    /\ sortedCredits (allCourses st) = Ok creds
    /\ sortedInstructors (allCourses st) = Ok insts
    /\ departmentSelect st' = dropdown_of deps
    /\ levelSelect st' = dropdown_of levs
    /\ creditsSelect st' = dropdown_of creds
    /\ instructorSelect st' = dropdown_of insts
    /\ sortSelect st' = sortSelect st
    /\ allCourses st' = allCourses st
    /\ filteredCourses st' = filteredCourses st.
Proof. intros _ _. apply populateFilterDropdowns_contents. Qed.

(** ** What a dropdown option selects *)

Lemma Number_toString_inj (n m : Z) :
  Number_toString n = Number_toString m -> n = m.
Proof.
  intros H. pose proof (parseInt_Number_toString n) as Hn.
  rewrite H, parseInt_Number_toString in Hn. congruence.
Qed.

Lemma typed_level_matches (c : Course) (n : Z) :
  level c = VNull \/ is_number (level c) = true ->
  (ToString (level c) =? Number_toString n)%string
  = SameValueZero (level c) (VNumber n).
Proof.
  intros [H|H].
  - rewrite H. cbn [ToString SameValueZero]. apply String.eqb_neq.
    intros Heq. exact (Number_toString_not_null n (eq_sym Heq)).
  - destruct (level c) as [| | |m| | |]; try discriminate.
    cbn [ToString SameValueZero]. destruct (Z.eqb_spec m n) as [->|Hne].
    + apply String.eqb_refl.
    + apply String.eqb_neq. intros Heq. apply Hne, Number_toString_inj, Heq.
Qed.

Lemma typed_credits_matches (c : Course) (n : Z) :
  credits c = VNull \/ is_number (credits c) = true ->
  (ToString (credits c) =? Number_toString n)%string
  = SameValueZero (credits c) (VNumber n).
Proof.
  intros [H|H].
  - rewrite H. cbn [ToString SameValueZero]. apply String.eqb_neq.
    intros Heq. exact (Number_toString_not_null n (eq_sym Heq)).
  - destruct (credits c) as [| | |m| | |]; try discriminate.
    cbn [ToString SameValueZero]. destruct (Z.eqb_spec m n) as [->|Hne].
    + apply String.eqb_refl.
    + apply String.eqb_neq. intros Heq. apply Hne, Number_toString_inj, Heq.
Qed.

Lemma filter_ext_In {A} (f g : A -> bool) (l : list A) :
  (forall x, In x l -> f x = g x) -> filter f l = filter g l.
Proof.
  induction l as [|x rest IH]; intros H; cbn [filter]; [reflexivity|].
  rewrite (H x) by (left; reflexivity). rewrite IH; [reflexivity|].
  intros y Hy. apply H. right; exact Hy.
Qed.

(** X14: over well-typed courses, with the other three filters on "All",
    the level option of a number shows exactly the courses whose level is
    that number, in catalog order, and likewise for credits: two different
    numbers never share an option text, and no number's text is "null" or
    "All". *)
Theorem numeric_option_selects (courses : list Course) (n : Z) :
  Forall well_typed courses ->
  visible "All" (ToString (VNumber n)) "All" "All" courses
  = filter (fun c => SameValueZero (level c) (VNumber n)) courses
  /\ visible "All" "All" (ToString (VNumber n)) "All" courses
     = filter (fun c => SameValueZero (credits c) (VNumber n)) courses.
Proof.
  intros Htyped. rewrite Forall_forall in Htyped. unfold visible.
  split; apply filter_ext_In; intros c Hc;
    destruct (Htyped c Hc) as [_ [Hl [Hcr _]]];
    unfold passesFilters; cbn [ToString String.eqb Ascii.eqb Bool.eqb orb andb].
  - assert (Hne : (Number_toString n =? "All")%string = false).
    { apply String.eqb_neq, Number_toString_not_All. }
    rewrite Hne. cbn [orb andb]. rewrite ?andb_true_r.
    apply typed_level_matches, Hl.
  - assert (Hne : (Number_toString n =? "All")%string = false).
    { apply String.eqb_neq, Number_toString_not_All. }
    rewrite Hne. cbn [orb andb]. rewrite ?andb_true_r.
    apply typed_credits_matches, Hcr.
Qed.

Lemma visible_nonempty (d l cr i : string) (courses : list Course) (c : Course) :
  In c courses -> passesFilters d l cr i c = true -> visible d l cr i courses <> [].
Proof.
  intros Hin Hpass Hempty.
  assert (Hc : In c (visible d l cr i courses)).
  { apply filter_In. split; assumption. }
  rewrite Hempty in Hc. destruct Hc.
Qed.

Lemma passes_own_department (c : Course) :
  is_string (department c) = true ->
  passesFilters (ToString (department c)) "All" "All" "All" c = true.
Proof.
  unfold passesFilters. destruct (department c); try discriminate. intros _.
  cbn [ToString strict_eq_string]. rewrite (String.eqb_refl s), orb_true_r.
  reflexivity.
Qed.

Lemma passes_own_level (c : Course) :
  passesFilters "All" (ToString (level c)) "All" "All" c = true.
Proof.
  unfold passesFilters. rewrite (String.eqb_refl (ToString (level c))), orb_true_r.
  reflexivity.
Qed.

Lemma passes_own_credits (c : Course) :
  passesFilters "All" "All" (ToString (credits c)) "All" c = true.
Proof.
  unfold passesFilters.
  rewrite (String.eqb_refl (ToString (credits c))), orb_true_r.
  reflexivity.
Qed.

Lemma passes_own_instructor (c : Course) :
  is_string (getInstructorLabel c) = true ->
  passesFilters "All" "All" "All" (ToString (getInstructorLabel c)) c = true.
Proof.
  unfold passesFilters. destruct (getInstructorLabel c); try discriminate.
  intros _. cbn [ToString strict_eq_string].
  rewrite (String.eqb_refl s), orb_true_r. reflexivity.
Qed.

(** X15: over well-typed courses no dropdown offers a dead option: choosing
    any derived department, level, credits or instructor option, with the
    other three filters on "All", leaves at least one course visible. *)
Theorem every_option_matches (courses : list Course) :
  Forall well_typed courses ->
  exists deps levs creds insts,
    sortedDepartments courses = Ok deps
    /\ sortedLevels courses = Ok levs
    /\ sortedCredits courses = Ok creds
    /\ sortedInstructors courses = Ok insts
    /\ (forall v, In v deps ->
          visible (opt_value (option_of v)) "All" "All" "All" courses <> [])
    /\ (forall v, In v levs ->
          visible "All" (opt_value (option_of v)) "All" "All" courses <> [])
    /\ (forall v, In v creds ->
          visible "All" "All" (opt_value (option_of v)) "All" courses <> [])
    /\ (forall v, In v insts ->
          visible "All" "All" "All" (opt_value (option_of v)) courses <> []).
Proof.
  intros Htyped.
  destruct (defaultCompare_sort_total (departmentsSet courses))
    as [deps [Hdeps Pd]].
  destruct (numericCompare_sort_total (levelsSet courses)) as [levs [Hlevs Pl]].
  destruct (numericCompare_sort_total (creditsSet courses)) as [creds [Hcreds Pc]].
  destruct (defaultCompare_sort_total (instructorsSet courses))
    as [insts [Hinsts Pi]].
  exists deps, levs, creds, insts.
  do 4 (split; [assumption|]).
  cbn [opt_value option_of].
  repeat match goal with |- _ /\ _ => split end; intros v Hv.
  - apply (Permutation_in _ (Permutation_sym Pd)), departmentsSet_In in Hv.
    destruct Hv as [c [Hin Hf]]. apply (visible_nonempty _ _ _ _ _ c Hin).
    destruct (typed_In courses Htyped c Hin) as [Hd _]. subst v.
    apply passes_own_department, Hd.
  - apply (Permutation_in _ (Permutation_sym Pl)), levelsSet_In in Hv.
    destruct Hv as [c [Hin [_ Hf]]]. apply (visible_nonempty _ _ _ _ _ c Hin).
    subst v. apply passes_own_level.
  - apply (Permutation_in _ (Permutation_sym Pc)), creditsSet_In in Hv.
    destruct Hv as [c [Hin [_ Hf]]]. apply (visible_nonempty _ _ _ _ _ c Hin).
    subst v. apply passes_own_credits.
  - apply (Permutation_in _ (Permutation_sym Pi)), instructorsSet_In in Hv.
    destruct Hv as [c [Hin Hf]]. apply (visible_nonempty _ _ _ _ _ c Hin).
    destruct (typed_In courses Htyped c Hin) as [_ [_ [_ Hi]]]. subst v.
    apply passes_own_instructor, getInstructorLabel_string, Hi.
Qed.

(** ** The visible courses after a run *)

Lemma sortCourses_Ok_perm (courses sorted : list Course) (sortValue : string) :
  sortCourses courses sortValue = Ok sorted -> Permutation courses sorted.
Proof.
  unfold sortCourses. destruct (sortValue =? "none")%string.
  - intros H. injection H as <-. reflexivity.
  - apply Array_sort_Ok_perm.
Qed.

Lemma applyFiltersAndSort_run (st : state) (sorted : list Course) :
  allCourses st <> [] ->
  sortCourses
    (visible (value (departmentSelect st)) (value (levelSelect st))
       (value (creditsSelect st)) (value (instructorSelect st)) (allCourses st))
    (value (sortSelect st)) = Ok sorted ->
  exists st',
    applyFiltersAndSort st = (Ok tt, st')
    /\ filteredCourses st' = sorted
    /\ courseDetailsDiv st' = hd_error sorted
    /\ courseListDiv st' = rendered sorted.
Proof.
  intros Hall Hsort.
  destruct (applyFiltersAndSort_sorted st sorted Hall Hsort)
    as [st' [Hrun [_ [Hf [Hd Hl]]]]].
  exists st'. repeat split; assumption.
Qed.

(** X16: on a catalog that is not empty, whose courses the chosen sort can
    compare and whose fields can all be converted to strings, a run of the
    filter returns with [filteredCourses] holding
    exactly the courses that pass the four predicates, each once per
    occurrence in the catalog; under "none" or an unknown sort option they
    are in catalog order. *)
Theorem filter_run_result (st : state) :
  allCourses st <> [] ->
  Forall (sortable (value (sortSelect st))) (allCourses st) ->
  Forall (fun c => course_printable c = true) (allCourses st) ->
  exists st',
    applyFiltersAndSort st = (Ok tt, st')
    /\ Permutation
         (visible (value (departmentSelect st)) (value (levelSelect st))
            (value (creditsSelect st)) (value (instructorSelect st))
            (allCourses st))
         (filteredCourses st')
    /\ Forall (fun c =>
                 In c (allCourses st)
                 /\ passesFilters (value (departmentSelect st))
                      (value (levelSelect st)) (value (creditsSelect st))
                      (value (instructorSelect st)) c = true)
              (filteredCourses st')
    /\ ((value (sortSelect st) = "none"
         \/ known_sort (value (sortSelect st)) = false) ->
        filteredCourses st'
        = visible (value (departmentSelect st)) (value (levelSelect st))
            (value (creditsSelect st)) (value (instructorSelect st))
            (allCourses st)).
Proof.
  intros Hall Hsortable _.
  destruct (sortCourses_total (value (sortSelect st))
              (visible (value (departmentSelect st)) (value (levelSelect st))
                 (value (creditsSelect st)) (value (instructorSelect st))
                 (allCourses st)))
    as [sorted [Hsort Hperm]].
  { apply sortable_filter, Hsortable. }
  destruct (applyFiltersAndSort_run st sorted Hall Hsort) as [st' [Hrun [Hf _]]].
  exists st'. rewrite Hf. split; [exact Hrun|]. split; [exact Hperm|]. split.
  - apply Forall_forall. intros c Hc.
    apply (Permutation_in _ (Permutation_sym Hperm)) in Hc.
    apply filter_In in Hc. exact Hc.
  - intros [Hnone|Hunknown].
    + unfold sortCourses in Hsort. rewrite Hnone in Hsort.
      cbn in Hsort. congruence.
    + rewrite sortCourses_unknown in Hsort by exact Hunknown. congruence.
Qed.

(** X17: a department selection other than "All" hides every course whose
    department is not a string, and an instructor selection other than
    "All" every course whose instructor label is not a string: these two
    filters compare without conversion, so the option derived from a
    numeric department shows nothing. *)
Theorem strict_filters_hide_untyped
    (deptValue levelValue creditsValue instructorValue : string) (c : Course) :
  (is_string (department c) = false -> deptValue <> "All" ->
   passesFilters deptValue levelValue creditsValue instructorValue c = false)
  /\ (is_string (getInstructorLabel c) = false -> instructorValue <> "All" ->
      passesFilters deptValue levelValue creditsValue instructorValue c = false).
Proof.
  split; intros Hs Hne; apply String.eqb_neq in Hne; unfold passesFilters;
    rewrite Hne; cbn [orb].
  - destruct (department c); try discriminate; reflexivity.
  - destruct (getInstructorLabel c); try discriminate;
      cbn [strict_eq_string]; rewrite !andb_false_r; reflexivity.
Qed.

(** ** The course list and the details panel *)

Lemma rendered_none_selected (first : Course) (rest : list Course) :
  is_string (id first) = false -> none_selected (rendered (first :: rest)).
Proof.
  intros Hs. unfold none_selected, rendered. apply Forall_forall.
  intros item Hitem. apply in_map_iff in Hitem. destruct Hitem as [c [<- _]].
  destruct (id first); try discriminate; reflexivity.
Qed.

Lemma rendered_same_id (first c : Course) (rest : list Course) :
  In c (first :: rest) -> id c = id first -> is_string (id first) = true ->
  In (CourseItem (ToString (id c)) true c) (rendered (first :: rest)).
Proof.
  intros Hin Hid Hs. unfold rendered. apply in_map_iff. exists c.
  split; [|exact Hin]. rewrite Hid.
  destruct (id first); try discriminate. cbn [ToString strict_eq_string].
  rewrite String.eqb_refl. reflexivity.
Qed.

(** X18: after a run of the filter over a consistent store with comparable
    courses whose fields can all be converted to strings, the course list is the one paragraph when nothing is visible
    and otherwise one button per visible course, in order, labelled with
    the identifier's text; the marked buttons are those whose label is the
    first course's identifier, so every visible course sharing that
    identifier is marked too, and when the first identifier is not a string
    the panel shows the course while no button is marked. *)
Theorem list_after_run (st : state) :
  store_consistent st ->
  Forall (sortable (value (sortSelect st))) (allCourses st) ->
  Forall (fun c => course_printable c = true) (allCourses st) ->
  exists st',
    applyFiltersAndSort st = (Ok tt, st')
    /\ courseListDiv st' = rendered (filteredCourses st')
    /\ courseDetailsDiv st' = hd_error (filteredCourses st')
    /\ (forall first rest,
           filteredCourses st' = first :: rest ->
           (is_string (id first) = false -> none_selected (courseListDiv st'))
           /\ (forall c,
                  In c (first :: rest) -> id c = id first ->
                  is_string (id first) = true ->
                  In (CourseItem (ToString (id c)) true c) (courseListDiv st'))).
Proof.
  intros Hcons Hsortable _.
  assert (Hmain : exists st',
             applyFiltersAndSort st = (Ok tt, st')
             /\ courseListDiv st' = rendered (filteredCourses st')
             /\ courseDetailsDiv st' = hd_error (filteredCourses st')).
  { destruct (allCourses st) as [|c0 more] eqn:Hall.
    - destruct (applyFiltersAndSort_empty st Hall)
        as [st' [Hrun [_ [Hf [Hd Hl]]]]].
      exists st'. rewrite Hf, (Hcons Hall), Hd, (Hl (Hcons Hall)). auto.
    - rewrite <- Hall in Hsortable.
      destruct (sortCourses_total (value (sortSelect st))
                  (visible (value (departmentSelect st)) (value (levelSelect st))
                     (value (creditsSelect st)) (value (instructorSelect st))
                     (allCourses st)))
        as [sorted [Hsort _]].
      { apply sortable_filter, Hsortable. }
      destruct (applyFiltersAndSort_run st sorted) as [st' [Hrun [Hf [Hd Hl]]]];
        [congruence|exact Hsort|].
      exists st'. rewrite Hf. auto. }
  destruct Hmain as [st' [Hrun [Hl Hd]]].
  exists st'. split; [exact Hrun|]. split; [exact Hl|]. split; [exact Hd|].
  intros first rest Hf. rewrite Hl, Hf. split.
  - apply rendered_none_selected.
  - intros c. apply rendered_same_id.
Qed.

Lemma unmarked_rendered (courses : list Course) :
  unmarked (rendered courses) = buttons courses.
Proof.
  destruct courses as [|first rest]; [reflexivity|].
  unfold unmarked, rendered, buttons. rewrite map_map. reflexivity.
Qed.

Lemma unmarked_mark (courseId : JSValue) (items : list list_node) :
  unmarked (mark courseId items) = unmarked items.
Proof.
  unfold unmarked, mark. rewrite map_map. apply map_ext.
  intros [text|text selected course]; reflexivity.
Qed.

Lemma nth_error_buttons (items : list list_node) (courses : list Course)
    (i : nat) (c : Course) :
  unmarked items = buttons courses ->
  nth_error courses i = Some c ->
  exists selected,
    nth_error items i = Some (CourseItem (ToString (id c)) selected c).
Proof.
  intros Hitems Hnth.
  assert (H : nth_error (unmarked items) i
              = Some (CourseItem (ToString (id c)) false c)).
  { rewrite Hitems. destruct courses as [|first rest]; [destruct i; discriminate|].
    unfold buttons. erewrite map_nth_error by exact Hnth. reflexivity. }
  unfold unmarked in H. rewrite nth_error_map in H.
  destruct (nth_error items i) as [[text|text selected course]|];
    try discriminate.
  cbn in H. injection H as -> ->. eauto.
Qed.

Lemma nth_error_no_button (items : list list_node) (courses : list Course)
    (i : nat) :
  unmarked items = buttons courses ->
  nth_error courses i = None ->
  match nth_error items i with
  | Some (CourseItem _ _ _) => False
  | _ => True
  end.
Proof.
  intros Hitems Hnth.
  assert (H : match nth_error (unmarked items) i with
              | Some (CourseItem _ _ _) => False
              | _ => True
              end).
  { rewrite Hitems. destruct courses as [|first rest].
    - destruct i as [|[|i]]; exact I.
    - unfold buttons. rewrite nth_error_map, Hnth. exact I. }
  unfold unmarked in H. rewrite nth_error_map in H.
  destruct (nth_error items i) as [[text|text selected course]|]; auto.
Qed.

Lemma item_click_button (i : nat) (text : string) (selected : bool)
    (course : Course) (st : state) :
  nth_error (courseListDiv st) i = Some (CourseItem text selected course) ->
  exists st',
    item_click i st = (Ok tt, st')
    /\ courseDetailsDiv st' = Some course
    /\ courseListDiv st' = mark (id course) (courseListDiv st)
    /\ allCourses st' = allCourses st
    /\ filteredCourses st' = filteredCourses st.
Proof.
  intros Hnth. unfold item_click, bind, gets. rewrite Hnth. cbn.
  eexists. repeat split.
Qed.

(** X19: when the list holds the buttons of the visible courses, however
    they are marked, a click on the i-th button, that of a course whose
    fields can all be converted to strings, puts the i-th visible
    course in the details panel, makes its identifier the selection and
    re-marks the buttons by that identifier, leaving both arrays and the
    buttons themselves alone; a click where there is no button (past the
    end, or on the "no courses" paragraph) changes nothing. *)
Theorem click_selects (st : state) (i : nat) :
  unmarked (courseListDiv st) = buttons (filteredCourses st) ->
  (forall c,
      nth_error (filteredCourses st) i = Some c ->
      course_printable c = true ->
      exists st',
        item_click i st = (Ok tt, st')
        /\ courseDetailsDiv st' = Some c
        /\ selectedId st' = Some (id c)
        /\ courseListDiv st' = mark (id c) (courseListDiv st)
        /\ unmarked (courseListDiv st') = buttons (filteredCourses st')
        /\ allCourses st' = allCourses st
        /\ filteredCourses st' = filteredCourses st)
  /\ (nth_error (filteredCourses st) i = None ->
      item_click i st = (Ok tt, st)).
Proof.
  intros Hlist. split.
  - intros c Hnth _.
    destruct (nth_error_buttons _ _ _ _ Hlist Hnth) as [selected Hitem].
    destruct (item_click_button i _ _ _ st Hitem)
      as [st' [Hrun [Hd [Hl [Ha Hf]]]]].
    exists st'. unfold selectedId. rewrite Hd, Hl, Hf, unmarked_mark. auto 10.
  - intros Hnone. pose proof (nth_error_no_button _ _ _ Hlist Hnone) as H.
    unfold item_click, bind, gets.
    destruct (nth_error (courseListDiv st) i) as [[text|text selected course]|];
      [reflexivity|contradiction|reflexivity].
Qed.

(** ** What holds in every reachable state *)

Lemma new_Course_normalized (raw : JSValue) (c : Course) :
  new_Course raw = Ok c -> normalized c.
Proof.
  assert (Hdef : forall src d, d <> "" -> truthy (or_else src (VString d)) = true).
  { intros src d Hd. apply or_else_defaulted, Hd. }
  assert (Hnull : forall src,
             or_else src VNull = VNull \/ truthy (or_else src VNull) = true).
  { intros src. unfold or_else. destruct (truthy src) eqn:E; auto. }
  destruct raw; try discriminate;
    try solve [intros H; injection H as <-; unfold normalized; cbn;
               repeat split; auto].
  rewrite new_Course_object. intros H. injection H as <-.
  unfold normalized; cbn [id title department description semester level
                            credits instructor].
  repeat split; try (apply Hdef; discriminate); apply Hnull.
Qed.

Lemma applyFiltersAndSort_visible_in_catalog (st : state) :
  incl (filteredCourses st) (allCourses st) ->
  incl (filteredCourses (snd (applyFiltersAndSort st))) (allCourses st).
Proof.
  intros Hincl. destruct (allCourses st) as [|c0 more] eqn:Hall.
  - destruct (applyFiltersAndSort_empty st Hall) as [st' [Hrun [_ [Hf _]]]].
    rewrite Hrun. cbn [snd]. rewrite Hf. exact Hincl.
  - rewrite <- Hall.
    assert (Hne : allCourses st <> []) by congruence.
    unfold applyFiltersAndSort, bind, gets. rewrite Hall.
    cbn -[filter sortCourses]. rewrite <- Hall. unfold lift.
    match goal with
    | |- context [sortCourses ?l ?v] =>
        destruct (sortCourses l v) as [sorted|e] eqn:Hsort
    end.
    + apply sortCourses_Ok_perm in Hsort.
      assert (Hsub : incl sorted (allCourses st)).
      { intros c Hc. apply (Permutation_in _ (Permutation_sym Hsort)) in Hc.
        apply filter_In in Hc. apply Hc. }
      destruct sorted; cbn; exact Hsub.
    + cbn. intros c Hc. apply filter_In in Hc. apply Hc.
Qed.

Lemma applyFiltersAndSort_invariant (st : state) :
  store_invariant st -> store_invariant (snd (applyFiltersAndSort st)).
Proof.
  intros [Hincl Hnorm]. unfold store_invariant.
  assert (Hkeep : keeps allCourses applyFiltersAndSort) by keeps_tac.
  rewrite (Hkeep st). split; [|exact Hnorm].
  apply applyFiltersAndSort_visible_in_catalog, Hincl.
Qed.

Lemma reader_onload_invariant (text : string) (st : state) :
  store_invariant (snd (reader_onload text st)).
Proof.
  unfold reader_onload, try_catch.
  match goal with
  | |- context [match ?body st with _ => _ end] =>
      assert (Hpost : post body st (fun _ s => store_invariant s));
      [|unfold post in Hpost; destruct (body st) as [[[]|e] s];
        [exact Hpost|cbn; split; [intros c []|constructor]]]
  end.
  apply post_bind. unfold post at 1, lift.
  destruct (JSON_parse text) as [v|e]; [|exact I].
  destruct v; try exact I.
  do 2 apply post_modify. apply post_bind.
  eapply post_weaken.
  { apply post_forEach
      with (I := fun s => filteredCourses s = []
                          /\ Forall normalized (allCourses s)).
    - intros x s [Hf Hn]. apply post_bind. unfold post at 1, lift.
      destruct (new_Course x) as [course|e] eqn:Hx; [|exact I].
      split; [exact Hf|]. cbn. apply Forall_app. split; [exact Hn|].
      constructor; [|constructor]. exact (new_Course_normalized x course Hx).
    - split; [reflexivity|constructor]. }
  intros a s [Hf Hn]. cbv beta.
  destruct (populateFilterDropdowns_run s) as [s1 [Hrun [Ha1 [Hf1 _]]]].
  eapply post_run; [exact Hrun|].
  apply post_bind.
  assert (Hinv : store_invariant (snd (applyFiltersAndSort s1))).
  { apply applyFiltersAndSort_invariant. split.
    - rewrite Hf1, Hf. intros c [].
    - rewrite Ha1. exact Hn. }
  unfold post at 1. destruct (applyFiltersAndSort s1) as [[[]|e] s2]; [|exact I].
  cbn [snd] in Hinv.
  destruct (setError_arrays "" s2) as [s3 [Hrun3 [Ha3 Hf3]]].
  unfold post. rewrite Hrun3. unfold store_invariant. rewrite Ha3, Hf3.
  exact Hinv.
Qed.

Lemma reachable_store_invariant (st : state) :
  reachable st -> store_invariant st.
Proof.
  induction 1 as [st Ha Hf|st ev Hreach IH].
  - split; [rewrite Hf; intros c []|rewrite Ha; constructor].
  - destruct ev as [[[fileName [text|]]|]|which v|i]; cbn [handle].
    + unfold fileInput_change, bind, modify. cbn [outcome name].
      apply reader_onload_invariant.
    + destruct (read_failure_run fileName st) as [st' [Hrun [Ha [Hf _]]]].
      rewrite Hrun. cbn [snd]. unfold store_invariant. rewrite Ha, Hf. exact IH.
    + exact IH.
    + unfold select_change, bind, modify.
      apply applyFiltersAndSort_invariant.
      destruct which; exact IH.
    + destruct (item_click_arrays i st) as [st' [Hrun [Ha [Hf _]]]].
      rewrite Hrun. cbn [snd]. unfold store_invariant. rewrite Ha, Hf. exact IH.
Qed.

(** X20: in every state the script can reach, whatever files were chosen
    and whatever was clicked or selected, every visible course is a course
    of the catalog, an empty catalog shows nothing, and every course of the
    catalog is normalized: its identifier, title, department, description
    and semester are truthy, and its level, credits and instructor are
    [null] or truthy, never [undefined], [0] or the empty string. *)
Theorem reachable_invariant (st : state) :
  reachable st ->
  incl (filteredCourses st) (allCourses st)
  /\ store_consistent st
  /\ Forall normalized (allCourses st).
Proof.
  intros Hreach. destruct (reachable_store_invariant st Hreach) as [Hincl Hnorm].
  split; [exact Hincl|]. split; [|exact Hnorm].
  apply reachable_consistent, Hreach.
Qed.

(** ** A load that succeeds *)

Lemma applyFiltersAndSort_keeps_selects (st : state) :
  departmentSelect (snd (applyFiltersAndSort st)) = departmentSelect st
  /\ levelSelect (snd (applyFiltersAndSort st)) = levelSelect st
  /\ creditsSelect (snd (applyFiltersAndSort st)) = creditsSelect st
  /\ instructorSelect (snd (applyFiltersAndSort st)) = instructorSelect st
  /\ sortSelect (snd (applyFiltersAndSort st)) = sortSelect st
  /\ console (snd (applyFiltersAndSort st)) = console st.
Proof.
  repeat match goal with |- _ /\ _ => split end;
    match goal with
    | |- ?proj (snd (applyFiltersAndSort st)) = _ =>
        assert (H : keeps proj applyFiltersAndSort) by keeps_tac; apply H
    end.
Qed.

(** X21: a text that parses to an array without [null] elements, under a
    sort that can compare the resulting courses, these typed as the data
    model has them and with fields that can all be converted to strings,
    loads: the catalog becomes
    the normalization of the elements in order, whatever it held before;
    every filter is reset to "All" over the freshly derived options while
    the sort control keeps its value; the visible courses are the whole
    catalog as [sortCourses] orders it; the selection is on the first of
    them; and the error message is cleared with nothing logged. *)
Theorem load_success (text : string) (elts : list JSValue)
    (courses : list Course) (st : state) :
  JSON_parse text = Ok (VArray elts) ->
  map new_Course elts = map Ok courses ->
  Forall (sortable (value (sortSelect st))) courses ->
  Forall well_typed courses ->
  Forall (fun c => course_printable c = true) courses ->
  exists st' sorted deps levs creds insts,
    reader_onload text st = (Ok tt, st')
    /\ allCourses st' = courses
    /\ sortCourses courses (value (sortSelect st)) = Ok sorted
    /\ filteredCourses st' = sorted
    /\ follows_first st'
    /\ sortedDepartments courses = Ok deps
    /\ sortedLevels courses = Ok levs
    /\ sortedCredits courses = Ok creds
    /\ sortedInstructors courses = Ok insts
    /\ departmentSelect st' = dropdown_of deps
    /\ levelSelect st' = dropdown_of levs
    /\ creditsSelect st' = dropdown_of creds
    /\ instructorSelect st' = dropdown_of insts
    /\ sortSelect st' = sortSelect st
    /\ errorMessage st' = ""
    /\ errorHidden st' = true
    /\ console st' = console st.
Proof.
  intros Hparse Hmap Hsortable _ _.
  unfold reader_onload, try_catch.
  unfold bind at 1. unfold lift at 1. rewrite Hparse. cbv beta iota.
  unfold bind at 1. unfold modify at 1. cbv beta iota.
  unfold bind at 1. unfold modify at 1. cbv beta iota.
  destruct (forEach_push elts courses
              (set_filteredCourses [] (set_allCourses [] st)) Hmap)
    as [s0 [Hrun0 [Ha0 [Hf0 Hs0]]]].
  assert (Hlog0 : console s0 = console st).
  { assert (Hk : keeps console
                   (forEach elts (fun courseObj =>
                      course <- lift (new_Course courseObj) ;;
                      modify (fun s => set_allCourses (allCourses s ++ [course]) s))))
      by keeps_tac.
    specialize (Hk (set_filteredCourses [] (set_allCourses [] st))).
    rewrite Hrun0 in Hk. exact Hk. }
  rewrite (bind_run _ _ _ _ _ Hrun0). cbn in Ha0, Hf0, Hs0.
  destruct (populateFilterDropdowns_contents s0)
    as (s1 & deps & levs & creds & insts & Hrun1 & Hdeps & Hlevs & Hcreds
        & Hinsts & Hd & Hl & Hc & Hi & Hs1 & Ha1 & Hf1).
  assert (Hlog1 : console s1 = console s0).
  { assert (Hk : keeps console populateFilterDropdowns) by keeps_tac.
    specialize (Hk s0). rewrite Hrun1 in Hk. exact Hk. }
  rewrite (bind_run _ _ _ _ _ Hrun1). rewrite Ha0 in *.
  destruct (sortCourses_total (value (sortSelect st)) courses Hsortable)
    as [sorted [Hsort _]].
  assert (Hcons1 : store_consistent s1).
  { intros _. congruence. }
  assert (Hsortable1 : Forall (sortable (value (sortSelect s1))) (allCourses s1)).
  { rewrite Hs1, Hs0, Ha1. exact Hsortable. }
  destruct (applyFiltersAndSort_follows s1 Hcons1 Hsortable1)
    as [s2 [Hrun2 Hfollows]].
  assert (Hs2 : s2 = snd (applyFiltersAndSort s1)) by (rewrite Hrun2; reflexivity).
  destruct (applyFiltersAndSort_keeps_selects s1)
    as [Kd [Kl [Kc [Ki [Ks Klog]]]]].
  rewrite <- Hs2 in Kd, Kl, Kc, Ki, Ks, Klog.
  assert (Ka2 : allCourses s2 = courses).
  { assert (Hk : keeps allCourses applyFiltersAndSort) by keeps_tac.
    specialize (Hk s1). rewrite <- Hs2 in Hk. congruence. }
  assert (Hf2 : filteredCourses s2 = sorted).
  { destruct courses as [|c0 more] eqn:Hcourses.
    - destruct (applyFiltersAndSort_empty s1 Ha1) as [s2' [Hrun2' [_ [Hf2 _]]]].
      rewrite Hrun2 in Hrun2'. injection Hrun2' as <-.
      rewrite Hf2, Hf1, Hf0.
      unfold sortCourses in Hsort.
      destruct (value (sortSelect st) =? "none")%string; cbn in Hsort; congruence.
    - destruct (applyFiltersAndSort_run s1 sorted) as [s2' [Hrun2' [Hf2 _]]].
      + rewrite Ha1. discriminate.
      + rewrite Hd, Hl, Hc, Hi. cbn [value dropdown_of]. unfold visible.
        rewrite filter_All, Ha1, Hs1, Hs0. exact Hsort.
      + rewrite Hrun2 in Hrun2'. injection Hrun2' as <-. exact Hf2. }
  rewrite (bind_run _ _ _ _ _ Hrun2).
  eexists. exists sorted, deps, levs, creds, insts.
  split; [reflexivity|]. cbn.
  unfold follows_first, selectedId in *. cbn.
  repeat match goal with |- _ /\ _ => split end; try congruence.
Qed.

(** ** Records typed as the input format asks *)

Lemma or_else_string (src : JSValue) (d : string) :
  string_or_absent src = true -> is_string (or_else src (VString d)) = true.
Proof. destruct src; try discriminate; intros _; unfold or_else; cbn;
         try reflexivity. destruct (negb (s =? "")%string); reflexivity. Qed.

Lemma or_else_null_string (src : JSValue) :
  string_or_absent src = true ->
  or_else src VNull = VNull \/ is_string (or_else src VNull) = true.
Proof.
  destruct src; try discriminate; intros _; unfold or_else; cbn; auto.
  destruct (negb (s =? "")%string); auto.
Qed.

Lemma or_else_null_number (src : JSValue) :
  number_or_absent src = true ->
  or_else src VNull = VNull \/ is_number (or_else src VNull) = true.
Proof.
  destruct src; try discriminate; intros _; unfold or_else; cbn; auto.
  destruct (negb (n =? 0)); auto.
Qed.

Lemma typed_record_normalize (props : list (string * JSValue)) :
  typed_record props = true ->
  well_typed (normalize props) /\ keys_typed (normalize props).
Proof.
  unfold typed_record. rewrite !andb_true_iff.
  intros [[[[[[[Hid Htitle] Hdep] Hlevel] Hcredits] Hinst] Hdesc] Hsem].
  unfold well_typed, keys_typed, normalize.
  cbn [id title department level credits instructor description semester].
  repeat split; try (apply or_else_string; assumption).
  - apply or_else_null_number, Hlevel.
  - apply or_else_null_number, Hcredits.
  - apply or_else_null_string, Hinst.
Qed.

Lemma map_new_Course_objects (records : list (list (string * JSValue))) :
  map new_Course (map VObject records) = map Ok (map normalize records).
Proof.
  induction records as [|props rest IH]; [reflexivity|].
  cbn [map]. rewrite IH. reflexivity.
Qed.

(** X22: an array of objects typed as the input format asks (strings where
    strings are expected, numbers for level and credits, any field absent
    or [null]) always loads, under every sort option: the catalog holds one
    course per record, in order, each with its filterable fields and sort
    keys typed as the data model has them, and the error message is
    hidden. *)
Theorem typed_records_load (text : string)
    (records : list (list (string * JSValue))) (st : state) :
  JSON_parse text = Ok (VArray (map VObject records)) ->
  Forall (fun props => typed_record props = true) records ->
  exists st',
    reader_onload text st = (Ok tt, st')
    /\ allCourses st' = map normalize records
    /\ Forall well_typed (allCourses st')
    /\ Forall keys_typed (allCourses st')
    /\ Permutation (allCourses st') (filteredCourses st')
    /\ errorHidden st' = true.
Proof.
  intros Hparse Htyped.
  assert (Hcourses : Forall (fun c => well_typed c /\ keys_typed c)
                       (map normalize records)).
  { apply Forall_map. eapply Forall_impl; [|exact Htyped].
    intros props. apply typed_record_normalize. }
  destruct (reader_onload_success text (map VObject records)
              (map normalize records) st Hparse)
    as [st' [Hrun [Ha [Hperm [_ Hhidden]]]]].
  - apply map_new_Course_objects.
  - eapply Forall_impl; [|exact Hcourses].
    intros c [_ Hk]. apply keys_typed_sortable, Hk.
  - exists st'. rewrite Ha. repeat split; try assumption.
    + eapply Forall_impl; [|exact Hcourses]. intros c H; apply H.
    + eapply Forall_impl; [|exact Hcourses]. intros c H; apply H.
Qed.

(** ** A sort that throws *)

Lemma applyFiltersAndSort_escapes (st : state) (e : exn) :
  allCourses st <> [] ->
  sortCourses
    (visible (value (departmentSelect st)) (value (levelSelect st))
       (value (creditsSelect st)) (value (instructorSelect st)) (allCourses st))
    (value (sortSelect st)) = Throw e ->
  exists st',
    applyFiltersAndSort st = (Throw e, st')
    /\ filteredCourses st'
       = visible (value (departmentSelect st)) (value (levelSelect st))
           (value (creditsSelect st)) (value (instructorSelect st))
           (allCourses st)
    /\ courseListDiv st' = courseListDiv st
    /\ courseDetailsDiv st' = courseDetailsDiv st.
Proof.
  intros Hall Hsort. unfold applyFiltersAndSort, bind, gets.
  destruct (allCourses st) as [|c0 rest] eqn:Hc; [congruence|].
  cbn -[filter sortCourses]. unfold lift. unfold visible in Hsort.
  rewrite Hsort. eexists; repeat split.
Qed.

(** Sorting two or more courses by identifier throws when no identifier is
    a string, whichever pair the sort compares first. *)
Lemma sortCourses_id_throws (courses : list Course) (sortValue : string) :
  sortValue = "id-asc" \/ sortValue = "id-desc" ->
  (2 <= List.length courses)%nat ->
  Forall (fun c => is_string (id c) = false) courses ->
  sortCourses courses sortValue
  = Throw (TypeError "localeCompare is not a function").
Proof.
  intros Hsv Hlen Hs. rewrite Forall_forall in Hs.
  destruct Hsv as [-> | ->]; unfold sortCourses;
    cbn [String.eqb Ascii.eqb Bool.eqb];
    apply Array_sort_throws; try exact Hlen; intros x y Hx Hy.
  - apply (String_localeCompare_not_string (id x) (id y)), Hs, Hx.
  - apply (String_localeCompare_not_string (id y) (id x)), Hs, Hy.
Qed.

(** X23: an exception of the comparator is caught only inside a load.  With
    the sort by identifier chosen and two or more visible courses none of
    whose identifiers is a string, a run of the filter ends in a TypeError
    that escapes: [filteredCourses] already holds the new, unsorted filter
    result, and the course list and the details panel still show what they
    showed before.  A load of two or more such courses, otherwise typed as
    the data model has them, fails: both arrays end empty and the format
    message is shown, although the text was a valid array, the TypeError is
    logged, and the dropdowns already list the options of the courses that
    were dropped. *)
Theorem sort_error_outcomes :
  (forall st,
      value (sortSelect st) = "id-asc" \/ value (sortSelect st) = "id-desc" ->
      (2 <= List.length
              (visible (value (departmentSelect st)) (value (levelSelect st))
                 (value (creditsSelect st)) (value (instructorSelect st))
                 (allCourses st)))%nat ->
      Forall (fun c => is_string (id c) = false)
        (visible (value (departmentSelect st)) (value (levelSelect st))
           (value (creditsSelect st)) (value (instructorSelect st))
           (allCourses st)) ->
      Forall (fun c => printable (level c) = true
                       /\ printable (credits c) = true) (allCourses st) ->
      exists st' msg,
        applyFiltersAndSort st = (Throw (TypeError msg), st')
        /\ filteredCourses st'
           = visible (value (departmentSelect st)) (value (levelSelect st))
               (value (creditsSelect st)) (value (instructorSelect st))
               (allCourses st)
        /\ courseListDiv st' = courseListDiv st
        /\ courseDetailsDiv st' = courseDetailsDiv st)
  /\ (forall text elts courses st,
         JSON_parse text = Ok (VArray elts) ->
         map new_Course elts = map Ok courses ->
         value (sortSelect st) = "id-asc" \/ value (sortSelect st) = "id-desc" ->
         (2 <= List.length courses)%nat ->
         Forall (fun c => is_string (id c) = false) courses ->
         Forall well_typed courses ->
         Forall (fun c => course_printable c = true) courses ->
         exists st' deps msg,
           reader_onload text st = (Ok tt, st')
           /\ allCourses st' = []
           /\ filteredCourses st' = []
           /\ errorMessage st' = "Invalid JSON file format."
           /\ errorHidden st' = false
           /\ console st' = (console st ++ [TypeError msg])%list
           /\ sortedDepartments courses = Ok deps
           /\ departmentSelect st' = dropdown_of deps).
Proof.
  split.
  { intros st Hsv Hlen Hids _.
    destruct (applyFiltersAndSort_escapes st
                (TypeError "localeCompare is not a function"))
      as [st' H].
    - intros Hall. rewrite Hall in Hlen. cbn in Hlen. lia.
    - apply sortCourses_id_throws; assumption.
    - exists st', "localeCompare is not a function". exact H. }
  intros text elts courses st Hparse Hmap Hsv Hlen Hids _ _.
  pose proof (sortCourses_id_throws courses _ Hsv Hlen Hids) as Hsort.
  unfold reader_onload, try_catch.
  unfold bind at 1. unfold lift at 1. rewrite Hparse. cbv beta iota.
  unfold bind at 1. unfold modify at 1. cbv beta iota.
  unfold bind at 1. unfold modify at 1. cbv beta iota.
  destruct (forEach_push elts courses
              (set_filteredCourses [] (set_allCourses [] st)) Hmap)
    as [s0 [Hrun0 [Ha0 [Hf0 Hs0]]]].
  assert (Hlog0 : console s0 = console st).
  { assert (Hk : keeps console
                   (forEach elts (fun courseObj =>
                      course <- lift (new_Course courseObj) ;;
                      modify (fun s => set_allCourses (allCourses s ++ [course]) s))))
      by keeps_tac.
    specialize (Hk (set_filteredCourses [] (set_allCourses [] st))).
    rewrite Hrun0 in Hk. exact Hk. }
  rewrite (bind_run _ _ _ _ _ Hrun0). cbn in Ha0, Hf0, Hs0.
  destruct (populateFilterDropdowns_contents s0)
    as (s1 & deps & levs & creds & insts & Hrun1 & Hdeps & Hlevs & Hcreds
        & Hinsts & Hd & Hl & Hc & Hi & Hs1 & Ha1 & Hf1).
  assert (Hlog1 : console s1 = console s0).
  { assert (Hk : keeps console populateFilterDropdowns) by keeps_tac.
    specialize (Hk s0). rewrite Hrun1 in Hk. exact Hk. }
  rewrite (bind_run _ _ _ _ _ Hrun1). rewrite Ha0 in *.
  assert (Hne : courses <> []).
  { intros ->. cbn in Hlen. lia. }
  destruct (applyFiltersAndSort_escapes s1
              (TypeError "localeCompare is not a function"))
    as [s2 [Hrun2 _]].
  { rewrite Ha1. exact Hne. }
  { rewrite Hd, Hl, Hc, Hi. cbn [value dropdown_of]. unfold visible.
    rewrite filter_All, Ha1, Hs1, Hs0. exact Hsort. }
  assert (Hs2 : s2 = snd (applyFiltersAndSort s1)) by (rewrite Hrun2; reflexivity).
  destruct (applyFiltersAndSort_keeps_selects s1) as [Kd [_ [_ [_ [_ Klog]]]]].
  rewrite <- Hs2 in Kd, Klog.
  unfold bind at 1. rewrite Hrun2.
  eexists. exists deps, "localeCompare is not a function".
  split; [reflexivity|]. cbn.
  repeat match goal with |- _ /\ _ => split end; try congruence.
Qed.

End Script.

(** * The theorems at concrete inputs *)

Lemma normalize_total_defaulted_witness :
  exists c,
    new_Course (VObject [("id", VString "CS101"); ("title", VNumber 7)]) = Ok c
    /\ id c = VString "CS101"
    /\ title c = VNumber 7
    /\ semester c = VString "Unknown semester".
Proof.
  destruct (normalize_total_defaulted
              [("id", VString "CS101"); ("title", VNumber 7)])
    as [c [Hc [[_ [Hid _]] [[_ [Htitle _]] [_ [_ [_ [_ [Hsem _]]]]]]]]].
  exists c. split; [exact Hc|]. split; [|split].
  - apply Hid. reflexivity.
  - apply Htitle. reflexivity.
  - apply Hsem. reflexivity.
Defined.

Lemma normalize_nullable_fields_witness :
  exists c,
    new_Course (VObject [("level", VNumber 0); ("credits", VNumber 4);
                         ("instructor", VString "")]) = Ok c
    /\ level c = VNull
    /\ credits c = VNumber 4
    /\ instructor c = VNull.
Proof.
  destruct (normalize_nullable_fields
              [("level", VNumber 0); ("credits", VNumber 4);
               ("instructor", VString "")])
    as [c [Hc [[_ Hlevel] [[Hcredits _] [[_ Hinstructor] _]]]]].
  exists c. split; [exact Hc|]. split; [|split].
  - apply Hlevel. reflexivity.
  - apply Hcredits. reflexivity.
  - apply Hinstructor. reflexivity.
Defined.

Lemma load_not_an_array_witness :
  example_JSON_parse object_text = Ok (VObject [("id", VString "CS101")])
  /\ Array_isArray (VObject [("id", VString "CS101")]) = false
  /\ exists st',
       reader_onload example_JSON_parse example_localeCompare
         example_StringToNumber object_text example_loaded = (Ok tt, st')
       /\ allCourses st' = []
       /\ filteredCourses st' = []
       /\ errorMessage st' = "Invalid JSON file format."
       /\ errorHidden st' = false
       /\ console st'
          = (console example_loaded ++ [Error "JSON root is not an array"])%list
       /\ courseDetailsDiv st' = None
       /\ courseListDiv st'
          = [Paragraph "no courses match the current filters."].
Proof.
  split; [reflexivity|]. split; [reflexivity|].
  apply (load_not_an_array example_JSON_parse example_localeCompare
           example_StringToNumber object_text
           (VObject [("id", VString "CS101")]) example_loaded);
    reflexivity.
Defined.

Lemma load_failure_outcomes_witness :
  example_JSON_parse scenario_text = Ok (VArray scenario_records)
  /\ allCourses
       (snd (fileInput_change example_JSON_parse example_localeCompare
               example_StringToNumber
               (Some (mkFile "missing.json" ReadFailed))
               (snd (reader_onload example_JSON_parse example_localeCompare
                       example_StringToNumber scenario_text example_start))))
     = [CS101; CS202].
Proof.
  split; [reflexivity|].
  destruct (load_failure_outcomes example_JSON_parse example_localeCompare
              example_StringToNumber) as [_ [_ [_ Hscenario]]].
  destruct (Hscenario scenario_text "missing.json" example_start)
    as [_ [Hfailed _]]; [reflexivity|].
  exact Hfailed.
Defined.

Lemma filter_All_roundtrip_witness :
  store_consistent example_loaded
  /\ allCourses (snd (applyFiltersAndSort example_localeCompare example_loaded))
     = allCourses example_loaded
  /\ filteredCourses
       (snd (applyFiltersAndSort example_localeCompare example_loaded))
     = allCourses example_loaded.
Proof.
  assert (Hcons : store_consistent example_loaded).
  { intros Hempty. discriminate Hempty. }
  split; [exact Hcons|].
  apply (filter_All_roundtrip example_localeCompare example_loaded Hcons);
    reflexivity.
Defined.

Lemma semester_key_order_witness :
  has_space "Fall" = false
  /\ exact_year 2020
  /\ semesterToNumber (VString ("Fall" ++ " " ++ Number_toString 2020))
     = Ok (2020 * 10 + termRank "Fall").
Proof.
  assert (Hyear : exact_year 2020) by (unfold exact_year; lia).
  split; [reflexivity|]. split; [exact Hyear|].
  apply (proj1 (semester_key_order example_localeCompare) "Fall" 2020);
    [reflexivity|exact Hyear].
Defined.

Lemma null_level_excluded_witness :
  level CS101 = VNull
  /\ printable (credits CS101) = true
  /\ passesFilters "All" "3" "4" "All" CS101 = false.
Proof.
  split; [reflexivity|]. split; [reflexivity|].
  apply (proj1 (proj2 (null_level_excluded example_localeCompare))
           "All" "3" "4" "All" CS101);
    [reflexivity|right; reflexivity|discriminate|discriminate].
Defined.

(** Under the selection "null", which the catalog of a course whose level
    is that text derives, a course whose level is [null] passes the level
    predicate and is in the filtered result. *)
Lemma null_selection_shows_null_level :
  level CS101 = VNull
  /\ "null" <> "All"
  /\ sortedLevels example_StringToNumber [course_level_text; CS101]
     = Ok [VString "null"]
  /\ opt_value (option_of (VString "null")) = "null"
  /\ passesFilters "All" "null" "All" "All" CS101 = true
  /\ visible "All" "null" "All" "All" [course_level_text; CS101]
     = [course_level_text; CS101].
Proof.
  split; [reflexivity|]. split; [discriminate|].
  repeat split.
Qed.

Lemma derived_options_witness :
  Forall well_typed [CS101; CS202]
  /\ exists levs insts,
       sortedLevels example_StringToNumber [CS101; CS202] = Ok levs
       /\ sortedInstructors [CS101; CS202] = Ok insts
       /\ NoDup levs /\ StronglySorted by_number levs
       /\ NoDup insts /\ StronglySorted by_string insts.
Proof.
  assert (Htyped : Forall well_typed [CS101; CS202]).
  { constructor; [|constructor; [|constructor]];
      unfold well_typed; simpl; auto. }
  split; [exact Htyped|].
  destruct (derived_options example_StringToNumber [CS101; CS202] Htyped)
    as [deps [levs [creds [insts
         [_ [Hlevs [_ [Hinsts [_ [[Hl1 [Hl2 _]] [_ [[Hi1 [Hi2 _]] _]]]]]]]]]]]].
  exists levs, insts. auto 10.
Defined.

(** Two courses whose departments are objects derive two options of the
    same text: the derived departments are not duplicate-free. *)
Lemma untyped_departments_duplicate :
  sortedDepartments [course_dept_object; course_dept_object]
  = Ok [VObject []; VObject []]
  /\ map option_of [VObject []; VObject []]
     = [ {| opt_value := "[object Object]"; opt_textContent := "[object Object]" |};
         {| opt_value := "[object Object]"; opt_textContent := "[object Object]" |} ]
  /\ ~ NoDup [VObject []; VObject []].
Proof.
  split; [reflexivity|]. split; [reflexivity|].
  intros H. inversion H as [|x l Hnotin _]. apply Hnotin. left. reflexivity.
Qed.

Lemma selection_resets_to_first_witness :
  store_consistent example_loaded
  /\ Forall (sortable (value (sortSelect example_loaded)))
       (allCourses example_loaded)
  /\ Forall (fun c => course_printable c = true) (allCourses example_loaded)
  /\ exists st',
       applyFiltersAndSort example_localeCompare example_loaded = (Ok tt, st')
       /\ follows_first st'.
Proof.
  assert (Hcons : store_consistent example_loaded).
  { intros Hempty. discriminate Hempty. }
  assert (Hsortable : Forall (sortable (value (sortSelect example_loaded)))
                        (allCourses example_loaded)).
  { repeat constructor. }
  assert (Hprintable : Forall (fun c => course_printable c = true)
                         (allCourses example_loaded)).
  { repeat constructor. }
  split; [exact Hcons|]. split; [exact Hsortable|]. split; [exact Hprintable|].
  exact (proj1 (proj2 (selection_resets_to_first example_localeCompare))
           example_loaded Hcons Hsortable Hprintable).
Defined.

(** With identifiers that are numbers and the sort by identifier chosen,
    picking level 2 ends in a [TypeError]: the two courses of level 2 are
    the filtered result, and the selection is still the course of level 1
    shown before. *)
Lemma selection_stale_after_sort_error :
  exists st',
    select_change example_localeCompare Level "2" example_numeric_levels
    = (Throw (TypeError "localeCompare is not a function"), st')
    /\ filteredCourses st' = [course_6_level_2; course_7_level_2]
    /\ selectedId st' = Some (VNumber 5)
    /\ selectedId st' <> Some (id course_6_level_2)
    /\ ~ follows_first st'.
Proof.
  eexists. split; [reflexivity|]. split; [reflexivity|].
  split; [reflexivity|]. split; [discriminate|].
  intros [H _]. discriminate H.
Qed.

Lemma falsy_instructor_is_TBA_witness :
  truthy (lookup "instructor"
            [("id", VString "CS303"); ("instructor", VString "")]) = false
  /\ exists c,
       new_Course (VObject [("id", VString "CS303"); ("instructor", VString "")])
       = Ok c
       /\ instructor c = VNull
       /\ getInstructorLabel c = VString "TBA"
       /\ passesFilters "All" "All" "All" "TBA" c = true.
Proof.
  split; [reflexivity|].
  destruct (falsy_instructor_is_TBA
              [("id", VString "CS303"); ("instructor", VString "")] eq_refl)
    as [c [Hc [Hnull [Hlabel [Hpass _]]]]].
  exists c. auto.
Defined.

(** * The further properties at concrete inputs *)

Lemma example_collation_consistent : collation_consistent example_localeCompare.
Proof.
  unfold collation_consistent, example_localeCompare. split.
  - intros a b. rewrite (String.compare_antisym b a).
    destruct (String.compare a b); cbn; lia.
  - intros a b c Hab Hbc.
    pose proof (string_compare_not_Gt_trans a b c) as H.
    destruct (String.compare a b); try lia;
      destruct (String.compare b c); try lia;
      destruct (String.compare a c); try lia;
      exfalso; apply H; congruence.
Qed.

Lemma scenario_well_typed : Forall well_typed [CS101; CS202].
Proof.
  constructor; [|constructor; [|constructor]]; unfold well_typed; simpl; auto.
Qed.

Lemma scenario_semesters : Forall (fun c => is_string (semester c) = true) [CS101; CS202].
Proof. repeat constructor. Qed.

Lemma example_loaded_consistent : store_consistent example_loaded.
Proof. intros Hempty. discriminate Hempty. Qed.

Lemma example_loaded_sortable :
  Forall (sortable (value (sortSelect example_loaded))) (allCourses example_loaded).
Proof. repeat constructor. Qed.

Lemma scenario_printable :
  Forall (fun c => course_printable c = true) [CS101; CS202].
Proof. repeat constructor. Qed.

Lemma normalize_throws_iff_nullish_witness :
  is_nullish (VNumber 7) = false
  /\ new_Course (VNumber 7) = Ok default_Course.
Proof.
  split; [reflexivity|].
  apply (proj1 (proj2 (proj2 (normalize_throws_iff_nullish (VNumber 7)))));
    [reflexivity|discriminate].
Defined.

Lemma load_null_element_witness :
  example_JSON_parse_null "[null]" = Ok (VArray [VNull])
  /\ In VNull [VNull]
  /\ exists st',
       reader_onload example_JSON_parse_null example_localeCompare
         example_StringToNumber "[null]" example_loaded = (Ok tt, st')
       /\ allCourses st' = []
       /\ departmentSelect st' = departmentSelect example_loaded.
Proof.
  assert (Hin : In VNull [VNull]) by (left; reflexivity).
  split; [reflexivity|]. split; [exact Hin|].
  destruct (load_null_element example_JSON_parse_null example_localeCompare
              example_StringToNumber "[null]" [VNull] example_loaded
              eq_refl Hin)
    as [st' [msg [Hrun [Ha [_ [_ [_ [_ [Hd _]]]]]]]]].
  exists st'. auto.
Defined.

Lemma sem_latest_order_witness :
  Forall (fun c => is_string (semester c) = true) [CS101; CS202]
  /\ exists sorted,
       sortCourses example_localeCompare [CS101; CS202] "sem-latest" = Ok sorted
       /\ Permutation [CS101; CS202] sorted
       /\ StronglySorted by_semester_desc sorted.
Proof.
  split; [exact scenario_semesters|].
  exact (proj1 (sem_latest_order example_localeCompare)
           [CS101; CS202] scenario_semesters).
Defined.

Lemma semester_sorts_stable_witness :
  Forall (fun c => is_string (semester c) = true) [CS101; CS202]
  /\ exists sorted,
       sortCourses example_localeCompare [CS101; CS202] "sem-earliest" = Ok sorted
       /\ (forall k, with_key k sorted = with_key k [CS101; CS202])
       /\ sortCourses example_localeCompare sorted "sem-earliest" = Ok sorted.
Proof.
  split; [exact scenario_semesters|].
  exact (proj1 (semester_sorts_stable example_localeCompare
                  [CS101; CS202] scenario_semesters)).
Defined.

Lemma unknown_sort_keeps_order_witness :
  known_sort "credits-asc" = false
  /\ sortCourses example_localeCompare [CS202; CS101] "credits-asc"
     = Ok [CS202; CS101].
Proof.
  split; [reflexivity|].
  apply (unknown_sort_keeps_order example_localeCompare [CS202; CS101]
           "credits-asc").
  reflexivity.
Defined.

Lemma locale_sorts_order_witness :
  collation_consistent example_localeCompare
  /\ Forall (fun c => is_string (id c) = true) [CS202; CS101]
  /\ exists sorted,
       sortCourses example_localeCompare [CS202; CS101] "id-asc" = Ok sorted
       /\ Permutation [CS202; CS101] sorted
       /\ StronglySorted (by_collation example_localeCompare id) sorted.
Proof.
  assert (Hids : Forall (fun c => is_string (id c) = true) [CS202; CS101])
    by (repeat constructor).
  split; [exact example_collation_consistent|]. split; [exact Hids|].
  exact (proj1 (proj1 (locale_sorts_order example_localeCompare [CS202; CS101]
                         example_collation_consistent) Hids)).
Defined.

Lemma sort_throws_on_untyped_keys_witness :
  (2 <= List.length [course_5; course_6])%nat
  /\ Forall (fun c => is_string (id c) = false) [course_5; course_6]
  /\ sortCourses example_localeCompare [course_5; course_6] "id-asc"
     = Throw (TypeError "localeCompare is not a function").
Proof.
  assert (Hlen : (2 <= List.length [course_5; course_6])%nat) by (cbn; lia).
  assert (Hids : Forall (fun c => is_string (id c) = false) [course_5; course_6])
    by (repeat constructor).
  split; [exact Hlen|]. split; [exact Hids|].
  exact (proj1 (proj1 (proj2 (proj2 (sort_throws_on_untyped_keys
                                       example_localeCompare)))
                  [course_5; course_6] Hlen Hids)).
Defined.

Lemma semester_key_chronological_witness :
  has_space "Fall" = false /\ has_space "Winter" = false
  /\ exact_year 2020 /\ exact_year 2021 /\ 2020 < 2021
  /\ exists k1 k2,
       semesterToNumber (VString (semester_text "Fall" 2020)) = Ok k1
       /\ semesterToNumber (VString (semester_text "Winter" 2021)) = Ok k2
       /\ k1 < k2.
Proof.
  assert (H2020 : exact_year 2020) by (unfold exact_year; lia).
  assert (H2021 : exact_year 2021) by (unfold exact_year; lia).
  split; [reflexivity|]. split; [reflexivity|].
  split; [exact H2020|]. split; [exact H2021|]. split; [reflexivity|].
  apply (proj1 semester_key_chronological "Fall" "Winter" 2020 2021);
    [reflexivity|reflexivity|exact H2020|exact H2021|reflexivity].
Defined.

Lemma semester_key_edge_cases_witness :
  has_space "Fall" = false /\ "Fall" <> "" /\ exact_year 2024
  /\ semesterToNumber (VString "Fall") = Ok (termRank "Fall")
  /\ semesterToNumber (VString (semester_text "Fall" 2024 ++ " " ++ "evening"))
     = Ok (2024 * 10 + termRank "Fall").
Proof.
  assert (H2024 : exact_year 2024) by (unfold exact_year; lia).
  split; [reflexivity|]. split; [discriminate|]. split; [exact H2024|].
  split.
  - apply (proj1 semester_key_edge_cases "Fall"); [reflexivity|discriminate].
  - apply (proj2 (proj2 semester_key_edge_cases) "Fall" 2024 "evening");
      [reflexivity|exact H2024].
Defined.

Lemma numeric_option_selects_witness :
  Forall well_typed [CS101; CS202]
  /\ visible "All" (ToString (VNumber 3)) "All" "All" [CS101; CS202]
     = filter (fun c => SameValueZero (level c) (VNumber 3)) [CS101; CS202].
Proof.
  split; [exact scenario_well_typed|].
  exact (proj1 (numeric_option_selects [CS101; CS202] 3 scenario_well_typed)).
Defined.

Lemma every_option_matches_witness :
  Forall well_typed [CS101; CS202]
  /\ exists insts,
       sortedInstructors [CS101; CS202] = Ok insts
       /\ forall v, In v insts ->
            visible "All" "All" "All" (opt_value (option_of v)) [CS101; CS202]
            <> [].
Proof.
  split; [exact scenario_well_typed|].
  destruct (every_option_matches example_StringToNumber [CS101; CS202]
              scenario_well_typed)
    as (deps & levs & creds & insts & _ & _ & _ & Hinsts & _ & _ & _ & Hi).
  exists insts. split; [exact Hinsts|exact Hi].
Defined.

Lemma filter_run_result_witness :
  allCourses example_loaded <> []
  /\ Forall (sortable (value (sortSelect example_loaded)))
       (allCourses example_loaded)
  /\ Forall (fun c => course_printable c = true) (allCourses example_loaded)
  /\ exists st',
       applyFiltersAndSort example_localeCompare example_loaded = (Ok tt, st')
       /\ Permutation
            (visible "All" "All" "All" "All" (allCourses example_loaded))
            (filteredCourses st').
Proof.
  assert (Hne : allCourses example_loaded <> []) by discriminate.
  split; [exact Hne|]. split; [exact example_loaded_sortable|].
  split; [exact scenario_printable|].
  destruct (filter_run_result example_localeCompare example_loaded Hne
              example_loaded_sortable scenario_printable)
    as [st' [Hrun [Hperm _]]].
  exists st'. split; [exact Hrun|exact Hperm].
Defined.

Lemma strict_filters_hide_untyped_witness :
  is_string (department course_dept_5) = false
  /\ "5" <> "All"
  /\ passesFilters "5" "All" "All" "All" course_dept_5 = false.
Proof.
  split; [reflexivity|]. split; [discriminate|].
  apply (proj1 (strict_filters_hide_untyped "5" "All" "All" "All" course_dept_5));
    [reflexivity|discriminate].
Defined.

Lemma list_after_run_witness :
  store_consistent example_loaded
  /\ Forall (sortable (value (sortSelect example_loaded)))
       (allCourses example_loaded)
  /\ Forall (fun c => course_printable c = true) (allCourses example_loaded)
  /\ exists st',
       applyFiltersAndSort example_localeCompare example_loaded = (Ok tt, st')
       /\ courseListDiv st' = rendered (filteredCourses st')
       /\ courseDetailsDiv st' = hd_error (filteredCourses st').
Proof.
  split; [exact example_loaded_consistent|].
  split; [exact example_loaded_sortable|].
  split; [exact scenario_printable|].
  destruct (list_after_run example_localeCompare example_loaded
              example_loaded_consistent example_loaded_sortable
              scenario_printable)
    as [st' [Hrun [Hl [Hd _]]]].
  exists st'. auto.
Defined.

Lemma click_selects_witness :
  unmarked (courseListDiv example_loaded) = buttons (filteredCourses example_loaded)
  /\ nth_error (filteredCourses example_loaded) 0 = Some CS101
  /\ course_printable CS101 = true
  /\ exists st',
       item_click 0 example_loaded = (Ok tt, st')
       /\ courseDetailsDiv st' = Some CS101
       /\ selectedId st' = Some (id CS101).
Proof.
  split; [reflexivity|]. split; [reflexivity|]. split; [reflexivity|].
  destruct (proj1 (click_selects example_loaded 0 eq_refl) CS101 eq_refl eq_refl)
    as [st' [Hrun [Hd [Hs _]]]].
  exists st'. auto.
Defined.

Lemma reachable_invariant_witness :
  reachable example_JSON_parse example_localeCompare example_StringToNumber
    (snd (handle example_JSON_parse example_localeCompare example_StringToNumber
            (FileChange (Some (mkFile "courses.json" (ReadOk scenario_text))))
            example_start))
  /\ Forall normalized
       (allCourses
          (snd (handle example_JSON_parse example_localeCompare
                  example_StringToNumber
                  (FileChange (Some (mkFile "courses.json" (ReadOk scenario_text))))
                  example_start))).
Proof.
  assert (Hreach : reachable example_JSON_parse example_localeCompare
                     example_StringToNumber
                     (snd (handle example_JSON_parse example_localeCompare
                             example_StringToNumber
                             (FileChange (Some (mkFile "courses.json"
                                                  (ReadOk scenario_text))))
                             example_start))).
  { apply reachable_step. apply reachable_start; reflexivity. }
  split; [exact Hreach|].
  exact (proj2 (proj2 (reachable_invariant example_JSON_parse
                         example_localeCompare example_StringToNumber _ Hreach))).
Defined.

Lemma load_success_witness :
  example_JSON_parse scenario_text = Ok (VArray scenario_records)
  /\ map new_Course scenario_records = map Ok [CS101; CS202]
  /\ Forall (sortable (value (sortSelect example_start))) [CS101; CS202]
  /\ Forall well_typed [CS101; CS202]
  /\ Forall (fun c => course_printable c = true) [CS101; CS202]
  /\ exists st',
       reader_onload example_JSON_parse example_localeCompare
         example_StringToNumber scenario_text example_start = (Ok tt, st')
       /\ allCourses st' = [CS101; CS202]
       /\ follows_first st'
       /\ errorHidden st' = true.
Proof.
  assert (Hsortable : Forall (sortable (value (sortSelect example_start)))
                        [CS101; CS202]) by (repeat constructor).
  split; [reflexivity|]. split; [reflexivity|]. split; [exact Hsortable|].
  split; [exact scenario_well_typed|]. split; [exact scenario_printable|].
  destruct (load_success example_JSON_parse example_localeCompare
              example_StringToNumber scenario_text scenario_records
              [CS101; CS202] example_start eq_refl eq_refl Hsortable
              scenario_well_typed scenario_printable)
    as (st' & sorted & deps & levs & creds & insts & Hrun & Ha & _ & _ & Hfollows
        & _ & _ & _ & _ & _ & _ & _ & _ & _ & _ & Hhidden & _).
  exists st'. auto.
Defined.

Lemma typed_records_load_witness :
  example_JSON_parse scenario_text = Ok (VArray (map VObject scenario_props))
  /\ Forall (fun props => typed_record props = true) scenario_props
  /\ exists st',
       reader_onload example_JSON_parse example_localeCompare
         example_StringToNumber scenario_text example_numeric = (Ok tt, st')
       /\ allCourses st' = map normalize scenario_props
       /\ errorHidden st' = true.
Proof.
  assert (Htyped : Forall (fun props => typed_record props = true) scenario_props)
    by (repeat constructor).
  split; [reflexivity|]. split; [exact Htyped|].
  destruct (typed_records_load example_JSON_parse example_localeCompare
              example_StringToNumber scenario_text scenario_props
              example_numeric eq_refl Htyped)
    as [st' [Hrun [Ha [_ [_ [_ Hhidden]]]]]].
  exists st'. auto.
Defined.

Lemma sort_error_outcomes_witness :
  value (sortSelect example_numeric) = "id-asc"
  /\ (2 <= List.length
             (visible "All" "All" "All" "All" (allCourses example_numeric)))%nat
  /\ Forall (fun c => is_string (id c) = false)
       (visible "All" "All" "All" "All" (allCourses example_numeric))
  /\ Forall (fun c => printable (level c) = true /\ printable (credits c) = true)
       (allCourses example_numeric)
  /\ exists st' msg,
       applyFiltersAndSort example_localeCompare example_numeric
       = (Throw (TypeError msg), st')
       /\ filteredCourses st' = [course_5; course_6]
       /\ courseDetailsDiv st' = courseDetailsDiv example_numeric.
Proof.
  assert (Hlen : (2 <= List.length
                        (visible "All" "All" "All" "All"
                           (allCourses example_numeric)))%nat) by (cbn; lia).
  assert (Hids : Forall (fun c => is_string (id c) = false)
                   (visible "All" "All" "All" "All" (allCourses example_numeric)))
    by (repeat constructor).
  assert (Hprint : Forall (fun c => printable (level c) = true
                                    /\ printable (credits c) = true)
                     (allCourses example_numeric))
    by (repeat constructor).
  split; [reflexivity|]. split; [exact Hlen|]. split; [exact Hids|].
  split; [exact Hprint|].
  destruct (proj1 (sort_error_outcomes example_JSON_parse example_localeCompare
                     example_StringToNumber)
              example_numeric (or_introl eq_refl) Hlen Hids Hprint)
    as [st' [msg [Hrun [Hf [_ Hd]]]]].
  exists st', msg. auto.
Defined.

Lemma dropdown_contents_witness :
  Forall well_typed (allCourses example_loaded)
  /\ Forall (fun c => course_printable c = true) (allCourses example_loaded)
  /\ exists st' levs,
       populateFilterDropdowns example_StringToNumber example_loaded = (Ok tt, st')
       /\ sortedLevels example_StringToNumber (allCourses example_loaded) = Ok levs
       /\ levelSelect st' = dropdown_of levs.
Proof.
  split; [exact scenario_well_typed|]. split; [exact scenario_printable|].
  destruct (dropdown_contents example_StringToNumber example_loaded
              scenario_well_typed scenario_printable)
    as (st' & deps & levs & creds & insts & Hrun & _ & Hlevs & _ & _ & _ & Hl & _).
  exists st', levs. auto.
Defined.
